(** * gofiberobservability: request pipeline, cache-aside read and lifecycle

    A shallow embedding of the Go sources
      - internal/middleware (recovery.go, logging.go, tracing middleware),
      - internal/handler (ListUsers, GetUser),
      - main.go (error handler, middleware registration, deferred teardown),
      - pkg/{logger,tracer,metrics,database} (shutdown functions),
    and the properties of the specification checked against it.

    Conventions.  A Go [int] is a [Z] in the 64-bit range, arithmetic that may
    leave the range is wrapped with [wrap_int].  A Go [error] is an
    [option GoError] ([None] is [nil]).  A handler is a computation in the
    monad [M]: it reads and updates the request state, appends telemetry to an
    event trace, and ends either with a value or with a panic.  [defer] and
    [recover] are the combinators [with_defer] and [with_recover]. *)

From Stdlib Require Import ZArith Lia List String Ascii Bool.
From stdpp Require Import base option list strings pretty gmap.

Import ListNotations.
Local Open Scope string_scope.
Local Open Scope Z_scope.
Local Open Scope list_scope.

(* ------------------------------------------------------------------ *)
(** ** Go integers and strconv.Atoi *)

Definition int_min : Z := - 2 ^ 63.
Definition int_max : Z := 2 ^ 63 - 1.

(** Two's complement wrap-around of a 64-bit [int]. *)
Definition wrap_int (z : Z) : Z := (z + 2 ^ 63) mod 2 ^ 64 - 2 ^ 63.

Definition int_mul (a b : Z) : Z := wrap_int (a * b).
Definition int_sub (a b : Z) : Z := wrap_int (a - b).

Module strconv.

Inductive NumError := ErrSyntax | ErrRange.

Definition is_digit (c : ascii) : bool :=
  let n := Z.of_nat (nat_of_ascii c) in (48 <=? n) && (n <=? 57).

Definition digit_val (c : ascii) : Z := Z.of_nat (nat_of_ascii c) - 48.

(** The digit loop of the fast path of [Atoi]: [n = n*10 + int(ch)], a
    byte that is not a decimal digit is a syntax error. *)
Fixpoint parse_digits (acc : Z) (s : string) : option Z :=
  match s with
  | EmptyString => Some acc
  | String c rest =>
      if is_digit c then parse_digits (acc * 10 + digit_val c) rest
      else None
  end.

(** The sign prefix of the parser: one leading [+] or [-] is taken off. *)
Definition split_sign (s : string) : bool * string :=
  match s with
  | String "-" rest => (true, rest)
  | String "+" rest => (false, rest)
  | _ => (false, s)
  end.

(** The fast path of [Atoi], taken for texts of 1 to 18 bytes, whose
    value fits an [int]: at least one digit after the sign, all decimal;
    on a syntax error the value is 0. *)
Definition atoi_fast (s : string) : Z * option NumError :=
  let neg := fst (split_sign s) in
  let body := snd (split_sign s) in
  match body with
  | EmptyString => (0, Some ErrSyntax)
  | _ =>
      match parse_digits 0 body with
      | None => (0, Some ErrSyntax)
      | Some n => (if neg then - n else n, None)
      end
  end.

Definition maxUint64 : Z := 2 ^ 64 - 1.

(** The loop of [ParseUint] for base 10 and 64 bits.  A byte is first
    checked to be a digit and then the value for overflow, so the range
    error is returned as soon as the digits read so far overflow, before
    any later byte is looked at. *)
Fixpoint parse_uint (n : Z) (s : string) : Z * option NumError :=
  match s with
  | EmptyString => (n, None)
  | String c rest =>
      if is_digit c then
        if maxUint64 / 10 + 1 <=? n then (maxUint64, Some ErrRange)
        else
          let n1 := n * 10 + digit_val c in
          if maxUint64 <? n1 then (maxUint64, Some ErrRange)
          else parse_uint n1 rest
      else (0, Some ErrSyntax)
  end.

(** [ParseUint(s, 10, 64)] *)
Definition ParseUint (s : string) : Z * option NumError :=
  match s with
  | EmptyString => (0, Some ErrSyntax)
  | _ => parse_uint 0 s
  end.

(** [ParseInt(s, 10, 0)]: a syntax error of [ParseUint] gives 0, a value
    outside [int] (a range error of [ParseUint] among them) gives the
    nearest bound and a range error. *)
Definition ParseInt (s : string) : Z * option NumError :=
  match s with
  | EmptyString => (0, Some ErrSyntax)
  | _ =>
      let neg := fst (split_sign s) in
      let un := ParseUint (snd (split_sign s)) in
      match snd un with
      | Some ErrSyntax => (0, Some ErrSyntax)
      | _ =>
          let cutoff := 2 ^ 63 in
          if negb neg && (cutoff <=? fst un) then (cutoff - 1, Some ErrRange)
          else if neg && (cutoff <? fst un) then (- cutoff, Some ErrRange)
          else (if neg then - fst un else fst un, None)
      end
  end.

(** [strconv.Atoi]: the fast path for short texts, [ParseInt] for the
    empty text and for texts of 19 bytes or more. *)
Definition Atoi (s : string) : Z * option NumError :=
  let sLen := String.length s in
  if (0 <? sLen)%nat && (sLen <? 19)%nat then atoi_fast s
  else ParseInt s.

(** What "numeric" means for a query value, stated without the parser:
    the text is an optionally signed, non-empty run of decimal digits. *)
Fixpoint all_digits (s : string) : bool :=
  match s with
  | EmptyString => true
  | String c rest => is_digit c && all_digits rest
  end.

Definition unsigned_numeric (s : string) : bool :=
  match s with
  | EmptyString => false
  | _ => all_digits s
  end.

Definition numeric (s : string) : bool :=
  match s with
  | String "-" rest => unsigned_numeric rest
  | String "+" rest => unsigned_numeric rest
  | _ => unsigned_numeric s
  end.

End strconv.

(* ------------------------------------------------------------------ *)
(** ** Errors, panics and values carried by telemetry *)

(** A Go [error]: a [*fiber.Error] with its HTTP code, or any other error
    value (driver errors, [fmt.Errorf] results). *)
Inductive GoError :=
| FiberError (code : Z) (msg : string)
| PlainError (msg : string).

Definition error_message (e : GoError) : string :=
  match e with
  | FiberError _ m => m
  | PlainError m => m
  end.

(** The value handed to [panic]: an [error], or anything else, of which the
    recovery stage keeps the [%v] rendering. *)
Inductive PanicValue :=
| PanicError (e : GoError)
| PanicOther (rendered : string).

Inductive Value :=
| VStr (s : string)
| VInt (z : Z)
| VBool (b : bool)
| VErr (e : GoError).

Definition Fields := list (string * Value).

Module fiber.
Definition StatusOK : Z := 200.
Definition StatusCreated : Z := 201.
Definition StatusBadRequest : Z := 400.
Definition StatusNotFound : Z := 404.
Definition StatusInternalServerError : Z := 500.
Definition StatusServiceUnavailable : Z := 503.
Definition NewError (code : Z) (msg : string) : GoError := FiberError code msg.
End fiber.

(** [time.Duration] in nanoseconds. *)
Module time.
Definition Millisecond : Z := 1000000.
Definition Second : Z := 1000000000.
Definition Minute : Z := 60 * Second.
(** [Duration.Milliseconds]: truncated division. *)
Definition Milliseconds (d : Z) : Z := Z.quot d Millisecond.
End time.

(* ------------------------------------------------------------------ *)
(** ** Telemetry data: spans, log entries, metric points *)

Inductive SpanStatus := Unset | StatusError (desc : string) | StatusOk.

(** What a [context.Context] says about tracing: nothing, the remote span
    context extracted from a traceparent header, or a span of this process
    (an index into the span store). *)
Inductive Context :=
| Background
| WithRemote (traceparent : string)
| WithSpan (n : nat).

(** A span of the tracing SDK.  [sp_sampled] is the sampler's decision,
    [sp_ended] is set by the first [End]. *)
Record Span := mkSpan {
  sp_name : string;
  sp_server : bool;
  sp_parent : Context;
  sp_sampled : bool;
  sp_attrs : Fields;
  sp_status : SpanStatus;
  sp_errors : list (GoError * bool);
  sp_ended : bool }.

Inductive Level := InfoLevel | WarnLevel | ErrorLevel.

(** A zap entry; [log_trace] is the span whose trace_id and span_id fields
    the logger carries (see [GetLoggerWithTraceContext]). *)
Record LogEntry := mkLog {
  log_level : Level;
  log_msg : string;
  log_trace : Context;
  log_fields : Fields }.

(** What a request hands to the telemetry sinks, in order. *)
Inductive Event :=
| EvLog (e : LogEntry)
| EvCounter (name : string) (delta : Z) (attrs : Fields)
| EvHistogram (name : string) (value : Z) (attrs : Fields)
| EvSpanStart (n : nat)
| EvSpanEnd (n : nat).

(* ------------------------------------------------------------------ *)
(** ** Resource, request, response, storage *)

Record User := mkUser {
  ID : Z;
  Name : string;
  Email : string;
  CreatedAt : Z }.

(** Values passed to [c.JSON]: [fiber.Map] literals and [User] structs. *)
#[warnings="-register-all"]
Inductive JSON :=
| JStr (s : string)
| JInt (z : Z)
| JUser (u : User)
| JUsers (us : list User)
| JMap (kv : list (string * JSON)).

Record Request := mkRequest {
  req_method : string;
  req_path : string;
  req_original_url : string;
  req_headers : list (string * string);
  req_query : list (string * string);
  req_params : list (string * string);
  req_body : string;
  req_ip : string }.

Record Response := mkResponse {
  resp_status : Z;
  resp_headers : list (string * string);
  resp_body : string }.

(** The cache: a reachable Redis holds [key -> (bytes, ttl)], an
    unreachable one fails every command with [rdb_fault]. *)
Record Redis := mkRedis {
  rdb_fault : option string;
  rdb_data : gmap string (string * Z) }.

(** A row of table [users]; a row that does not scan into [User] keeps
    its id and the scan error. *)
Inductive PgRow :=
| GoodRow (u : User)
| BadRow (id : Z) (cause : string).

Definition row_id (r : PgRow) : Z :=
  match r with
  | GoodRow u => ID u
  | BadRow id _ => id
  end.

(** The durable store: the rows of [users] in id order, or a fault that
    fails every query (connection refused, pool closed, ...). *)
Record Pg := mkPg {
  pg_fault : option string;
  pg_rows : list PgRow }.

(** Everything a request can observe or change. *)
Record State := mkState {
  request : Request;
  route_path : string;
  response : Response;
  user_context : Context;
  spans : list Span;
  tracing_enabled : bool;
  sampled : bool;
  traceparent_of : nat -> string;
  clock : Z;
  redis : Redis;
  pg : Pg }.

Definition set_response (r : Response) (s : State) : State :=
  mkState (request s) (route_path s) r (user_context s) (spans s)
          (tracing_enabled s) (sampled s) (traceparent_of s) (clock s) (redis s) (pg s).

Definition set_user_context (c : Context) (s : State) : State :=
  mkState (request s) (route_path s) (response s) c (spans s)
          (tracing_enabled s) (sampled s) (traceparent_of s) (clock s) (redis s) (pg s).

Definition set_spans (l : list Span) (s : State) : State :=
  mkState (request s) (route_path s) (response s) (user_context s) l
          (tracing_enabled s) (sampled s) (traceparent_of s) (clock s) (redis s) (pg s).

Definition set_redis (r : Redis) (s : State) : State :=
  mkState (request s) (route_path s) (response s) (user_context s) (spans s)
          (tracing_enabled s) (sampled s) (traceparent_of s) (clock s) r (pg s).

(* ------------------------------------------------------------------ *)
(** ** The handler monad: state, event trace, panics *)

Inductive Res (A : Type) :=
| Val (a : A)
| Panic (v : PanicValue).
Arguments Val {A} a.
Arguments Panic {A} v.

Definition M (A : Type) : Type := State -> Res A * State * list Event.

Definition ret {A} (a : A) : M A := fun s => (Val a, s, []).

Definition bind {A B} (m : M A) (f : A -> M B) : M B :=
  fun s =>
    match m s with
    | (Val a, s1, ev1) =>
        match f a s1 with
        | (r, s2, ev2) => (r, s2, ev1 ++ ev2)
        end
    | (Panic v, s1, ev1) => (Panic v, s1, ev1)
    end.

Notation "x <- m ;; k" := (bind m (fun x => k))
  (at level 93, m at next level, right associativity).
Notation "m ;;; k" := (bind m (fun _ => k))
  (at level 93, right associativity).

Definition gets {A} (f : State -> A) : M A := fun s => (Val (f s), s, []).
Definition modify (f : State -> State) : M unit := fun s => (Val tt, f s, []).
Definition emit (e : Event) : M unit := fun s => (Val tt, s, [e]).
Definition panic {A} (v : PanicValue) : M A := fun s => (Panic v, s, []).

(** [defer d(); body]: [d] runs when [body] is left, by return or by
    panic; a panic of [body] goes on after [d]. *)
Definition with_defer {A} (d : M unit) (body : M A) : M A :=
  fun s =>
    match body s with
    | (r, s1, ev1) =>
        match d s1 with
        | (Val _, s2, ev2) => (r, s2, ev1 ++ ev2)
        | (Panic v, s2, ev2) => (Panic v, s2, ev1 ++ ev2)
        end
    end.

(** [defer func() { if r := recover(); r != nil { h(r) } }(); body]: when
    [body] panics, [h] runs and the function returns the zero value of its
    (unnamed) result. *)
Definition with_recover {A} (zero : A) (h : PanicValue -> M unit) (body : M A) : M A :=
  fun s =>
    match body s with
    | (Val a, s1, ev1) => (Val a, s1, ev1)
    | (Panic v, s1, ev1) =>
        match h v s1 with
        | (Val _, s2, ev2) => (Val zero, s2, ev1 ++ ev2)
        | (Panic v', s2, ev2) => (Panic v', s2, ev1 ++ ev2)
        end
    end.

Definition Handler := M (option GoError).

(* ------------------------------------------------------------------ *)
(** ** The framework, the SDKs and the drivers, as the program uses them *)

Fixpoint assoc {A} (k : string) (l : list (string * A)) : option A :=
  match l with
  | [] => None
  | (k', v) :: l' => if String.eqb k k' then Some v else assoc k l'
  end.

Definition set_header (k v : string) (l : list (string * string)) : list (string * string) :=
  filter (fun kv => negb (String.eqb k (fst kv))) l ++ [(k, v)].

Definition len (b : string) : Z := Z.of_nat (String.length b).

(** fiber.Ctx *)
Definition c_Method : M string := gets (fun s => req_method (request s)).
Definition c_Path : M string := gets (fun s => req_path (request s)).
Definition c_OriginalURL : M string := gets (fun s => req_original_url (request s)).
Definition c_IP : M string := gets (fun s => req_ip (request s)).
Definition c_Get (k : string) : M string :=
  gets (fun s => default "" (assoc k (req_headers (request s)))).
Definition c_Params (k : string) : M string :=
  gets (fun s => default "" (assoc k (req_params (request s)))).

(** [c.Query(key, def)]: the default stands in for a missing and for an
    empty value. *)
Definition c_Query (k def : string) : M string :=
  gets (fun s =>
    match assoc k (req_query (request s)) with
    | Some (String a v) => String a v
    | _ => def
    end).

(** [c.Route()] is never nil: without a matched route the framework hands
    out a route whose path is the request path, kept in [route_path]. *)
Definition c_Route : M (option string) := gets (fun s => Some (route_path s)).
Definition c_Route_Path : M string := gets route_path.

Definition c_Context : M Context := gets user_context.
Definition c_SetContext (ctx : Context) : M unit := modify (set_user_context ctx).

Definition c_Request_Body : M string := gets (fun s => req_body (request s)).
Definition c_Response_Body : M string := gets (fun s => resp_body (response s)).
Definition c_Response_StatusCode : M Z := gets (fun s => resp_status (response s)).

(** The two header maps are built afresh from the request and the
    response on each call: writing to the returned map does not write to
    the message. *)
Definition c_GetReqHeaders : M (list (string * string)) :=
  gets (fun s => req_headers (request s)).
Definition c_GetRespHeaders : M (list (string * string)) :=
  gets (fun s => resp_headers (response s)).

Definition c_Status (code : Z) : M unit :=
  modify (fun s =>
    set_response (mkResponse code (resp_headers (response s)) (resp_body (response s))) s).

Definition c_SendStatus (code : Z) : M (option GoError) :=
  c_Status code ;;; ret None.

(** time.Now *)
Definition time_Now : M Z := gets clock.

(** logger.GetLogger and logger.GetLoggerWithTraceContext: the logger
    carries trace_id and span_id when the context has a valid span context. *)
Definition Logger := Context.
Definition GetLogger : Logger := Background.
Definition GetLoggerWithTraceContext (ctx : Context) : Logger := ctx.

Definition zap_Info (log : Logger) (msg : string) (f : Fields) : M unit :=
  emit (EvLog (mkLog InfoLevel msg log f)).
Definition zap_Warn (log : Logger) (msg : string) (f : Fields) : M unit :=
  emit (EvLog (mkLog WarnLevel msg log f)).
Definition zap_Error (log : Logger) (msg : string) (f : Fields) : M unit :=
  emit (EvLog (mkLog ErrorLevel msg log f)).

(** Metric instruments of the logging stage. *)
Definition counter_Add (name : string) (n : Z) (attrs : Fields) : M unit :=
  emit (EvCounter name n attrs).
Definition histogram_Record (name : string) (v : Z) (attrs : Fields) : M unit :=
  emit (EvHistogram name v attrs).

(** *** Spans *)

(** [span.IsRecording]: a sampled span of this process that has not ended. *)
Definition is_recording (sp : Span) : bool := sp_sampled sp && negb (sp_ended sp).

Definition span_recording (s : State) (ctx : Context) : bool :=
  match ctx with
  | WithSpan n =>
      match spans s !! n with
      | Some sp => is_recording sp
      | None => false
      end
  | _ => false
  end.

Definition span_IsRecording (ctx : Context) : M bool :=
  gets (fun s => span_recording s ctx).

(** Writes to a span that is not recording are dropped. *)
Definition span_update (ctx : Context) (f : Span -> Span) : M unit :=
  match ctx with
  | WithSpan n =>
      modify (fun s =>
        set_spans (alter (fun sp => if is_recording sp then f sp else sp) n (spans s)) s)
  | _ => ret tt
  end.

Definition span_SetAttributes (ctx : Context) (kv : Fields) : M unit :=
  span_update ctx (fun sp =>
    mkSpan (sp_name sp) (sp_server sp) (sp_parent sp) (sp_sampled sp)
           (sp_attrs sp ++ kv) (sp_status sp) (sp_errors sp) (sp_ended sp)).

Definition status_rank (st : SpanStatus) : Z :=
  match st with Unset => 0 | StatusError _ => 1 | StatusOk => 2 end.

(** [span.SetStatus]: a status of lower rank does not replace the
    current one. *)
Definition span_SetStatus (ctx : Context) (st : SpanStatus) : M unit :=
  span_update ctx (fun sp =>
    mkSpan (sp_name sp) (sp_server sp) (sp_parent sp) (sp_sampled sp)
           (sp_attrs sp)
           (if status_rank st <? status_rank (sp_status sp) then sp_status sp else st)
           (sp_errors sp) (sp_ended sp)).

Definition span_RecordError (ctx : Context) (e : GoError) (withStack : bool) : M unit :=
  span_update ctx (fun sp =>
    mkSpan (sp_name sp) (sp_server sp) (sp_parent sp) (sp_sampled sp)
           (sp_attrs sp) (sp_status sp) (sp_errors sp ++ [(e, withStack)]) (sp_ended sp)).

(** [span.End]: every call on a span of this process is an [EvSpanEnd]
    in the trace; the span is ended from the first call on. *)
Definition span_ended (sp : Span) : Span :=
  mkSpan (sp_name sp) (sp_server sp) (sp_parent sp) (sp_sampled sp)
         (sp_attrs sp) (sp_status sp) (sp_errors sp) true.

Definition end_span (n : nat) (s : State) : State :=
  set_spans (alter span_ended n (spans s)) s.

Definition span_End (ctx : Context) : M unit :=
  match ctx with
  | WithSpan n => modify (end_span n) ;;; emit (EvSpanEnd n)
  | _ => ret tt
  end.

(** [tracer.Start]: with the tracer provider installed, a new span whose
    parent is the span context of [ctx]; without it, the no-op span. *)
Definition tracer_Start (ctx : Context) (name : string) (attrs : Fields) (server : bool)
  : M Context :=
  fun s =>
    if tracing_enabled s then
      let n := length (spans s) in
      (Val (WithSpan n),
       set_spans (spans s ++ [mkSpan name server ctx (sampled s) attrs Unset [] false]) s,
       [EvSpanStart n])
    else (Val Background, s, []).

(** The text map propagator installed by [InitTracer] (W3C trace context);
    without it the global propagator does nothing. *)
Definition propagator_Extract (ctx : Context) (carrier : list (string * string)) : M Context :=
  gets (fun s =>
    if tracing_enabled s then
      match assoc "Traceparent" carrier with
      | Some tp => WithRemote tp
      | None => ctx
      end
    else ctx).

Definition propagator_Inject (ctx : Context) (carrier : list (string * string))
  : M (list (string * string)) :=
  gets (fun s =>
    if tracing_enabled s then
      match ctx with
      | WithSpan n => set_header "Traceparent" (traceparent_of s n) carrier
      | WithRemote tp => set_header "Traceparent" tp carrier
      | Background => carrier
      end
    else carrier).

(** *** Redis and PostgreSQL *)

Definition redis_Nil : GoError := PlainError "redis: nil".
Definition ErrNoRows : GoError := PlainError "no rows in result set".

(** [rdb.Get(ctx, key).Result()] *)
Definition redis_Get (key : string) : M (string + GoError) :=
  gets (fun s =>
    match rdb_fault (redis s) with
    | Some f => inr (PlainError f)
    | None =>
        match rdb_data (redis s) !! key with
        | Some (v, _) => inl v
        | None => inr redis_Nil
        end
    end).

(** [rdb.Set(ctx, key, value, ttl)] *)
Definition redis_Set (key value : string) (ttl : Z) : M (option GoError) :=
  fun s =>
    match rdb_fault (redis s) with
    | Some f => (Val (Some (PlainError f)), s, [])
    | None =>
        (Val None,
         set_redis (mkRedis None (<[key := (value, ttl)]> (rdb_data (redis s)))) s,
         [])
    end.

(** [SELECT ... FROM users WHERE id = $1] with a text parameter, then
    [Scan]: the server parses the parameter as an integer. *)
Definition pg_select_user (db : Pg) (id : string) : User + GoError :=
  match pg_fault db with
  | Some f => inr (PlainError f)
  | None =>
      match strconv.Atoi id with
      | (n, None) =>
          match find (fun r => row_id r =? n) (pg_rows db) with
          | Some (GoodRow u) => inl u
          | Some (BadRow _ cause) => inr (PlainError cause)
          | None => inr ErrNoRows
          end
      | (_, Some _) => inr (PlainError "invalid input syntax for type integer")
      end
  end.

(** [pool.Query(ctx, "SELECT ... ORDER BY id LIMIT $1 OFFSET $2", limit,
    offset)] as the caller sees it: the error [Query] returns when no
    connection can be had, or the rows that [Next] is going to yield.
    For a negative LIMIT or OFFSET the server's error arrives while the
    rows are read: [Query] returns no error, [Next] yields no row, and
    the error is kept for [rows.Err()]. *)
Definition pg_select_users (db : Pg) (limit offset : Z) : list PgRow + GoError :=
  match pg_fault db with
  | Some f => inr (PlainError f)
  | None =>
      if limit <? 0 then inl []
      else if offset <? 0 then inl []
      else inl (take (Z.to_nat limit) (drop (Z.to_nat offset) (pg_rows db)))
  end.

(* ------------------------------------------------------------------ *)
(** ** Middleware, handlers and the application *)

Section Application.

(** encoding/json and runtime/debug are taken as given: the bytes
    [json.Marshal] returns for a value, what [json.Unmarshal] makes of
    cached bytes, and the text of [debug.Stack()]. *)
Variable json_Marshal : JSON -> string.
Variable json_Unmarshal : string -> User + GoError.
Variable debug_Stack : string.

(** [c.JSON(v)]: the body is the encoding of [v]. *)
Definition c_JSON (v : JSON) : M (option GoError) :=
  modify (fun s =>
    set_response
      (mkResponse (resp_status (response s))
                  (set_header "Content-Type" "application/json" (resp_headers (response s)))
                  (json_Marshal v)) s) ;;;
  ret None.

(** *** internal/middleware/recovery.go *)

Definition RecoveryMiddleware (log : Logger) (next : Handler) : Handler :=
  with_recover None
    (fun r =>
       let err :=
         match r with
         | PanicError e => e
         | PanicOther v => PlainError v
         end in
       let stack := debug_Stack in
       ctx <- c_Context ;;
       let span := ctx in
       recording <- span_IsRecording span ;;
       (if recording : bool then
          span_SetStatus span (StatusError "panic recovered") ;;;
          span_RecordError span err true ;;;
          span_SetAttributes span
            [("panic.error", VStr (error_message err));
             ("panic.stack", VStr stack)]
        else ret tt) ;;;
       path <- c_Path ;;
       method <- c_Method ;;
       zap_Error log "Panic recovered"
         [("error", VErr err); ("stack", VStr stack);
          ("path", VStr path); ("method", VStr method)] ;;;
       c_Status fiber.StatusInternalServerError ;;;
       _ <- c_JSON (JMap [("error", JStr "Internal Server Error")]) ;;
       ret tt)
    next.

(** *** internal/middleware/logging.go *)

Definition LoggingMiddleware (next : Handler) : Handler :=
  start <- time_Now ;;
  ctx <- c_Context ;;
  let log := GetLoggerWithTraceContext ctx in
  method <- c_Method ;;
  route <- c_Route_Path ;;
  path <- c_Path ;;
  ua <- c_Get "User-Agent" ;;
  ip <- c_IP ;;
  zap_Info log "Incoming request"
    [("http.method", VStr method); ("http.route", VStr route);
     ("http.path", VStr path); ("http.user_agent", VStr ua);
     ("http.client_ip", VStr ip)] ;;;
  err <- next ;;
  now <- time_Now ;;
  let duration := now - start in
  statusCode <- c_Response_StatusCode ;;
  let statusCode :=
    match err with
    | Some e =>
        if statusCode =? fiber.StatusOK then
          match e with
          | FiberError code _ => code
          | PlainError _ => fiber.StatusInternalServerError
          end
        else statusCode
    | None => statusCode
    end in
  method <- c_Method ;;
  route <- c_Route_Path ;;
  counter_Add "http.requests_total" 1
    [("http.method", VStr method); ("http.route", VStr route);
     ("http.status_code", VInt statusCode)] ;;;
  histogram_Record "http.request.duration_ms" (time.Milliseconds duration)
    [("http.method", VStr method); ("http.route", VStr route);
     ("http.status_code", VInt statusCode)] ;;;
  reqBody <- c_Request_Body ;;
  respBody <- c_Response_Body ;;
  histogram_Record "http.request.size_bytes" (len reqBody)
    [("http.method", VStr method); ("http.route", VStr route)] ;;;
  histogram_Record "http.response.size_bytes" (len respBody)
    [("http.method", VStr method); ("http.route", VStr route)] ;;;
  zap_Info log "Request completed"
    [("http.method", VStr method); ("http.route", VStr route);
     ("http.status_code", VInt statusCode);
     ("http.request.duration_ms", VInt (time.Milliseconds duration))] ;;;
  match err with
  | Some e =>
      path <- c_Path ;;
      zap_Error log "Request error"
        [("http.method", VStr method); ("http.path", VStr path); ("error", VErr e)]
  | None => ret tt
  end ;;;
  ret err.

(** *** internal/middleware: the tracing middleware

    The carrier handed to [Inject] is the map [GetRespHeaders] returns;
    the map is not written back to the response. *)

Definition TracingMiddleware (serviceName : string) (next : Handler) : Handler :=
  ctx0 <- c_Context ;;
  reqHeaders <- c_GetReqHeaders ;;
  ctx <- propagator_Extract ctx0 reqHeaders ;;
  method <- c_Method ;;
  path <- c_Path ;;
  route <- c_Route ;;
  let spanName :=
    match route with
    | Some routePath => method +:+ " " +:+ routePath
    | None => method +:+ " " +:+ path
    end in
  url <- c_OriginalURL ;;
  ip <- c_IP ;;
  ua <- c_Get "User-Agent" ;;
  ctx <- tracer_Start ctx spanName
    [("service.name", VStr serviceName); ("http.method", VStr method);
     ("http.url", VStr url); ("http.target", VStr path);
     ("http.client_ip", VStr ip); ("http.user_agent", VStr ua)] true ;;
  let span := ctx in
  with_defer (span_End span)
    (c_SetContext ctx ;;;
     err <- next ;;
     statusCode <- c_Response_StatusCode ;;
     span_SetAttributes span [("http.status_code", VInt statusCode)] ;;;
     match err with
     | Some e =>
         span_RecordError span e false ;;;
         span_SetStatus span (StatusError (error_message e))
     | None => ret tt
     end ;;;
     carrier <- c_GetRespHeaders ;;
     _ <- propagator_Inject ctx carrier ;;
     ret err).

(** *** internal/handler: ListUsers *)

(** The pagination block: [limit], [page] and [offset] from the two query
    values, parse errors dropped. *)
Definition pagination (limitQuery pageQuery : string) : Z * Z * Z :=
  let limit := fst (strconv.Atoi limitQuery) in
  let limit := if 100 <? limit then 100 else limit in
  let page := fst (strconv.Atoi pageQuery) in
  let page := if page <? 1 then 1 else page in
  let offset := int_mul (int_sub page 1) limit in
  (limit, page, offset).

(** The [rows.Next()] loop.  A row that fails to scan is logged; the
    failed [Scan] closes the rows, so the [Next] that [continue] reaches
    is false and the loop ends with the users read so far. *)
Fixpoint scan_rows (log : Logger) (rows : list PgRow) (users : list User)
  : M (list User) :=
  match rows with
  | [] => ret users
  | GoodRow u :: rest => scan_rows log rest (users ++ [u])
  | BadRow _ cause :: _ =>
      zap_Error log "Failed to scan user row" [("error", VErr (PlainError cause))] ;;;
      ret users
  end.

Definition ListUsers (serviceName : string) : Handler :=
  ctx <- c_Context ;;
  let log := GetLoggerWithTraceContext ctx in
  limitQuery <- c_Query "limit" "10" ;;
  pageQuery <- c_Query "page" "1" ;;
  let '(limit, page, offset) := pagination limitQuery pageQuery in
  ctx <- tracer_Start ctx "db.list-users" [] false ;;
  let span := ctx in
  with_defer (span_End span)
    (span_SetAttributes span
       [("pagination.limit", VInt limit); ("pagination.page", VInt page)] ;;;
     rows <- gets (fun s => pg_select_users (pg s) limit offset) ;;
     match rows with
     | inr err =>
         zap_Error log "Failed to query users" [("error", VErr err)] ;;;
         ret (Some (fiber.NewError fiber.StatusInternalServerError "Failed to fetch users"))
     | inl rows =>
         users <- scan_rows log rows [] ;;
         zap_Info log "Users fetched with pagination"
           [("count", VInt (Z.of_nat (length users)));
            ("limit", VInt limit); ("page", VInt page)] ;;;
         c_JSON (JMap
           [("users", JUsers users);
            ("metadata", JMap
               [("count", JInt (Z.of_nat (length users)));
                ("limit", JInt limit); ("page", JInt page)])])
     end).

(** *** internal/handler: GetUser *)

Definition cache_ttl : Z := 10 * time.Minute.

Definition GetUser (serviceName : string) : Handler :=
  ctx <- c_Context ;;
  let log := GetLoggerWithTraceContext ctx in
  id <- c_Params "id" ;;
  let cacheKey := "user:" +:+ id in
  ctx <- tracer_Start ctx "handler.get-user" [] false ;;
  let span := ctx in
  with_defer (span_End span)
    (span_SetAttributes span [("user.id", VStr id)] ;;;
     let cache_miss : Handler :=
       zap_Info log "Cache miss" [("id", VStr id)] ;;;
       span_SetAttributes span [("cache.hit", VBool false)] ;;;
       row <- gets (fun s => pg_select_user (pg s) id) ;;
       match row with
       | inr err =>
           zap_Error log "User not found" [("id", VStr id); ("error", VErr err)] ;;;
           ret (Some (fiber.NewError fiber.StatusNotFound "User not found"))
       | inl user =>
           let userJSON := json_Marshal (JUser user) in
           _ <- redis_Set cacheKey userJSON cache_ttl ;;
           c_JSON (JUser user)
       end in
     cached <- redis_Get cacheKey ;;
     match cached with
     | inl val =>
         match json_Unmarshal val with
         | inl user =>
             zap_Info log "Cache hit" [("id", VStr id)] ;;;
             span_SetAttributes span [("cache.hit", VBool true)] ;;;
             c_JSON (JUser user)
         | inr err =>
             zap_Warn log "Failed to unmarshal cached user" [("error", VErr err)] ;;;
             cache_miss
         end
     | inr _ => cache_miss
     end).

(** *** main.go: error handler, routes, middleware registration *)

Definition ErrorHandler (err : GoError) : M (option GoError) :=
  let code :=
    match err with
    | FiberError c _ => c
    | PlainError _ => fiber.StatusInternalServerError
    end in
  ctx <- c_Context ;;
  let log := GetLoggerWithTraceContext ctx in
  path <- c_Path ;;
  zap_Error log "Request error"
    [("error", VErr err); ("status_code", VInt code); ("path", VStr path)] ;;;
  c_Status code ;;;
  c_JSON (JMap [("error", JStr (error_message err))]).

Definition route_api_panic : Handler :=
  panic (PanicOther "This is a simulated panic!").

Definition route_api_error : Handler :=
  ctx <- c_Context ;;
  let log := GetLoggerWithTraceContext ctx in
  zap_Error log "Simulated error endpoint called" [] ;;;
  ret (Some (fiber.NewError fiber.StatusInternalServerError "This is a simulated error")).

Definition route_debug_error : Handler :=
  ret (Some (fiber.NewError fiber.StatusBadRequest "This is a deliberate error")).

(** The chain registered with [app.Use]: recovery, tracing when enabled,
    logging, then the route's handler. *)
Definition middleware_chain (serviceName : string) (route : Handler) : Handler :=
  fun s =>
    RecoveryMiddleware GetLogger
      (if tracing_enabled s
       then TracingMiddleware serviceName (LoggingMiddleware route)
       else LoggingMiddleware route) s.

(** One request through the application: an error that leaves the chain
    goes to [ErrorHandler]; a failing error handler answers 500. *)
Definition serve (serviceName : string) (route : Handler) : M unit :=
  err <- middleware_chain serviceName route ;;
  match err with
  | Some e =>
      catch <- ErrorHandler e ;;
      match catch with
      | Some _ => _ <- c_SendStatus fiber.StatusInternalServerError ;; ret tt
      | None => ret tt
      end
  | None => ret tt
  end.

End Application.

(* ------------------------------------------------------------------ *)
(** ** Lifecycle: the teardown of main.go and of the pkg/ subsystems *)

Inductive Subsystem :=
| Server
| Cache
| StorePool
| MetricsExporter
| TraceExporter
| LogExporter.

(** A process-wide handle (a Go package variable, [None] when nil) with
    what its close or shutdown call is going to return. *)
Record Handle := mkHandle { close_error : option string }.

Record Process := mkProcess {
  app_shutdown_error : option string;
  rdb : option Handle;
  pool : option Handle;
  meterProvider : option Handle;
  tracerProvider : option Handle;
  loggerProvider : option Handle }.

(** A [context.Context] as far as teardown goes: its deadline, as a
    duration from the call, if it has one. *)
Definition Deadline := option Z.
Definition context_Background : Deadline := None.
Definition context_WithTimeout (parent : Deadline) (d : Z) : Deadline :=
  match parent with
  | None => Some d
  | Some p => Some (Z.min p d)
  end.

(** What teardown does, in order: the close or shutdown call made on a
    subsystem, with the deadline of the context passed to it ([None] for
    a call that takes no context or a context without deadline), and the
    log lines. *)
Inductive Step :=
| Call (sub : Subsystem) (deadline : Deadline)
| Log (lvl : Level) (msg : string) (err : option string).

Module database.

(** pkg/database: [Close] *)
Definition Close (p : Process) : list Step :=
  match pool p with
  | Some _ => [Call StorePool None; Log InfoLevel "PostgreSQL connection pool closed" None]
  | None => []
  end.

(** pkg/database/redis.go: [CloseRedis] *)
Definition CloseRedis (p : Process) : list Step :=
  match rdb p with
  | Some h =>
      Call Cache None ::
      match close_error h with
      | Some e => [Log ErrorLevel "Failed to close Redis" (Some e)]
      | None => [Log InfoLevel "Redis connection closed" None]
      end
  | None => []
  end.

End database.

Module metrics.

(** pkg/metrics/metrics.go: [Shutdown] *)
Definition Shutdown (ctx : Deadline) (p : Process) : list Step :=
  match meterProvider p with
  | None => []
  | Some h =>
      Call MetricsExporter ctx ::
      match close_error h with
      | Some e => [Log ErrorLevel "Error shutting down meter provider" (Some e)]
      | None => [Log InfoLevel "Meter provider shut down successfully" None]
      end
  end.

End metrics.

Module tracer.

(** pkg/tracer/tracer.go: [Shutdown] *)
Definition Shutdown (ctx : Deadline) (p : Process) : list Step * option string :=
  match tracerProvider p with
  | None => ([], None)
  | Some h =>
      let shutdownCtx := context_WithTimeout ctx (10 * time.Second) in
      match close_error h with
      | Some e =>
          ([Log InfoLevel "Shutting down tracer provider..." None;
            Call TraceExporter shutdownCtx;
            Log ErrorLevel "Error shutting down tracer provider" (Some e)],
           Some e)
      | None =>
          ([Log InfoLevel "Shutting down tracer provider..." None;
            Call TraceExporter shutdownCtx;
            Log InfoLevel "Tracer provider shut down successfully" None],
           None)
      end
  end.

End tracer.

Module logger.

(** pkg/logger: [Shutdown]; [zapLogger] is set whenever [loggerProvider]
    is, and [Sync] leaves no step. *)
Definition Shutdown (ctx : Deadline) (p : Process) : list Step * option string :=
  match loggerProvider p with
  | None => ([], None)
  | Some h =>
      let shutdownCtx := context_WithTimeout ctx (10 * time.Second) in
      match close_error h with
      | Some e =>
          ([Log InfoLevel "Shutting down logger provider..." None;
            Call LogExporter shutdownCtx;
            Log ErrorLevel "Error shutting down logger provider" (Some e)],
           Some e)
      | None =>
          ([Log InfoLevel "Shutting down logger provider..." None;
            Call LogExporter shutdownCtx;
            Log InfoLevel "Logger provider shut down successfully" None],
           None)
      end
  end.

End logger.

(** The deferred calls of [main], in the order of their [defer]
    statements; the three cancel functions leave no step. *)
Definition main_deferred : list (Process -> list Step) :=
  [ (fun p => fst (logger.Shutdown context_Background p));
    (fun p => fst (tracer.Shutdown context_Background p));
    (fun p => metrics.Shutdown context_Background p);
    (fun _ => []);
    database.Close;
    database.CloseRedis;
    (fun _ => []);
    (fun _ => []) ].

(** Deferred calls run last registered first. *)
Definition run_deferred (ds : list (Process -> list Step)) (p : Process) : list Step :=
  concat (map (fun d => d p) (rev ds)).

(** [main] from the interrupt on: stop the server within its shutdown
    context, then return, which runs the deferred calls. *)
Definition main_shutdown (p : Process) : list Step :=
  [Log InfoLevel "Shutting down server..." None;
   Log InfoLevel "Shutting down server..." None] ++
  (let shutdownCtx := context_WithTimeout context_Background (10 * time.Second) in
   Call Server shutdownCtx ::
   match app_shutdown_error p with
   | Some e => [Log ErrorLevel "Server shutdown error" (Some e)]
   | None => []
   end) ++
  [Log InfoLevel "Server shutdown complete" None] ++
  run_deferred main_deferred p.

(** The subsystem calls of a teardown trace, and the error-level lines. *)
Definition calls (t : list Step) : list (Subsystem * Deadline) :=
  omap (fun st => match st with Call sub d => Some (sub, d) | Log _ _ _ => None end) t.

Definition logged_errors (t : list Step) : list string :=
  omap (fun st =>
    match st with
    | Log ErrorLevel _ (Some e) => Some e
    | _ => None
    end) t.

(* ------------------------------------------------------------------ *)
(** ** Observations on a run and on its event trace *)

Definition result {A} (r : Res A * State * list Event) : Res A := fst (fst r).
Definition final {A} (r : Res A * State * list Event) : State := snd (fst r).
Definition trace {A} (r : Res A * State * list Event) : list Event := snd r.

Fixpoint count (p : Event -> bool) (l : list Event) : nat :=
  match l with
  | [] => 0%nat
  | e :: rest => ((if p e then 1 else 0) + count p rest)%nat
  end.

Definition level_eqb (a b : Level) : bool :=
  match a, b with
  | InfoLevel, InfoLevel | WarnLevel, WarnLevel | ErrorLevel, ErrorLevel => true
  | _, _ => false
  end.

Definition is_log (lvl : Level) (msg : string) (e : Event) : bool :=
  match e with
  | EvLog l => level_eqb (log_level l) lvl && String.eqb (log_msg l) msg
  | _ => false
  end.

Definition is_level (lvl : Level) (e : Event) : bool :=
  match e with
  | EvLog l => level_eqb (log_level l) lvl
  | _ => false
  end.

Definition is_counter (name : string) (e : Event) : bool :=
  match e with
  | EvCounter n _ _ => String.eqb n name
  | _ => false
  end.

Definition is_histogram (name : string) (e : Event) : bool :=
  match e with
  | EvHistogram n _ _ => String.eqb n name
  | _ => false
  end.

Definition is_span_end (n : nat) (e : Event) : bool :=
  match e with
  | EvSpanEnd m => Nat.eqb m n
  | _ => false
  end.

Definition logs (l : list Event) : list LogEntry :=
  omap (fun e => match e with EvLog x => Some x | _ => None end) l.

(** The status codes the logging stage hands to its sinks: the
    [http.status_code] of the request counter, of the duration histogram
    and of the "Request completed" entry. *)
Definition status_attr (f : Fields) : list Z :=
  match assoc "http.status_code" f with
  | Some (VInt z) => [z]
  | _ => []
  end.

Definition recorded_status (l : list Event) : list Z :=
  flat_map (fun e =>
    match e with
    | EvCounter "http.requests_total" _ f => status_attr f
    | EvHistogram "http.request.duration_ms" _ f => status_attr f
    | EvLog (mkLog InfoLevel "Request completed" _ f) => status_attr f
    | _ => []
    end) l.

(** What the logging stage is to emit for one request, on the events
    [own] that are the stage's: one "Incoming request", one "Request
    completed", one "Request error" exactly when the handler's error
    [err] is not nil, one counter increment, one duration observation. *)
Definition emits_exactly_once (err : option GoError) (own : list Event) : Prop :=
  count (is_log InfoLevel "Incoming request") own = 1%nat /\
  count (is_log InfoLevel "Request completed") own = 1%nat /\
  count (is_log ErrorLevel "Request error") own =
    match err with Some _ => 1%nat | None => 0%nat end /\
  count (is_counter "http.requests_total") own = 1%nat /\
  count (is_histogram "http.request.duration_ms") own = 1%nat.

(** The effective status of the specification: the error's declared code,
    or 500, when an error meets a response still at 200; the response's
    status otherwise. *)
Definition effective_status_spec (err : option GoError) (status : Z) : Z :=
  match err with
  | None => status
  | Some e =>
      if decide (status = 200) then
        match e with
        | FiberError code _ => code
        | PlainError _ => 500
        end
      else status
  end.

(** The cache-aside lookup as the reader sees it: the user a lookup of
    [key] yields, [None] on any miss (unreachable cache, absent key, bytes
    that do not decode). *)
Definition cache_lookup (json_Unmarshal : string -> User + GoError)
    (s : State) (key : string) : option User :=
  match rdb_fault (redis s) with
  | Some _ => None
  | None =>
      match rdb_data (redis s) !! key with
      | Some (v, _) =>
          match json_Unmarshal v with
          | inl u => Some u
          | inr _ => None
          end
      | None => None
      end
  end.

(** The tracing stage up to the handler: the server span it starts and
    the state in which the rest of the chain runs. *)
Definition server_span (serviceName : string) (s : State) : Span :=
  mkSpan (req_method (request s) +:+ " " +:+ route_path s) true
    (match assoc "Traceparent" (req_headers (request s)) with
     | Some tp => WithRemote tp
     | None => user_context s
     end)
    (sampled s)
    [("service.name", VStr serviceName);
     ("http.method", VStr (req_method (request s)));
     ("http.url", VStr (req_original_url (request s)));
     ("http.target", VStr (req_path (request s)));
     ("http.client_ip", VStr (req_ip (request s)));
     ("http.user_agent", VStr (default "" (assoc "User-Agent" (req_headers (request s)))))]
    Unset [] false.

Definition start_request (serviceName : string) (s : State) : State :=
  set_user_context (WithSpan (length (spans s)))
    (set_spans (spans s ++ [server_span serviceName s]) s).

(** The state in which the route's handler runs: the request state as
    the tracing stage leaves it when tracing is on, untouched otherwise. *)
Definition chain_state (serviceName : string) (s : State) : State :=
  if tracing_enabled s then start_request serviceName s else s.

(** The [:id] route parameter and the cache key of the user read. *)
Definition param_id (s : State) : string :=
  default "" (assoc "id" (req_params (request s))).
Definition cache_key (s : State) : string := "user:" +:+ param_id s.

(** The value a query parameter has for the handler, if it has one:
    present and not empty. *)
Definition query_value (s : State) (k : string) : option string :=
  match assoc k (req_query (request s)) with
  | Some (String a v) => Some (String a v)
  | _ => None
  end.

(** The users of a result set up to its first row that does not scan,
    and the entry for that row. *)
Fixpoint scanned_users (rows : list PgRow) : list User :=
  match rows with
  | GoodRow u :: rest => u :: scanned_users rest
  | _ => []
  end.

Fixpoint scan_failures (log : Logger) (rows : list PgRow) : list Event :=
  match rows with
  | [] => []
  | GoodRow _ :: rest => scan_failures log rest
  | BadRow _ cause :: _ =>
      [EvLog (mkLog ErrorLevel "Failed to scan user row" log
                [("error", VErr (PlainError cause))])]
  end.

(** The first entry of the logging stage. *)
Definition incoming_entry (s : State) : Event :=
  EvLog (mkLog InfoLevel "Incoming request" (user_context s)
    [("http.method", VStr (req_method (request s)));
     ("http.route", VStr (route_path s));
     ("http.path", VStr (req_path (request s)));
     ("http.user_agent", VStr (default "" (assoc "User-Agent" (req_headers (request s)))));
     ("http.client_ip", VStr (req_ip (request s)))]).

(** The entry of the recovery stage for a panic value. *)
Definition panic_error (v : PanicValue) : GoError :=
  match v with
  | PanicError e => e
  | PanicOther r => PlainError r
  end.

Definition panic_entry (stack : string) (v : PanicValue) (s : State) : LogEntry :=
  mkLog ErrorLevel "Panic recovered" Background
    [("error", VErr (panic_error v)); ("stack", VStr stack);
     ("path", VStr (req_path (request s))); ("method", VStr (req_method (request s)))].

(** Teardown: which subsystems have a handle to close. *)
Definition initialized (p : Process) (sub : Subsystem) : bool :=
  match sub with
  | Server => true
  | Cache => bool_decide (is_Some (rdb p))
  | StorePool => bool_decide (is_Some (pool p))
  | MetricsExporter => bool_decide (is_Some (meterProvider p))
  | TraceExporter => bool_decide (is_Some (tracerProvider p))
  | LogExporter => bool_decide (is_Some (loggerProvider p))
  end.

(** Every subsystem call of a teardown runs under the 10 second timeout. *)
Definition all_bounded (t : list Step) : Prop :=
  Forall (fun c => snd c = Some (10 * time.Second)) (calls t).

(* ------------------------------------------------------------------ *)
(** ** Sample data *)

Definition sample_user (u : User) : string :=
  "{id:" +:+ pretty (ID u) +:+ ",name:" +:+ Name u +:+ ",email:" +:+ Email u +:+ "}".

Fixpoint sample_Marshal (v : JSON) : string :=
  match v with
  | JStr x => x
  | JInt z => pretty z
  | JUser u => sample_user u
  | JUsers us => "[" +:+ String.concat "," (map sample_user us) +:+ "]"
  | JMap kv =>
      "{" +:+
      (fix fields (l : list (string * JSON)) : string :=
         match l with
         | [] => ""
         | (k, x) :: rest => k +:+ ":" +:+ sample_Marshal x +:+ ";" +:+ fields rest
         end) kv +:+ "}"
  end.

Definition sample_Unmarshal (b : string) : User + GoError :=
  match b with
  | String "u" rest => inl (mkUser 1 rest "" 0)
  | _ => inr (PlainError "invalid character")
  end.

Definition alice : User := mkUser 1 "Alice" "a@x.com" 1700000000.

Definition sample_request (method path : string) (query params : list (string * string))
  : Request :=
  mkRequest method path path [("User-Agent", "curl/8.0")] query params "" "127.0.0.1".

Definition sample_state (req : Request) (tracing : bool) (cache : Redis) (db : Pg) : State :=
  mkState req (req_path req) (mkResponse 200 [] "") Background [] tracing true
          (fun n => "00-trace-span-01") 0 cache db.

Definition redis_up : Redis := mkRedis None ∅.
Definition redis_down : Redis := mkRedis (Some "dial tcp: connection refused") ∅.
Definition pg_up : Pg := mkPg None [GoodRow alice].
Definition pg_down : Pg := mkPg (Some "connection refused") [GoodRow alice].

Definition sample_process (cacheClose : option string) : Process :=
  mkProcess None (Some (mkHandle cacheClose)) (Some (mkHandle None))
            (Some (mkHandle None)) (Some (mkHandle None)) (Some (mkHandle None)).

Definition request_panic : Request := sample_request "GET" "/api/panic" [] [].
Definition request_user (id : string) : Request :=
  sample_request "GET" ("/api/users/" +:+ id) [] [("id", id)].
Definition request_list (query : list (string * string)) : Request :=
  sample_request "GET" "/api/users" query [].

(** GET /api/panic through the application, tracing on. *)
Definition run_panic : Res unit * State * list Event :=
  serve sample_Marshal "goroutine 1 [running]" "svc" route_api_panic
        (sample_state request_panic true redis_up pg_up).

(** GET /api/users/1 with the cache unreachable and the store up. *)
Definition state_cache_down : State :=
  sample_state (request_user "1") false redis_down pg_up.
Definition run_cache_down : Res unit * State * list Event :=
  serve sample_Marshal "" "svc" (GetUser sample_Marshal sample_Unmarshal "svc")
        state_cache_down.

(** GET /api/users/1 with the cache empty and the store unreachable. *)
Definition state_store_down : State :=
  sample_state (request_user "1") false redis_up pg_down.
Definition run_store_down : Res unit * State * list Event :=
  serve sample_Marshal "" "svc" (GetUser sample_Marshal sample_Unmarshal "svc")
        state_store_down.

(** GET /api/users/999999 with the cache empty and the store up. *)
Definition state_absent : State :=
  sample_state (request_user "999999") true redis_up pg_up.

(** GET /api/users?limit=abc&page=x with the store up. *)
Definition state_list_text : State :=
  sample_state (request_list [("limit", "abc"); ("page", "x")]) false redis_up pg_up.

(** GET /api/users?limit= and GET /api/users?limit=99999999999999999999x
    with the store up. *)
Definition state_list_empty : State :=
  sample_state (request_list [("limit", "")]) false redis_up pg_up.
Definition state_list_overflow : State :=
  sample_state (request_list [("limit", "99999999999999999999x")]) false redis_up pg_up.

(* ------------------------------------------------------------------ *)
(** ** The other handlers of internal/handler *)

Definition set_pg (db : Pg) (s : State) : State :=
  mkState (request s) (route_path s) (response s) (user_context s) (spans s)
          (tracing_enabled s) (sampled s) (traceparent_of s) (clock s) (redis s) db.

(** The range of the column [id SERIAL] of the table. *)
Definition in_int4 (n : Z) : bool := (-2147483648 <=? n) && (n <=? 2147483647).

(** [DELETE FROM users WHERE id = $1] with a text parameter, which the
    server reads as a value of the column's type: the rows affected and
    the table afterwards. *)
Definition pg_delete_user (db : Pg) (id : string) : (Z * Pg) + GoError :=
  match pg_fault db with
  | Some f => inr (PlainError f)
  | None =>
      match strconv.Atoi id with
      | (n, None) =>
          if in_int4 n then
            let kept := List.filter (fun r => negb (row_id r =? n)) (pg_rows db) in
            inl (Z.of_nat (length (pg_rows db)) - Z.of_nat (length kept), mkPg None kept)
          else inr (PlainError "value out of range for type integer")
      | (_, Some _) => inr (PlainError "invalid input syntax for type integer")
      end
  end.

(** [pool.Exec(ctx, "DELETE ...", id)]: the command tag's [RowsAffected]. *)
Definition pool_Exec_delete (id : string) : M (Z + GoError) :=
  fun s =>
    match pg_delete_user (pg s) id with
    | inl (n, db) => (Val (inl n), set_pg db s, [])
    | inr e => (Val (inr e), s, [])
    end.

(** [pool.Ping]: pkg/database [HealthCheck]. *)
Definition database_HealthCheck (db : Pg) : option GoError :=
  match pg_fault db with
  | Some f => Some (PlainError f)
  | None => None
  end.

(** pkg/database/redis.go: [RedisHealthCheck], on the package variable
    [rdb] ([None] when nil). *)
Definition database_RedisHealthCheck (client : option Redis) : option GoError :=
  match client with
  | None => Some (PlainError "redis client not initialized")
  | Some r =>
      match rdb_fault r with
      | Some f => Some (PlainError f)
      | None => None
      end
  end.

Record CreateUserRequest := mkCreateUserRequest {
  req_Name : string;
  req_Email : string }.

Section Handlers.

(** Taken as given: encoding/json, the body binder of the framework
    ([c.Bind().JSON]), and the answer of the store to the INSERT (the id
    and the timestamp are the server's, not functions of the table). *)
Variable json_Marshal : JSON -> string.
Variable bind_JSON : string -> CreateUserRequest + GoError.
Variable pg_insert_user : Pg -> string -> string -> (User * Pg) + GoError.

(** [pool.QueryRow(ctx, "INSERT ... RETURNING ...", name, email).Scan(...)] *)
Definition pool_QueryRow_insert (name email : string) : M (User + GoError) :=
  fun s =>
    match pg_insert_user (pg s) name email with
    | inl (u, db) => (Val (inl u), set_pg db s, [])
    | inr e => (Val (inr e), s, [])
    end.

(** *** internal/handler: CreateUser *)

Definition CreateUser (serviceName : string) : Handler :=
  ctx <- c_Context ;;
  let log := GetLoggerWithTraceContext ctx in
  body <- c_Request_Body ;;
  match bind_JSON body with
  | inr err =>
      zap_Error log "Invalid request body" [("error", VErr err)] ;;;
      ret (Some (fiber.NewError fiber.StatusBadRequest "Invalid request body"))
  | inl req =>
      if String.eqb (req_Name req) "" || String.eqb (req_Email req) "" then
        ret (Some (fiber.NewError fiber.StatusBadRequest "name and email are required"))
      else
        ctx <- tracer_Start ctx "db.create-user" [] false ;;
        let span := ctx in
        with_defer (span_End span)
          (row <- pool_QueryRow_insert (req_Name req) (req_Email req) ;;
           match row with
           | inr err =>
               zap_Error log "Failed to create user" [("error", VErr err)] ;;;
               ret (Some (fiber.NewError fiber.StatusInternalServerError
                            "Failed to create user"))
           | inl user =>
               span_SetAttributes span [("user.id", VInt (ID user))] ;;;
               zap_Info log "User created"
                 [("id", VInt (ID user)); ("email", VStr (Email user))] ;;;
               c_Status fiber.StatusCreated ;;;
               c_JSON json_Marshal
                 (JMap [("message", JStr "User created"); ("user", JUser user)])
           end)
  end.

(** *** internal/handler: DeleteUser *)

Definition DeleteUser (serviceName : string) : Handler :=
  ctx <- c_Context ;;
  let log := GetLoggerWithTraceContext ctx in
  id <- c_Params "id" ;;
  ctx <- tracer_Start ctx "db.delete-user" [] false ;;
  let span := ctx in
  with_defer (span_End span)
    (tag <- pool_Exec_delete id ;;
     match tag with
     | inr err =>
         zap_Error log "Failed to delete user" [("id", VStr id); ("error", VErr err)] ;;;
         ret (Some (fiber.NewError fiber.StatusInternalServerError "Failed to delete user"))
     | inl rowsAffected =>
         if rowsAffected =? 0 then
           ret (Some (fiber.NewError fiber.StatusNotFound "User not found"))
         else
           zap_Info log "User deleted" [("id", VStr id)] ;;;
           c_JSON json_Marshal (JMap [("message", JStr "User deleted")])
     end).

(** *** internal/handler: HealthCheck *)

Definition HealthCheck : Handler :=
  dbErr <- gets (fun s => database_HealthCheck (pg s)) ;;
  let dbStatus := match dbErr with Some _ => "down" | None => "up" end in
  redisErr <- gets (fun s => database_RedisHealthCheck (Some (redis s))) ;;
  let redisStatus := match redisErr with Some _ => "down" | None => "up" end in
  let status :=
    if negb (String.eqb dbStatus "up") || negb (String.eqb redisStatus "up")
    then fiber.StatusServiceUnavailable
    else fiber.StatusOK in
  c_Status status ;;;
  c_JSON json_Marshal
    (JMap [("status", JStr (if status =? fiber.StatusOK then "healthy" else "unhealthy"));
           ("dependencies",
            JMap [("database", JStr dbStatus); ("redis", JStr redisStatus)])]).

End Handlers.

(* ------------------------------------------------------------------ *)
(** ** pkg/config *)

(** The environment: [os.Getenv] gives "" for a variable that is not set. *)
Definition os_Getenv (env : gmap string string) (key : string) : string :=
  default "" (env !! key).

(** [strconv.ParseBool] *)
Definition ParseBool (s : string) : option bool :=
  if existsb (String.eqb s) ["1"; "t"; "T"; "TRUE"; "true"; "True"] then Some true
  else if existsb (String.eqb s) ["0"; "f"; "F"; "FALSE"; "false"; "False"] then Some false
  else None.

Definition getEnv (env : gmap string string) (key defaultValue : string) : string :=
  match os_Getenv env key with
  | EmptyString => defaultValue
  | value => value
  end.

Definition getEnvBool (env : gmap string string) (key : string) (defaultValue : bool) : bool :=
  match os_Getenv env key with
  | EmptyString => defaultValue
  | value =>
      match ParseBool value with
      | Some parsed => parsed
      | None => defaultValue
      end
  end.

Definition getEnvInt (env : gmap string string) (key : string) (defaultValue : Z) : Z :=
  match os_Getenv env key with
  | EmptyString => defaultValue
  | value =>
      match strconv.Atoi value with
      | (parsed, None) => parsed
      | (_, Some _) => defaultValue
      end
  end.

(** The two closures of [NewConfig] that build the store and cache URLs. *)
Definition DatabaseURL (env : gmap string string) : string :=
  match os_Getenv env "DATABASE_URL" with
  | EmptyString =>
      let host := getEnv env "DB_HOST" "localhost" in
      let port := getEnv env "DB_PORT" "5432" in
      let user := getEnv env "DB_USER" "appuser" in
      let pass := getEnv env "DB_PASSWORD" "apppass" in
      let name := getEnv env "DB_NAME" "appdb" in
      "postgres://" +:+ user +:+ ":" +:+ pass +:+ "@" +:+ host +:+ ":" +:+ port
        +:+ "/" +:+ name +:+ "?sslmode=disable"
  | url => url
  end.

Definition RedisURL (env : gmap string string) : string :=
  match os_Getenv env "REDIS_URL" with
  | EmptyString =>
      let host := getEnv env "REDIS_HOST" "localhost" in
      let port := getEnv env "REDIS_PORT" "6379" in
      "redis://" +:+ host +:+ ":" +:+ port +:+ "/0"
  | url => url
  end.

Section Config.

(** [time.ParseDuration] and [strconv.ParseFloat] are taken as given, and
    with the second the type of [float64] values. *)
Variable Float64 : Type.
Variable ParseFloat : string -> option Float64.
Variable ParseDuration : string -> option Z.

Definition getEnvDuration (env : gmap string string) (key : string) (defaultValue : Z) : Z :=
  match os_Getenv env key with
  | EmptyString => defaultValue
  | value =>
      match ParseDuration value with
      | Some parsed => parsed
      | None => defaultValue
      end
  end.

Definition getEnvFloat (env : gmap string string) (key : string) (defaultValue : Float64)
  : Float64 :=
  match os_Getenv env key with
  | EmptyString => defaultValue
  | value =>
      match ParseFloat value with
      | Some parsed => parsed
      | None => defaultValue
      end
  end.

Record Config := mkConfig {
  ServiceName : string;
  ServiceVersion : string;
  ServiceEnvironment : string;
  OTLPEndpoint : string;
  OTLPInsecure : bool;
  BatchTimeout : Z;
  BatchMaxQueueSize : Z;
  BatchExportTimeout : Z;
  TracingEnabled : bool;
  TraceSampleRate : Float64;
  TraceExportBatch : Z;
  Prefork : bool;
  cfg_DatabaseURL : string;
  cfg_RedisURL : string }.

(** [NewConfig]; [Version] is the build-time variable and [one] the
    constant 1.0. *)
Definition NewConfig (Version : string) (one : Float64) (env : gmap string string) : Config :=
  mkConfig
    (getEnv env "OTEL_SERVICE_NAME" "gofiberobservability")
    Version
    (getEnv env "OTEL_ENVIRONMENT" "development")
    (getEnv env "OTEL_EXPORTER_OTLP_ENDPOINT" "localhost:4317")
    (getEnvBool env "OTEL_EXPORTER_OTLP_INSECURE" true)
    (getEnvDuration env "OTEL_BATCH_TIMEOUT" (10 * time.Second))
    (getEnvInt env "OTEL_BATCH_MAX_QUEUE_SIZE" 2048)
    (getEnvDuration env "OTEL_BATCH_EXPORT_TIMEOUT" (30 * time.Second))
    (getEnvBool env "OTEL_TRACING_ENABLED" true)
    (getEnvFloat env "OTEL_TRACE_SAMPLE_RATE" one)
    (getEnvInt env "OTEL_TRACE_EXPORT_BATCH" 512)
    (getEnvBool env "FIBER_PREFORK" false)
    (DatabaseURL env)
    (RedisURL env).

End Config.

(* ------------------------------------------------------------------ *)
(** ** Lifecycle: the startup of main.go and of the pkg/ subsystems *)

(** What the fallible calls of startup are going to return ([None] for
    success), whether tracing is enabled in the configuration, and what
    the close or shutdown call of each subsystem returns at teardown. *)
Record Boot := mkBoot {
  boot_tracing : bool;
  logger_resource : option string;
  logger_exporter : option string;
  logger_zap_build : option string;
  tracer_resource : option string;
  tracer_exporter : option string;
  metrics_exporter : option string;
  metrics_resource : option string;
  metrics_runtime : option string;
  db_parse : option string;
  db_connect : option string;
  db_ping : option string;
  redis_parse : option string;
  redis_tracing : option string;
  redis_metrics : option string;
  redis_ping : option string;
  migrate_exec : option string;
  closing : Subsystem -> option string }.

Module boot.

(** pkg/logger: [InitLogger].  The provider is set before the zap logger
    is built. *)
Definition InitLogger (b : Boot) : option Handle * list Step * option string :=
  match logger_resource b with
  | Some e => (None, [], Some e)
  | None =>
      match logger_exporter b with
      | Some e => (None, [], Some e)
      | None =>
          let provider := Some (mkHandle (closing b LogExporter)) in
          match logger_zap_build b with
          | Some e => (provider, [], Some e)
          | None =>
              (provider, [Log InfoLevel "OpenTelemetry logger initialized" None], None)
          end
      end
  end.

(** pkg/tracer: [InitTracer] *)
Definition InitTracer (b : Boot) : option Handle * list Step * option string :=
  if negb (boot_tracing b) then (None, [Log InfoLevel "Tracing is disabled" None], None)
  else
    match tracer_resource b with
    | Some e => (None, [], Some e)
    | None =>
        match tracer_exporter b with
        | Some e => (None, [], Some e)
        | None =>
            (Some (mkHandle (closing b TraceExporter)),
             [Log InfoLevel "OpenTelemetry tracer initialized" None], None)
        end
    end.

(** pkg/metrics: [InitMetrics].  A failure to start the runtime metrics
    is logged, not returned. *)
Definition InitMetrics (b : Boot) : option Handle * list Step * option string :=
  match metrics_exporter b with
  | Some e => (None, [], Some ("failed to create metrics exporter: " +:+ e))
  | None =>
      match metrics_resource b with
      | Some e => (None, [], Some ("failed to create resource: " +:+ e))
      | None =>
          (Some (mkHandle (closing b MetricsExporter)),
           match metrics_runtime b with
           | Some e => [Log ErrorLevel "Failed to start runtime metrics" (Some e)]
           | None => []
           end ++ [Log InfoLevel "OpenTelemetry metrics initialized" None],
           None)
      end
  end.

(** pkg/database: [InitDatabase].  The pool is assigned by
    [NewWithConfig]; a failed ping returns without closing it. *)
Definition InitDatabase (b : Boot) : option Handle * list Step * option string :=
  match db_parse b with
  | Some e => (None, [], Some ("failed to parse database URL: " +:+ e))
  | None =>
      match db_connect b with
      | Some e => (None, [], Some ("failed to create connection pool: " +:+ e))
      | None =>
          let opened := Some (mkHandle (closing b StorePool)) in
          match db_ping b with
          | Some e => (opened, [], Some ("failed to ping database: " +:+ e))
          | None =>
              (opened, [Log InfoLevel "PostgreSQL connection pool initialized" None], None)
          end
      end
  end.

(** pkg/database/redis.go: [InitRedis].  The client is assigned before
    it is instrumented and pinged. *)
Definition InitRedis (b : Boot) : option Handle * list Step * option string :=
  match redis_parse b with
  | Some e => (None, [], Some ("failed to parse Redis URL: " +:+ e))
  | None =>
      let client := Some (mkHandle (closing b Cache)) in
      match redis_tracing b with
      | Some e => (client, [], Some ("failed to instrument Redis tracing: " +:+ e))
      | None =>
          match redis_metrics b with
          | Some e => (client, [], Some ("failed to instrument Redis metrics: " +:+ e))
          | None =>
              match redis_ping b with
              | Some e => (client, [], Some ("failed to connect to Redis: " +:+ e))
              | None => (client, [Log InfoLevel "Redis initialized" None], None)
              end
          end
      end
  end.

(** pkg/database: [RunMigrations] *)
Definition RunMigrations (b : Boot) : list Step * option string :=
  match migrate_exec b with
  | Some e => ([], Some ("failed to run migrations: " +:+ e))
  | None => ([Log InfoLevel "Database migrations completed" None], None)
  end.

End boot.

(** How the process ends: [main] returns after the teardown, or
    [log.Fatal] exits with status 1 (deferred calls do not run), or the
    panic for a logger that cannot be initialized. *)
Inductive Exit :=
| ExitOK
| ExitFatal (msg cause : string)
| ExitPanic (msg : string).

(** [main]: the steps in order, the package variables when the process
    ends, and how it ends.  The server is taken to run until the
    interrupt. *)
Definition main (b : Boot) : list Step * Process * Exit :=
  let server := closing b Server in
  match boot.InitLogger b with
  | (lp, t1, Some e) =>
      (t1, mkProcess server None None None None lp,
       ExitPanic ("Failed to initialize logger: " +:+ e))
  | (lp, t1, None) =>
      match boot.InitTracer b with
      | (tp, t2, Some e) =>
          (t1 ++ t2, mkProcess server None None None tp lp,
           ExitFatal "Failed to initialize tracer" e)
      | (tp, t2, None) =>
          match boot.InitMetrics b with
          | (mp, t3, Some e) =>
              (t1 ++ t2 ++ t3, mkProcess server None None mp tp lp,
               ExitFatal "Failed to initialize metrics" e)
          | (mp, t3, None) =>
              match boot.InitDatabase b with
              | (po, t4, Some e) =>
                  (t1 ++ t2 ++ t3 ++ t4, mkProcess server None po mp tp lp,
                   ExitFatal "Failed to initialize database" e)
              | (po, t4, None) =>
                  match boot.InitRedis b with
                  | (rc, t5, Some e) =>
                      (t1 ++ t2 ++ t3 ++ t4 ++ t5, mkProcess server rc po mp tp lp,
                       ExitFatal "Failed to initialize Redis" e)
                  | (rc, t5, None) =>
                      let p := mkProcess server rc po mp tp lp in
                      match boot.RunMigrations b with
                      | (t6, Some e) =>
                          (t1 ++ t2 ++ t3 ++ t4 ++ t5 ++ t6, p,
                           ExitFatal "Failed to run database migrations" e)
                      | (t6, None) =>
                          (t1 ++ t2 ++ t3 ++ t4 ++ t5 ++ t6 ++
                           [Log InfoLevel "Starting server" None] ++
                           main_shutdown p,
                           p, ExitOK)
                      end
                  end
              end
          end
      end
  end.

Definition subsystem_eqb (a b : Subsystem) : bool :=
  match a, b with
  | Server, Server | Cache, Cache | StorePool, StorePool
  | MetricsExporter, MetricsExporter | TraceExporter, TraceExporter
  | LogExporter, LogExporter => true
  | _, _ => false
  end.

(** The subsystems whose handle is set and has not been closed when the
    process ends. *)
Definition left_open (t : list Step) (p : Process) : list Subsystem :=
  List.filter (fun sub =>
      initialized p sub &&
      negb (existsb (fun c => subsystem_eqb (fst c) sub) (calls t)))
    [Cache; StorePool; MetricsExporter; TraceExporter; LogExporter].

(** Startup in which every call succeeds. *)
Definition boot_ok (tracing : bool) : Boot :=
  mkBoot tracing None None None None None None None None None None None
         None None None None None (fun _ => None).

(* ------------------------------------------------------------------ *)
(** ** Further observations *)

(** What the logging stage emits after a handler that returned [err]:
    [s] is the state on entry of the stage, [s1] the state the handler
    left. *)
Definition completion_events (s s1 : State) (err : option GoError) : list Event :=
  let statusCode :=
    match err with
    | Some e =>
        if resp_status (response s1) =? fiber.StatusOK then
          match e with
          | FiberError code _ => code
          | PlainError _ => fiber.StatusInternalServerError
          end
        else resp_status (response s1)
    | None => resp_status (response s1)
    end in
  let method := req_method (request s1) in
  let route := route_path s1 in
  let ms := time.Milliseconds (clock s1 - clock s) in
  [EvCounter "http.requests_total" 1
     [("http.method", VStr method); ("http.route", VStr route);
      ("http.status_code", VInt statusCode)];
   EvHistogram "http.request.duration_ms" ms
     [("http.method", VStr method); ("http.route", VStr route);
      ("http.status_code", VInt statusCode)];
   EvHistogram "http.request.size_bytes" (len (req_body (request s1)))
     [("http.method", VStr method); ("http.route", VStr route)];
   EvHistogram "http.response.size_bytes" (len (resp_body (response s1)))
     [("http.method", VStr method); ("http.route", VStr route)];
   EvLog (mkLog InfoLevel "Request completed" (user_context s)
     [("http.method", VStr method); ("http.route", VStr route);
      ("http.status_code", VInt statusCode); ("http.request.duration_ms", VInt ms)])] ++
  match err with
  | Some e =>
      [EvLog (mkLog ErrorLevel "Request error" (user_context s)
         [("http.method", VStr method); ("http.path", VStr (req_path (request s1)));
          ("error", VErr e)])]
  | None => []
  end.

Definition is_span_event (e : Event) : bool :=
  match e with
  | EvSpanStart _ | EvSpanEnd _ => true
  | _ => false
  end.

(** The span a handler's error leaves behind in the tracing stage. *)
Definition span_failed (status : Z) (e : GoError) (sp : Span) : Span :=
  mkSpan (sp_name sp) (sp_server sp) (sp_parent sp) (sp_sampled sp)
         (sp_attrs sp ++ [("http.status_code", VInt status)])
         (StatusError (error_message e))
         (sp_errors sp ++ [(e, false)])
         true.

Definition is_bad_row (r : PgRow) : bool :=
  match r with
  | BadRow _ _ => true
  | GoodRow _ => false
  end.

(** A binder for request bodies, and a store that numbers new rows by
    their position. *)
Definition sample_bind (b : string) : CreateUserRequest + GoError :=
  match b with
  | EmptyString => inr (PlainError "unexpected end of JSON input")
  | String "!" _ => inl (mkCreateUserRequest "" "a@x.com")
  | _ => inl (mkCreateUserRequest b "a@x.com")
  end.

Definition sample_insert (db : Pg) (name email : string) : (User * Pg) + GoError :=
  match pg_fault db with
  | Some f => inr (PlainError f)
  | None =>
      let u := mkUser (1 + Z.of_nat (length (pg_rows db))) name email 1700000001 in
      inl (u, mkPg None (pg_rows db ++ [GoodRow u]))
  end.

(** A codec that round-trips users of the shape of [carol]. *)
Definition plain_Marshal (v : JSON) : string :=
  match v with
  | JUser u => "u" +:+ Name u
  | _ => sample_Marshal v
  end.

Definition carol : User := mkUser 1 "Carol" "" 0.

Definition redis_with_carol : Redis :=
  mkRedis None {[ "user:1" := ("uCarol", 600000000000) ]}.

Definition pg_carol : Pg := mkPg None [GoodRow carol].

(** Startup in which only the ping of the store fails. *)
Definition boot_ping_fails : Boot :=
  mkBoot true None None None None None None None None None None (Some "connection refused")
         None None None None None (fun _ => None).

(** Every fatal call of startup succeeds. *)
Definition boot_succeeds (b : Boot) : Prop :=
  logger_resource b = None /\ logger_exporter b = None /\ logger_zap_build b = None /\
  (boot_tracing b = true -> tracer_resource b = None /\ tracer_exporter b = None) /\
  metrics_exporter b = None /\ metrics_resource b = None /\
  db_parse b = None /\ db_connect b = None /\ db_ping b = None /\
  redis_parse b = None /\ redis_tracing b = None /\ redis_metrics b = None /\
  redis_ping b = None /\ migrate_exec b = None.


(** Requests and states for the other handlers. *)
Definition request_delete (id : string) : Request :=
  mkRequest "DELETE" ("/api/users/" +:+ id) ("/api/users/" +:+ id) [] [] [("id", id)] ""
            "127.0.0.1".
Definition request_create (body : string) : Request :=
  mkRequest "POST" "/api/users" "/api/users" [] [] [] body "127.0.0.1".

(** GET /api/users/1 with the user in the cache. *)
Definition state_cached : State :=
  sample_state (request_user "1") true redis_with_carol pg_up.

(** GET /api/users/1 with the cache empty and the user in the store. *)
Definition state_miss : State :=
  sample_state (request_user "1") false redis_up pg_carol.

(** DELETE /api/users/7, an id the table does not have. *)
Definition state_delete_absent : State :=
  sample_state (request_delete "7") false redis_up pg_up.

(** DELETE /api/users/1 with the user both in the cache and in the store. *)
Definition state_delete_cached : State :=
  sample_state (request_delete "1") true redis_with_carol pg_carol.

(** POST /api/users with a body that binds to an empty name, and with
    one that binds to a complete request. *)
Definition state_create_unnamed : State :=
  sample_state (request_create "!") true redis_up pg_up.
Definition state_create : State :=
  sample_state (request_create "Dave") true redis_up pg_up.

(** GET /api/users with a negative limit, with a page past the end, and
    over a table of three rows whose second row does not scan. *)
Definition state_list_negative : State :=
  sample_state (request_list [("limit", "-5")]) false redis_up pg_up.
Definition state_list_far : State :=
  sample_state (request_list [("page", "3")]) false redis_up pg_up.
Definition rows_mixed : list PgRow :=
  [GoodRow alice; BadRow 2 "cannot scan NULL into *string";
   GoodRow (mkUser 3 "Bob" "b@x.com" 0)].
Definition state_list_mixed : State :=
  sample_state (request_list []) true redis_up (mkPg None rows_mixed).
(* ------------------------------------------------------------------ *)
(** ** Running a computation symbolically *)

Ltac run_ops :=
  cbv beta iota zeta delta
    [bind ret gets modify emit panic with_defer with_recover
     c_Method c_Path c_OriginalURL c_IP c_Get c_Params c_Query c_Route
     c_Route_Path c_Context c_SetContext c_Request_Body c_Response_Body
     c_Response_StatusCode c_GetReqHeaders c_GetRespHeaders c_Status
     c_SendStatus c_JSON time_Now zap_Info zap_Warn zap_Error counter_Add
     histogram_Record span_IsRecording span_update span_SetAttributes
     span_SetStatus span_RecordError span_End tracer_Start
     propagator_Extract propagator_Inject redis_Get redis_Set
     GetLogger GetLoggerWithTraceContext result final trace].

Ltac simpl_state :=
  cbn [request route_path response user_context spans tracing_enabled sampled
       traceparent_of clock redis pg set_response set_user_context set_spans
       set_redis end_span resp_status resp_headers resp_body fst snd app].

Ltac split_ifs :=
  repeat match goal with
         | |- context [if ?c then _ else _] => destruct c
         end.

(* ------------------------------------------------------------------ *)
(** ** Basic facts *)

Lemma count_app (p : Event -> bool) (a b : list Event) :
  count p (a ++ b) = (count p a + count p b)%nat.
Proof.
  induction a as [|e a IH]; simpl; [reflexivity|].
  rewrite IH. lia.
Qed.

Lemma wrap_int_id (z : Z) : int_min <= z <= int_max -> wrap_int z = z.
Proof.
  unfold wrap_int, int_min, int_max. intros H.
  rewrite Z.mod_small; lia.
Qed.

Lemma parse_digits_all_digits (s : string) (acc : Z) :
  strconv.all_digits s = false -> strconv.parse_digits acc s = None.
Proof.
  revert acc. induction s as [|c s IH]; simpl; intros acc H; [discriminate|].
  destruct (strconv.is_digit c); simpl in H; [apply IH, H | reflexivity].
Qed.

Lemma numeric_split_sign (v : string) :
  strconv.numeric v = strconv.unsigned_numeric (snd (strconv.split_sign v)).
Proof.
  destruct v as [|c rest]; [reflexivity|].
  destruct c as [[] [] [] [] [] [] [] []]; reflexivity.
Qed.

Lemma split_sign_length (v : string) :
  (String.length (snd (strconv.split_sign v)) <= String.length v)%nat.
Proof.
  destruct v as [|c rest]; [reflexivity|].
  destruct c as [[] [] [] [] [] [] [] []]; cbn; lia.
Qed.

Lemma is_digit_val (c : ascii) :
  strconv.is_digit c = true -> 0 <= strconv.digit_val c <= 9.
Proof. unfold strconv.is_digit, strconv.digit_val. lia. Qed.

(** The digits of the fast path stay below the power of ten of their
    number. *)
Lemma parse_digits_bound (s : string) (acc n : Z) :
  0 <= acc ->
  strconv.parse_digits acc s = Some n ->
  0 <= n < (acc + 1) * 10 ^ Z.of_nat (String.length s).
Proof.
  revert acc. induction s as [|c s IH]; intros acc Hacc; cbn [strconv.parse_digits].
  - intros [= <-]. cbn. lia.
  - destruct (strconv.is_digit c) eqn:Hc; [|discriminate].
    intros H. pose proof (is_digit_val c Hc) as Hd.
    apply IH in H; [|lia].
    cbn [String.length]. rewrite Nat2Z.inj_succ, Z.pow_succ_r by lia.
    assert (Hp : 0 < 10 ^ Z.of_nat (String.length s)) by (apply Z.pow_pos_nonneg; lia).
    nia.
Qed.

Lemma parse_uint_nonneg (s : string) (n : Z) :
  0 <= n -> 0 <= fst (strconv.parse_uint n s).
Proof.
  revert n. induction s as [|c s IH]; intros n Hn; cbn [strconv.parse_uint].
  - exact Hn.
  - destruct (strconv.is_digit c) eqn:Hc; [|cbn; lia].
    pose proof (is_digit_val c Hc) as Hd.
    destruct (_ <=? n); [cbn; unfold strconv.maxUint64; lia|].
    cbv zeta. destruct (_ <? _); [cbn; unfold strconv.maxUint64; lia|].
    apply IH. lia.
Qed.

Lemma parse_uint_not_digits (s : string) (n : Z) :
  strconv.all_digits s = false -> snd (strconv.parse_uint n s) <> None.
Proof.
  revert n. induction s as [|c s IH]; intros n; cbn [strconv.all_digits strconv.parse_uint].
  - discriminate.
  - destruct (strconv.is_digit c); cbn [andb]; [|discriminate].
    intros H. destruct (_ <=? n); [discriminate|].
    cbv zeta. destruct (_ <? _); [discriminate|]. apply IH, H.
Qed.

(** [ParseInt] never leaves the range of [int], and its value is 0 on a
    syntax error. *)
Lemma ParseInt_range (v : string) :
  int_min <= fst (strconv.ParseInt v) <= int_max.
Proof.
  unfold strconv.ParseInt.
  destruct v as [|c rest]; [cbn; unfold int_min, int_max; lia|].
  generalize (fst (strconv.split_sign (String c rest)))
             (snd (strconv.split_sign (String c rest))).
  intros neg body. cbv zeta.
  assert (Hun : 0 <= fst (strconv.ParseUint body)).
  { unfold strconv.ParseUint. destruct body; [cbn; lia|].
    apply parse_uint_nonneg. lia. }
  destruct (snd (strconv.ParseUint body)) as [[|]|];
    try (cbn; unfold int_min, int_max; lia);
    destruct neg; cbn [negb andb];
    repeat match goal with
           | |- context [?a <=? ?b] => destruct (Z.leb_spec a b)
           | |- context [?a <? ?b] => destruct (Z.ltb_spec a b)
           end; cbn [fst]; unfold int_min, int_max; lia.
Qed.

Lemma ParseInt_syntax_zero (v : string) :
  snd (strconv.ParseInt v) = Some strconv.ErrSyntax -> fst (strconv.ParseInt v) = 0.
Proof.
  unfold strconv.ParseInt. destruct v as [|c rest]; [reflexivity|].
  cbv zeta.
  destruct (snd (strconv.ParseUint _)) as [[|]|]; [reflexivity| |];
    repeat match goal with
           | |- context [if ?b then _ else _] => destruct b
           end; cbn [fst snd]; discriminate.
Qed.

Lemma ParseInt_non_numeric (v : string) :
  strconv.numeric v = false -> snd (strconv.ParseInt v) <> None.
Proof.
  rewrite numeric_split_sign. unfold strconv.ParseInt.
  destruct v as [|c rest]; [discriminate|].
  generalize (fst (strconv.split_sign (String c rest)))
             (snd (strconv.split_sign (String c rest))).
  intros neg body H. cbv zeta.
  assert (Hun : snd (strconv.ParseUint body) = Some strconv.ErrSyntax \/
                strconv.ParseUint body = (strconv.maxUint64, Some strconv.ErrRange)).
  { unfold strconv.ParseUint. destruct body as [|b body']; [left; reflexivity|].
    unfold strconv.unsigned_numeric in H.
    revert H. generalize (String b body'). generalize 0.
    intros n s. revert n. induction s as [|d s IH]; intros n;
      cbn [strconv.all_digits strconv.parse_uint]; [discriminate|].
    destruct (strconv.is_digit d); cbn [andb]; [|left; reflexivity].
    intros H. destruct (_ <=? n); [right; reflexivity|].
    cbv zeta. destruct (_ <? _); [right; reflexivity|]. apply IH, H. }
  destruct Hun as [-> | ->]; [discriminate|].
  cbn [fst snd]. destruct neg; cbn [negb andb]; vm_compute; discriminate.
Qed.

(** A text that is not numeric and has fewer than 19 bytes is a syntax
    error of [Atoi], with value 0. *)
Lemma Atoi_non_numeric_short (v : string) :
  strconv.numeric v = false -> (String.length v < 19)%nat ->
  strconv.Atoi v = (0, Some strconv.ErrSyntax).
Proof.
  intros H Hlen. unfold strconv.Atoi. cbv zeta.
  destruct v as [|c rest]; [reflexivity|].
  assert (E : ((0 <? String.length (String c rest))%nat &&
               (String.length (String c rest) <? 19)%nat) = true).
  { apply andb_true_intro. split; apply Nat.ltb_lt; [cbn; lia|exact Hlen]. }
  rewrite E. unfold strconv.atoi_fast. cbv zeta.
  rewrite numeric_split_sign in H. unfold strconv.unsigned_numeric in H.
  destruct (snd (strconv.split_sign (String c rest))) as [|b body]; [reflexivity|].
  rewrite (parse_digits_all_digits _ 0 H). reflexivity.
Qed.

(** A text that is not numeric never parses: [Atoi] reports an error. *)
Lemma Atoi_non_numeric_fails (v : string) :
  strconv.numeric v = false -> snd (strconv.Atoi v) <> None.
Proof.
  intros H.
  destruct (Nat.ltb_spec (String.length v) 19) as [L|L].
  - rewrite (Atoi_non_numeric_short v H L). discriminate.
  - unfold strconv.Atoi. cbv zeta.
    replace (String.length v <? 19)%nat with false
      by (symmetry; apply Nat.ltb_ge; exact L).
    rewrite andb_false_r. apply ParseInt_non_numeric, H.
Qed.

(** On a syntax error the value of [Atoi] is 0. *)
Lemma Atoi_syntax_zero (v : string) :
  snd (strconv.Atoi v) = Some strconv.ErrSyntax -> fst (strconv.Atoi v) = 0.
Proof.
  unfold strconv.Atoi. cbv zeta.
  destruct ((0 <? String.length v)%nat && (String.length v <? 19)%nat).
  - unfold strconv.atoi_fast. cbv zeta.
    destruct (snd (strconv.split_sign v)); [reflexivity|].
    destruct (strconv.parse_digits 0 _); [discriminate|reflexivity].
  - apply ParseInt_syntax_zero.
Qed.

(** A text that is not numeric and is not a range error of [Atoi] is a
    syntax error, with value 0. *)
Lemma Atoi_non_numeric (v : string) :
  strconv.numeric v = false ->
  snd (strconv.Atoi v) <> Some strconv.ErrRange ->
  strconv.Atoi v = (0, Some strconv.ErrSyntax).
Proof.
  intros H Hr. pose proof (Atoi_non_numeric_fails v H) as Hf.
  pose proof (Atoi_syntax_zero v) as Hz.
  destruct (strconv.Atoi v) as [z [[|]|]]; cbn [fst snd] in *;
    [rewrite Hz by reflexivity; reflexivity | contradiction | contradiction].
Qed.

(** [Atoi] never leaves the range of [int]. *)
Lemma Atoi_range (v : string) : int_min <= fst (strconv.Atoi v) <= int_max.
Proof.
  unfold strconv.Atoi. cbv zeta.
  destruct ((0 <? String.length v)%nat && (String.length v <? 19)%nat) eqn:E;
    [|apply ParseInt_range].
  apply andb_prop in E as [_ E]. apply Nat.ltb_lt in E.
  unfold strconv.atoi_fast. cbv zeta.
  pose proof (split_sign_length v) as Hlen.
  destruct (snd (strconv.split_sign v)) as [|b body] eqn:Hb;
    [cbn; unfold int_min, int_max; lia|].
  destruct (strconv.parse_digits 0 (String b body)) as [n|] eqn:Hp;
    [|cbn; unfold int_min, int_max; lia].
  apply parse_digits_bound in Hp; [|lia].
  assert (Hpow : 10 ^ Z.of_nat (String.length (String b body)) <= 10 ^ 18)
    by (apply Z.pow_le_mono_r; lia).
  cbn [fst]. unfold int_min, int_max.
  destruct (fst (strconv.split_sign v)); lia.
Qed.

Example Atoi_decimal : strconv.Atoi "250" = (250, None).
Proof. reflexivity. Qed.

Example Atoi_negative : strconv.Atoi "-7" = (-7, None).
Proof. reflexivity. Qed.

Example Atoi_text : strconv.Atoi "abc" = (0, Some strconv.ErrSyntax).
Proof. reflexivity. Qed.

Example Atoi_too_large :
  strconv.Atoi "99999999999999999999" = (int_max, Some strconv.ErrRange).
Proof. reflexivity. Qed.

(* ------------------------------------------------------------------ *)
(** ** Pagination of ListUsers *)

(** The pagination block: a limit above 100 becomes 100 (any other parsed
    limit is kept), a page below 1 becomes 1 (any other parsed page is
    kept), and the offset is [(page-1)*limit] in Go's [int] arithmetic,
    which is the exact product whenever that product is an [int]. *)
Lemma pagination_clamped (limitQuery pageQuery : string) :
  let l := fst (strconv.Atoi limitQuery) in
  let p := fst (strconv.Atoi pageQuery) in
  let limit := fst (fst (pagination limitQuery pageQuery)) in
  let page := snd (fst (pagination limitQuery pageQuery)) in
  let offset := snd (pagination limitQuery pageQuery) in
  limit = Z.min l 100 /\
  page = Z.max p 1 /\
  offset = wrap_int ((page - 1) * limit) /\
  (int_min <= (page - 1) * limit <= int_max -> offset = (page - 1) * limit).
Proof.
  cbv zeta. unfold pagination. cbn [fst snd].
  pose proof (Atoi_range limitQuery) as Hl.
  pose proof (Atoi_range pageQuery) as Hp.
  set (l := fst (strconv.Atoi limitQuery)) in *.
  set (p := fst (strconv.Atoi pageQuery)) in *.
  assert (El : (if 100 <? l then 100 else l) = Z.min l 100)
    by (destruct (Z.ltb_spec 100 l); lia).
  assert (Ep : (if p <? 1 then 1 else p) = Z.max p 1)
    by (destruct (Z.ltb_spec p 1); lia).
  rewrite El, Ep.
  assert (Es : int_sub (Z.max p 1) 1 = Z.max p 1 - 1).
  { unfold int_sub. apply wrap_int_id. unfold int_min, int_max in *. lia. }
  unfold int_mul. rewrite Es.
  repeat split; try reflexivity.
  intros H. apply wrap_int_id, H.
Qed.

Example pagination_limit_250 : pagination "250" "3" = (100, 3, 200).
Proof. reflexivity. Qed.

Example pagination_page_0 : pagination "20" "0" = (20, 1, 0).
Proof. reflexivity. Qed.

Example pagination_page_negative : pagination "20" "-4" = (20, 1, 0).
Proof. reflexivity. Qed.

Lemma pagination_non_numeric_limit (v pageQuery : string) :
  strconv.numeric v = false ->
  snd (strconv.Atoi v) <> Some strconv.ErrRange ->
  pagination v pageQuery = (0, Z.max (fst (strconv.Atoi pageQuery)) 1, 0).
Proof.
  intros H Hr. unfold pagination. rewrite (Atoi_non_numeric v H Hr). cbn [fst].
  change (100 <? 0) with false. cbv iota.
  pose proof (Atoi_range pageQuery) as Hp.
  set (p := fst (strconv.Atoi pageQuery)) in *.
  assert (Ep : (if p <? 1 then 1 else p) = Z.max p 1)
    by (destruct (Z.ltb_spec p 1); lia).
  rewrite Ep. unfold int_mul. rewrite Z.mul_0_r. reflexivity.
Qed.

Lemma pagination_non_numeric_page (limitQuery w : string) :
  strconv.numeric w = false ->
  snd (strconv.Atoi w) <> Some strconv.ErrRange ->
  snd (fst (pagination limitQuery w)) = 1.
Proof.
  intros H Hr. unfold pagination. rewrite (Atoi_non_numeric w H Hr). reflexivity.
Qed.

(* ------------------------------------------------------------------ *)
(** ** The logging stage *)

(** C1, as amended.  Around a handler that returns, with or without an
    error, the logging stage adds to the trace exactly one "Incoming
    request" entry, one "Request completed" entry, one "Request error"
    entry exactly when the error is not nil, one increment of the request
    counter and one duration observation, and hands the handler's result
    through.  Around a handler that panics the stage has added the
    "Incoming request" entry only and the panic goes on. *)
Theorem LoggingMiddleware_emissions (next : Handler) (s : State) :
  match next s with
  | (Val err, s1, inner) =>
      exists pre post,
        LoggingMiddleware next s = (Val err, s1, pre ++ inner ++ post) /\
        emits_exactly_once err (pre ++ post)
  | (Panic v, s1, inner) =>
      exists pre,
        LoggingMiddleware next s = (Panic v, s1, pre ++ inner) /\
        count (is_log InfoLevel "Incoming request") pre = 1%nat /\
        count (is_log InfoLevel "Request completed") pre = 0%nat /\
        count (is_log ErrorLevel "Request error") pre = 0%nat /\
        count (is_counter "http.requests_total") pre = 0%nat /\
        count (is_histogram "http.request.duration_ms") pre = 0%nat
  end.
Proof.
  unfold LoggingMiddleware. run_ops.
  destruct (next s) as [[[err|v] s1] inner].
  - destruct err as [e|]; cbn [app];
      eexists [_], _; (split; [reflexivity|]);
      repeat split; reflexivity.
  - cbn [app]. eexists [_]. repeat split; reflexivity.
Qed.

(** C1, counterexample.  GET /api/panic: the request passes the logging
    stage, and the trace of the whole request has the "Incoming request"
    entry but no "Request completed" entry, no counter increment and no
    duration observation. *)
Lemma panic_request_not_counted :
  result run_panic = Val tt /\
  count (is_log InfoLevel "Incoming request") (trace run_panic) = 1%nat /\
  count (is_log InfoLevel "Request completed") (trace run_panic) = 0%nat /\
  count (is_counter "http.requests_total") (trace run_panic) = 0%nat /\
  count (is_histogram "http.request.duration_ms") (trace run_panic) = 0%nat /\
  ~ (exists err, emits_exactly_once err (trace run_panic)).
Proof.
  repeat split; try reflexivity.
  intros [err (_ & H & _)]. vm_compute in H. discriminate.
Qed.

(** C6.  When the handler returns, the status the logging stage records
    on the request counter, the duration histogram and the "Request
    completed" entry is the effective status of the specification: with an
    error and a response still at 200, the error's HTTP code if it has one
    and 500 otherwise; in every other case the response's status. *)
Theorem LoggingMiddleware_effective_status (next : Handler) (s : State)
    (err : option GoError) (s1 : State) (inner : list Event) :
  next s = (Val err, s1, inner) ->
  exists pre post,
    LoggingMiddleware next s = (Val err, s1, pre ++ inner ++ post) /\
    recorded_status (pre ++ post) =
      [effective_status_spec err (resp_status (response s1));
       effective_status_spec err (resp_status (response s1));
       effective_status_spec err (resp_status (response s1))].
Proof.
  intros E. unfold LoggingMiddleware. run_ops. rewrite E.
  unfold effective_status_spec, fiber.StatusOK, fiber.StatusInternalServerError.
  destruct err as [e|]; cbn [app];
    eexists [_], _; (split; [reflexivity|]).
  - destruct (Z.eqb_spec (resp_status (response s1)) 200) as [H|H];
      case_decide; try contradiction; destruct e; reflexivity.
  - reflexivity.
Qed.

Lemma LoggingMiddleware_effective_status_witness :
  exists pre post,
    LoggingMiddleware route_debug_error
        (sample_state (sample_request "GET" "/debug/error" [] []) false redis_up pg_up)
      = (Val (Some (FiberError 400 "This is a deliberate error")),
         sample_state (sample_request "GET" "/debug/error" [] []) false redis_up pg_up,
         pre ++ [] ++ post) /\
    recorded_status (pre ++ post) = [400; 400; 400].
Proof.
  exact (LoggingMiddleware_effective_status route_debug_error _ _ _ [] eq_refl).
Defined.

Example effective_status_plain_error :
  recorded_status
    (trace (LoggingMiddleware (ret (Some (PlainError "boom")))
       (sample_state (sample_request "GET" "/" [] []) false redis_up pg_up)))
  = [500; 500; 500].
Proof. reflexivity. Qed.

Example effective_status_response_wins :
  recorded_status
    (trace (LoggingMiddleware
       (c_Status 503 ;;; ret (Some (FiberError 400 "late")))
       (sample_state (sample_request "GET" "/" [] []) false redis_up pg_up)))
  = [503; 503; 503].
Proof. reflexivity. Qed.

(* ------------------------------------------------------------------ *)
(** ** Teardown *)

(** C9, counterexample.  With every subsystem up and closing cleanly, the
    teardown closes the cache and the store pool by calls that carry no
    deadline: not every step runs under the 10 second timeout. *)
Lemma cache_close_unbounded :
  In (Cache, None) (calls (main_shutdown (sample_process None))) /\
  In (StorePool, None) (calls (main_shutdown (sample_process None))) /\
  ~ all_bounded (main_shutdown (sample_process None)).
Proof.
  split; [|split].
  - vm_compute. tauto.
  - vm_compute. tauto.
  - unfold all_bounded. rewrite Forall_forall. intros H.
    specialize (H (Cache, None)).
    assert (Hin : (Cache, None) ∈ calls (main_shutdown (sample_process None))).
    { apply list_elem_of_In. vm_compute. tauto. }
    specialize (H Hin). discriminate H.
Qed.

(** C9, as amended.  Whatever fails, teardown calls every subsystem that
    has a handle, in the order server, cache, store pool, metrics
    exporter, trace exporter, log exporter.  The server stop and the
    shutdowns of the trace and log exporters run under a context with the
    10 second timeout; the closes of the cache and of the store pool take
    no context and carry no deadline.  Every error returned by a step
    (server, cache, metrics, trace, log) is logged at error level, in that
    order. *)
Theorem main_shutdown_best_effort (p : Process) :
  map fst (calls (main_shutdown p)) =
    List.filter (initialized p)
      [Server; Cache; StorePool; MetricsExporter; TraceExporter; LogExporter] /\
  (forall sub d, In (sub, d) (calls (main_shutdown p)) ->
     match sub with
     | Server | TraceExporter | LogExporter => d = Some (10 * time.Second)
     | Cache | StorePool => d = None
     | MetricsExporter => True
     end) /\
  logged_errors (main_shutdown p) =
    omap id [app_shutdown_error p;
             rdb p ≫= close_error;
             meterProvider p ≫= close_error;
             tracerProvider p ≫= close_error;
             loggerProvider p ≫= close_error].
Proof.
  destruct p as [ae r po me tr lo].
  destruct ae as [ae|], r as [[[r|]]|], po as [po|], me as [[[me|]]|],
    tr as [[[tr|]]|], lo as [[[lo|]]|];
    (split; [reflexivity | split; [|reflexivity]]);
    intros sub d H; cbn in H;
    repeat (destruct H as [H|H]; [inversion H; subst; reflexivity|]);
    contradiction.
Qed.

Example shutdown_continues_after_cache_failure :
  calls (main_shutdown (sample_process (Some "use of closed network connection")))
    = [(Server, Some 10000000000); (Cache, None); (StorePool, None);
       (MetricsExporter, None); (TraceExporter, Some 10000000000);
       (LogExporter, Some 10000000000)] /\
  logged_errors (main_shutdown (sample_process (Some "use of closed network connection")))
    = ["use of closed network connection"].
Proof. split; reflexivity. Qed.

(* ------------------------------------------------------------------ *)
(** ** The tracing stage *)

Lemma alter_last {A} (f : A -> A) (l : list A) (x : A) :
  alter f (length l) (l ++ [x]) = l ++ [f x].
Proof.
  induction l as [|a l IH]; simpl; [reflexivity|].
  f_equal. exact IH.
Qed.

Lemma lookup_last {A} (l : list A) (x : A) :
  (l ++ [x]) !! length l = Some x.
Proof. induction l as [|a l IH]; simpl; [reflexivity|exact IH]. Qed.


(** The logging stage around a panic: the entry of the request, then the
    panic goes on. *)
Lemma LoggingMiddleware_panics (next : Handler) (s s1 : State)
    (v : PanicValue) (inner : list Event) :
  next s = (Panic v, s1, inner) ->
  LoggingMiddleware next s = (Panic v, s1, incoming_entry s :: inner).
Proof.
  intros E. unfold LoggingMiddleware. run_ops. rewrite E. reflexivity.
Qed.

(** The tracing stage around a panic: the deferred [End] runs, nothing
    after [c.Next()] does. *)
Lemma TracingMiddleware_panics (svc : string) (next : Handler) (s s1 : State)
    (v : PanicValue) (inner : list Event) :
  tracing_enabled s = true ->
  next (start_request svc s) = (Panic v, s1, inner) ->
  TracingMiddleware svc next s =
    (Panic v, end_span (length (spans s)) s1,
     EvSpanStart (length (spans s)) :: inner ++ [EvSpanEnd (length (spans s))]).
Proof.
  intros H E. unfold TracingMiddleware. run_ops. rewrite H.
  unfold start_request, server_span in E. rewrite E. reflexivity.
Qed.

Lemma end_span_lookup (n : nat) (s : State) (sp : Span) :
  spans (end_span n s) !! n = Some sp -> sp_ended sp = true.
Proof.
  unfold end_span. simpl_state. rewrite list_lookup_alter_eq.
  destruct (spans s !! n) as [x|]; simpl; [|discriminate].
  intros [= <-]. reflexivity.
Qed.

(** C8, on the code.  With tracing on, whatever the rest of the chain
    does (return, return an error, panic), the tracing stage hands its
    result through, starts one span and calls [End] on it once, after
    everything the rest of the chain emitted, and leaves the span ended;
    and it leaves the response as the rest of the chain left it: the
    trace context is injected into the map built by [GetRespHeaders], not
    into the response, so no trace header is added. *)
Theorem TracingMiddleware_span_once_response_untouched
    (svc : string) (next : Handler) (s : State) :
  tracing_enabled s = true ->
  let n := length (spans s) in
  let inner := next (start_request svc s) in
  let run := TracingMiddleware svc next s in
  result run = result inner /\
  trace run = EvSpanStart n :: trace inner ++ [EvSpanEnd n] /\
  count (is_span_end n) (trace run) = S (count (is_span_end n) (trace inner)) /\
  (forall sp, spans (final run) !! n = Some sp -> sp_ended sp = true) /\
  response (final run) = response (final inner).
Proof.
  intros H n inner run.
  assert (R : exists s2,
             run = (result inner, end_span n s2,
                    EvSpanStart n :: trace inner ++ [EvSpanEnd n]) /\
             response s2 = response (final inner)).
  { subst run inner n. unfold TracingMiddleware. run_ops. rewrite H.
    unfold start_request, server_span.
    destruct (next _) as [[[err|v] s1] ev].
    - destruct err as [e|]; eexists; (split; [simpl_state; rewrite ?app_nil_r; reflexivity|]);
        split_ifs; reflexivity.
    - eexists. split; reflexivity. }
  destruct R as (s2 & -> & Hresp).
  cbn [result final trace fst snd].
  repeat split.
  - cbn [count is_span_end]. rewrite count_app. cbn [count is_span_end].
    rewrite Nat.eqb_refl. lia.
  - apply end_span_lookup.
  - exact Hresp.
Qed.

Lemma TracingMiddleware_span_once_response_untouched_witness :
  let s := sample_state request_panic true redis_up pg_up in
  let next := LoggingMiddleware route_api_panic in
  let inner := next (start_request "svc" s) in
  let run := TracingMiddleware "svc" next s in
  tracing_enabled s = true /\
  result run = result inner /\
  trace run = EvSpanStart 0 :: trace inner ++ [EvSpanEnd 0] /\
  count (is_span_end 0) (trace run) = S (count (is_span_end 0) (trace inner)) /\
  (forall sp, spans (final run) !! 0%nat = Some sp -> sp_ended sp = true) /\
  response (final run) = response (final inner).
Proof.
  split; [reflexivity|].
  exact (TracingMiddleware_span_once_response_untouched "svc"
           (LoggingMiddleware route_api_panic)
           (sample_state request_panic true redis_up pg_up) eq_refl).
Defined.

(** GET /api/panic and GET /debug/error, tracing on: the span is ended
    once and the response carries no trace header. *)
Example panic_response_has_no_trace_header :
  assoc "Traceparent" (resp_headers (response (final run_panic))) = None /\
  resp_headers (response (final run_panic)) = [("Content-Type", "application/json")] /\
  count (is_span_end 0) (trace run_panic) = 1%nat.
Proof. repeat split; reflexivity. Qed.

Example error_response_has_no_trace_header :
  let run := serve sample_Marshal "" "svc" route_debug_error
               (sample_state (sample_request "GET" "/debug/error" [] []) true redis_up pg_up) in
  resp_status (response (final run)) = 400 /\
  assoc "Traceparent" (resp_headers (response (final run))) = None /\
  count (is_span_end 0) (trace run) = 1%nat.
Proof. repeat split; reflexivity. Qed.

(* ------------------------------------------------------------------ *)
(** ** The recovery stage *)

Section Recovery.

Variable json_Marshal : JSON -> string.
Variable debug_Stack : string.


End Recovery.


(** GET /api/panic, tracing on and the request sampled: the request span
    ends with its status unset, no recorded error and no panic attribute. *)
Example panic_span_not_marked :
  exists sp,
    spans (final run_panic) = [sp] /\
    sp_sampled sp = true /\
    sp_ended sp = true /\
    sp_status sp = Unset /\
    sp_errors sp = [] /\
    assoc "panic.error" (sp_attrs sp) = None /\
    assoc "panic.stack" (sp_attrs sp) = None.
Proof. eexists. repeat split; reflexivity. Qed.

(* ------------------------------------------------------------------ *)
(** ** A returning handler through the chain *)

Lemma LoggingMiddleware_returns (next : Handler) (s s1 : State)
    (err : option GoError) (inner : list Event) :
  next s = (Val err, s1, inner) ->
  exists post,
    LoggingMiddleware next s = (Val err, s1, incoming_entry s :: inner ++ post).
Proof.
  intros E. unfold LoggingMiddleware. run_ops. rewrite E.
  destruct err; cbn [app]; eexists; reflexivity.
Qed.

Lemma TracingMiddleware_returns (svc : string) (next : Handler) (s s1 : State)
    (err : option GoError) (inner : list Event) :
  tracing_enabled s = true ->
  next (start_request svc s) = (Val err, s1, inner) ->
  exists s2 ev,
    TracingMiddleware svc next s = (Val err, s2, ev) /\
    response s2 = response s1 /\ redis s2 = redis s1 /\
    request s2 = request s1 /\ user_context s2 = user_context s1.
Proof.
  intros H E. unfold TracingMiddleware. run_ops. rewrite H.
  unfold start_request, server_span in E. rewrite E.
  destruct err; eexists _, _; (split; [reflexivity|]); repeat split.
Qed.

Lemma chain_state_frame (svc : string) (s : State) :
  request (chain_state svc s) = request s /\
  redis (chain_state svc s) = redis s /\
  pg (chain_state svc s) = pg s /\
  response (chain_state svc s) = response s /\
  tracing_enabled (chain_state svc s) = tracing_enabled s.
Proof.
  unfold chain_state. destruct (tracing_enabled s) eqn:E; repeat split; assumption.
Qed.

Section Chain.

Variable json_Marshal : JSON -> string.
Variable debug_Stack : string.

Lemma middleware_chain_returns (svc : string) (route : Handler) (s s1 : State)
    (err : option GoError) (inner : list Event) :
  route (chain_state svc s) = (Val err, s1, inner) ->
  exists s2 ev,
    middleware_chain json_Marshal debug_Stack svc route s = (Val err, s2, ev) /\
    response s2 = response s1 /\ redis s2 = redis s1 /\
    request s2 = request s1 /\ user_context s2 = user_context s1.
Proof.
  unfold chain_state, middleware_chain, RecoveryMiddleware.
  cbv beta iota zeta delta [with_recover].
  destruct (tracing_enabled s) eqn:H; intros E.
  - destruct (LoggingMiddleware_returns route _ _ _ _ E) as [post EL].
    destruct (TracingMiddleware_returns svc _ _ _ _ _ H EL) as (s2 & ev & -> & F).
    eexists _, _. split; [reflexivity|exact F].
  - destruct (LoggingMiddleware_returns route _ _ _ _ E) as [post ->].
    eexists _, _. repeat split.
Qed.

(** A handler error that leaves the chain is answered by the error
    handler with the error's code (500 without one) and message. *)
Lemma serve_error (svc : string) (route : Handler) (s s1 : State)
    (e : GoError) (inner : list Event) :
  route (chain_state svc s) = (Val (Some e), s1, inner) ->
  let run := serve json_Marshal debug_Stack svc route s in
  result run = Val tt /\
  resp_status (response (final run)) =
    match e with FiberError c _ => c | PlainError _ => 500 end /\
  resp_body (response (final run)) =
    json_Marshal (JMap [("error", JStr (error_message e))]) /\
  redis (final run) = redis s1.
Proof.
  intros E run. subst run.
  destruct (middleware_chain_returns svc route _ _ _ _ E)
    as (s2 & ev & EC & Hresp & Hredis & _).
  unfold serve, ErrorHandler. cbv beta iota zeta delta [bind]. rewrite EC.
  run_ops. simpl_state. destruct e; repeat split; exact Hredis.
Qed.

Lemma serve_ok (svc : string) (route : Handler) (s s1 : State)
    (inner : list Event) :
  route (chain_state svc s) = (Val None, s1, inner) ->
  let run := serve json_Marshal debug_Stack svc route s in
  result run = Val tt /\
  response (final run) = response s1 /\
  redis (final run) = redis s1.
Proof.
  intros E run. subst run.
  destruct (middleware_chain_returns svc route _ _ _ _ E)
    as (s2 & ev & EC & Hresp & Hredis & _).
  unfold serve. cbv beta iota zeta delta [bind]. rewrite EC.
  run_ops. simpl_state. repeat split; assumption.
Qed.

End Chain.

(* ------------------------------------------------------------------ *)
(** ** The cache-aside read *)

Lemma find_absent (n : Z) (rows : list PgRow) :
  (forall r, In r rows -> row_id r <> n) ->
  find (fun r => row_id r =? n) rows = None.
Proof.
  induction rows as [|r rows IH]; intros H; [reflexivity|].
  simpl. destruct (Z.eqb_spec (row_id r) n) as [E|_].
  - exfalso. apply (H r); [left; reflexivity|exact E].
  - apply IH. intros r' Hr'. apply H. right. exact Hr'.
Qed.

(** An id that parses and that no row of a reachable store carries is
    answered by the driver with "no rows". *)
Lemma pg_select_user_absent (db : Pg) (id : string) (n : Z) :
  pg_fault db = None ->
  strconv.Atoi id = (n, None) ->
  (forall r, In r (pg_rows db) -> row_id r <> n) ->
  pg_select_user db id = inr ErrNoRows.
Proof.
  intros Hf Hid Hrows. unfold pg_select_user.
  rewrite Hf, Hid, (find_absent n _ Hrows). reflexivity.
Qed.

Section CacheAside.

Variable json_Marshal : JSON -> string.
Variable json_Unmarshal : string -> User + GoError.

Ltac cache_miss_cases Hc :=
  unfold cache_lookup, cache_key, param_id in Hc |- *;
  let go := (cbv beta iota; simpl_state) in
  match goal with
  | s : State |- _ =>
      destruct (rdb_fault (redis s)) as [f|] eqn:Hf;
      [ go
      | destruct (rdb_data (redis s) !! _) as [[val ttl]|] eqn:Hl;
        [ destruct (json_Unmarshal val) as [u0|e0] eqn:Hu; [discriminate Hc|]; go
        | go ] ]
  end.

(** After a cache miss every error of the store lookup, whatever its
    cause, is logged at error level with the cause and turned into the
    404 error "User not found"; the cache and the response are left as
    they were. *)
Lemma GetUser_store_error (svc : string) (s : State) (e : GoError) :
  cache_lookup json_Unmarshal s (cache_key s) = None ->
  pg_select_user (pg s) (param_id s) = inr e ->
  exists s1 ev,
    GetUser json_Marshal json_Unmarshal svc s =
      (Val (Some (FiberError 404 "User not found")), s1, ev) /\
    redis s1 = redis s /\ response s1 = response s /\
    In (EvLog (mkLog ErrorLevel "User not found" (user_context s)
                 [("id", VStr (param_id s)); ("error", VErr e)])) ev /\
    count (is_level ErrorLevel) ev = 1%nat.
Proof.
  intros Hc Hp. unfold GetUser. unfold param_id in Hp.
  destruct (tracing_enabled s) eqn:Ht; run_ops; rewrite ?Ht; simpl_state;
    cache_miss_cases Hc; rewrite Hp; cbv beta iota; simpl_state;
    eexists _, _; (split; [reflexivity|]);
    (split; [reflexivity|]); (split; [reflexivity|]);
    (split; [cbn; tauto | reflexivity]).
Qed.

(** After a cache miss a successful store lookup answers with the
    resource; the cache write carries the encoding of the resource and
    the 10 minute ttl and takes effect when the cache is reachable; its
    result is dropped, so a failed write changes neither the answer nor
    the log: no entry above info level is emitted for it. *)
Lemma GetUser_store_found (svc : string) (s : State) (u : User) :
  cache_lookup json_Unmarshal s (cache_key s) = None ->
  pg_select_user (pg s) (param_id s) = inl u ->
  exists s1 ev,
    GetUser json_Marshal json_Unmarshal svc s = (Val None, s1, ev) /\
    resp_body (response s1) = json_Marshal (JUser u) /\
    resp_status (response s1) = resp_status (response s) /\
    redis s1 =
      match rdb_fault (redis s) with
      | Some _ => redis s
      | None =>
          mkRedis None
            (<[cache_key s := (json_Marshal (JUser u), 10 * time.Minute)]>
               (rdb_data (redis s)))
      end /\
    count (is_level ErrorLevel) ev = 0%nat /\
    Forall (fun l => log_msg l = "Cache miss" \/
                     log_msg l = "Failed to unmarshal cached user") (logs ev).
Proof.
  intros Hc Hp. unfold GetUser. unfold param_id in Hp.
  destruct (tracing_enabled s) eqn:Ht; run_ops; rewrite ?Ht; simpl_state;
    cache_miss_cases Hc; rewrite Hp; cbv beta iota; simpl_state;
    rewrite ?Hf; cbv beta iota; simpl_state;
    eexists _, _; (split; [reflexivity|]);
    (split; [reflexivity|]); (split; [reflexivity|]);
    (split; [rewrite ?Hf; reflexivity|]);
    (split; [reflexivity|]);
    cbn;
    repeat (apply List.Forall_cons; [solve [left; reflexivity | right; reflexivity]|]);
    apply List.Forall_nil.
Qed.

End CacheAside.

Section UserRead.

Variable json_Marshal : JSON -> string.
Variable json_Unmarshal : string -> User + GoError.
Variable debug_Stack : string.

Local Abbreviation read svc := (GetUser json_Marshal json_Unmarshal svc).

Lemma chain_state_cache_miss (svc : string) (s : State) :
  cache_lookup json_Unmarshal s (cache_key s) = None ->
  cache_lookup json_Unmarshal (chain_state svc s) (cache_key (chain_state svc s)) = None.
Proof.
  destruct (chain_state_frame svc s) as (Hreq & Hredis & _).
  unfold cache_lookup, cache_key, param_id. rewrite Hreq, Hredis. exact (fun h => h).
Qed.

Lemma chain_state_select (svc : string) (s : State) :
  pg_select_user (pg (chain_state svc s)) (param_id (chain_state svc s)) =
  pg_select_user (pg s) (param_id s).
Proof.
  destruct (chain_state_frame svc s) as (Hreq & _ & Hpg & _).
  unfold param_id. rewrite Hreq, Hpg. reflexivity.
Qed.

(** C4.  A read of an id that no row of the reachable store carries,
    after a cache miss, fails with the 404 error "User not found",
    answered as HTTP 404, and leaves the cache as it was. *)
Theorem GetUser_absent_id_not_found (svc : string) (s : State) (n : Z) :
  cache_lookup json_Unmarshal s (cache_key s) = None ->
  pg_fault (pg s) = None ->
  strconv.Atoi (param_id s) = (n, None) ->
  (forall r, In r (pg_rows (pg s)) -> row_id r <> n) ->
  let run := serve json_Marshal debug_Stack svc (read svc) s in
  result (read svc (chain_state svc s)) =
    Val (Some (fiber.NewError fiber.StatusNotFound "User not found")) /\
  result run = Val tt /\
  resp_status (response (final run)) = 404 /\
  resp_body (response (final run)) =
    json_Marshal (JMap [("error", JStr "User not found")]) /\
  redis (final run) = redis s.
Proof.
  intros Hc Hf Hid Hrows run.
  pose proof (pg_select_user_absent _ _ _ Hf Hid Hrows) as Hsel.
  rewrite <- (chain_state_select svc) in Hsel.
  destruct (GetUser_store_error json_Marshal json_Unmarshal svc _ _
              (chain_state_cache_miss svc s Hc) Hsel)
    as (s1 & ev & E & Hredis & _).
  destruct (serve_error json_Marshal debug_Stack svc (read svc) s s1 _ ev E)
    as (R1 & R2 & R3 & R4).
  subst run. rewrite E.
  repeat split; try assumption.
  rewrite R4, Hredis. apply chain_state_frame.
Qed.

(** C3, on the code.  A read whose store lookup fails because the store
    is unreachable, after a cache miss, is logged at error level with the
    cause and then answered as HTTP 404 "User not found", not as 500. *)
Theorem GetUser_store_failure_is_404 (svc : string) (s : State) (cause : string) :
  cache_lookup json_Unmarshal s (cache_key s) = None ->
  pg_fault (pg s) = Some cause ->
  let run := serve json_Marshal debug_Stack svc (read svc) s in
  result run = Val tt /\
  resp_status (response (final run)) = 404 /\
  resp_body (response (final run)) =
    json_Marshal (JMap [("error", JStr "User not found")]) /\
  In (EvLog (mkLog ErrorLevel "User not found" (user_context (chain_state svc s))
               [("id", VStr (param_id s)); ("error", VErr (PlainError cause))]))
     (trace (read svc (chain_state svc s))).
Proof.
  intros Hc Hf run.
  assert (Hsel : pg_select_user (pg s) (param_id s) = inr (PlainError cause))
    by (unfold pg_select_user; rewrite Hf; reflexivity).
  rewrite <- (chain_state_select svc) in Hsel.
  destruct (GetUser_store_error json_Marshal json_Unmarshal svc _ _
              (chain_state_cache_miss svc s Hc) Hsel)
    as (s1 & ev & E & _ & _ & Hlog & _).
  destruct (serve_error json_Marshal debug_Stack svc (read svc) s s1 _ ev E)
    as (R1 & R2 & R3 & _).
  subst run. rewrite E.
  repeat split; try assumption.
  cbn [trace snd].
  replace (param_id s) with (param_id (chain_state svc s)); [exact Hlog|].
  unfold param_id. destruct (chain_state_frame svc s) as (-> & _). reflexivity.
Qed.

(** C7, as amended.  A read that misses the cache and finds the row
    answers with the resource, status untouched, and issues the cache
    write with the encoding of the resource and the 10 minute ttl, which
    is stored when the cache is reachable.  The result of the write is
    dropped: a failed write changes nothing else, and the handler emits
    no error-level entry and no entry other than "Cache miss" and the
    warning for undecodable cached bytes. *)
Theorem GetUser_hydrates_cache (svc : string) (s : State) (u : User) :
  cache_lookup json_Unmarshal s (cache_key s) = None ->
  pg_select_user (pg s) (param_id s) = inl u ->
  let run := serve json_Marshal debug_Stack svc (read svc) s in
  let handler := read svc (chain_state svc s) in
  result run = Val tt /\
  resp_body (response (final run)) = json_Marshal (JUser u) /\
  resp_status (response (final run)) = resp_status (response s) /\
  redis (final run) =
    match rdb_fault (redis s) with
    | Some _ => redis s
    | None =>
        mkRedis None
          (<[cache_key s := (json_Marshal (JUser u), 600000000000)]>
             (rdb_data (redis s)))
    end /\
  count (is_level ErrorLevel) (trace handler) = 0%nat /\
  Forall (fun l => log_msg l = "Cache miss" \/
                   log_msg l = "Failed to unmarshal cached user")
         (logs (trace handler)).
Proof.
  intros Hc Hsel run handler.
  rewrite <- (chain_state_select svc) in Hsel.
  destruct (GetUser_store_found json_Marshal json_Unmarshal svc _ _
              (chain_state_cache_miss svc s Hc) Hsel)
    as (s1 & ev & E & Hbody & Hstatus & Hredis & Hcount & Hlogs).
  destruct (serve_ok json_Marshal debug_Stack svc (read svc) s s1 ev E)
    as (R1 & R2 & R3).
  subst run handler. rewrite E. cbn [trace snd].
  destruct (chain_state_frame svc s) as (Hreq & Hr & _ & Hresp & _).
  repeat split; try assumption.
  - rewrite R2. exact Hbody.
  - rewrite R2, Hstatus, Hresp. reflexivity.
  - rewrite R3, Hredis, Hr. unfold cache_key, param_id. rewrite Hreq. reflexivity.
Qed.

End UserRead.

Lemma GetUser_absent_id_not_found_witness :
  let s := state_absent in
  let run := serve sample_Marshal "" "svc" (GetUser sample_Marshal sample_Unmarshal "svc") s in
  strconv.Atoi (param_id s) = (999999, None) /\
  result (GetUser sample_Marshal sample_Unmarshal "svc" (chain_state "svc" s)) =
    Val (Some (fiber.NewError fiber.StatusNotFound "User not found")) /\
  result run = Val tt /\
  resp_status (response (final run)) = 404 /\
  resp_body (response (final run)) =
    sample_Marshal (JMap [("error", JStr "User not found")]) /\
  redis (final run) = redis s.
Proof.
  cbv zeta. split; [reflexivity|].
  apply (GetUser_absent_id_not_found sample_Marshal sample_Unmarshal "" "svc"
           state_absent 999999).
  - reflexivity.
  - reflexivity.
  - reflexivity.
  - intros r [<-|[]]. discriminate.
Defined.

Lemma GetUser_store_failure_is_404_witness :
  pg_fault (pg state_store_down) = Some "connection refused" /\
  result run_store_down = Val tt /\
  resp_status (response (final run_store_down)) = 404 /\
  resp_body (response (final run_store_down)) =
    sample_Marshal (JMap [("error", JStr "User not found")]) /\
  In (EvLog (mkLog ErrorLevel "User not found"
               (user_context (chain_state "svc" state_store_down))
               [("id", VStr (param_id state_store_down));
                ("error", VErr (PlainError "connection refused"))]))
     (trace (GetUser sample_Marshal sample_Unmarshal "svc"
               (chain_state "svc" state_store_down))).
Proof.
  split; [reflexivity|].
  exact (GetUser_store_failure_is_404 sample_Marshal sample_Unmarshal "" "svc"
           state_store_down "connection refused" eq_refl eq_refl).
Defined.

Lemma GetUser_hydrates_cache_witness :
  let s := sample_state (request_user "1") true redis_up pg_up in
  let run := serve sample_Marshal "" "svc" (GetUser sample_Marshal sample_Unmarshal "svc") s in
  let handler := GetUser sample_Marshal sample_Unmarshal "svc" (chain_state "svc" s) in
  pg_select_user (pg s) (param_id s) = inl alice /\
  result run = Val tt /\
  resp_body (response (final run)) = sample_Marshal (JUser alice) /\
  resp_status (response (final run)) = resp_status (response s) /\
  redis (final run) =
    mkRedis None (<[cache_key s := (sample_Marshal (JUser alice), 600000000000)]>
                    (rdb_data (redis s))) /\
  count (is_level ErrorLevel) (trace handler) = 0%nat /\
  Forall (fun l => log_msg l = "Cache miss" \/
                   log_msg l = "Failed to unmarshal cached user")
         (logs (trace handler)).
Proof.
  cbv zeta. split; [reflexivity|].
  exact (GetUser_hydrates_cache sample_Marshal sample_Unmarshal "" "svc"
           (sample_state (request_user "1") true redis_up pg_up) alice
           eq_refl eq_refl).
Defined.

(** C7, counterexample.  GET /api/users/1 with the cache unreachable: the
    cache write fails, the read answers with the resource, and the log of
    the whole request has three info entries and nothing about the
    failed write. *)
Lemma cache_write_failure_not_logged :
  result (redis_Set (cache_key state_cache_down) (sample_Marshal (JUser alice))
            cache_ttl state_cache_down)
    = Val (Some (PlainError "dial tcp: connection refused")) /\
  result run_cache_down = Val tt /\
  resp_body (response (final run_cache_down)) = sample_Marshal (JUser alice) /\
  map log_msg (logs (trace run_cache_down)) =
    ["Incoming request"; "Cache miss"; "Request completed"] /\
  ~ (exists l, In l (logs (trace run_cache_down)) /\ log_level l <> InfoLevel).
Proof.
  repeat split; try reflexivity.
  intros [l [Hin Hl]]. vm_compute in Hin.
  destruct Hin as [<-|[<-|[<-|[]]]]; apply Hl; reflexivity.
Qed.

(** GET /api/users/1 with the store unreachable: 404, and the cause is in
    the error-level entry of the handler. *)
Example store_down_answers_404 :
  resp_status (response (final run_store_down)) = 404 /\
  resp_body (response (final run_store_down)) =
    sample_Marshal (JMap [("error", JStr "User not found")]).
Proof. split; reflexivity. Qed.

(* ------------------------------------------------------------------ *)
(** ** ListUsers with a limit that does not parse *)

Section UserList.

Variable json_Marshal : JSON -> string.
Variable debug_Stack : string.

Lemma ListUsers_limit_zero (svc : string) (s : State) (v : string) :
  query_value s "limit" = Some v ->
  strconv.numeric v = false ->
  snd (strconv.Atoi v) <> Some strconv.ErrRange ->
  let page := Z.max (fst (strconv.Atoi (default "1" (query_value s "page")))) 1 in
  exists s1 ev,
    match pg_fault (pg s) with
    | Some _ =>
        ListUsers json_Marshal svc s =
          (Val (Some (FiberError 500 "Failed to fetch users")), s1, ev)
    | None =>
        ListUsers json_Marshal svc s = (Val None, s1, ev) /\
        resp_status (response s1) = resp_status (response s) /\
        resp_body (response s1) =
          json_Marshal (JMap
            [("users", JUsers []);
             ("metadata", JMap [("count", JInt 0); ("limit", JInt 0); ("page", JInt page)])])
    end.
Proof.
  intros Hq Hn Hr page. subst page. unfold ListUsers, query_value in *.
  run_ops.
  destruct (assoc "limit" (req_query (request s))) as [[|a v']|]; try discriminate Hq.
  injection Hq as <-.
  assert (Hpage : forall pq : string,
            match assoc "page" (req_query (request s)) with
            | Some (String b w) => String b w
            | _ => pq
            end = default pq (match assoc "page" (req_query (request s)) with
                              | Some (String b w) => Some (String b w)
                              | _ => None
                              end)).
  { intros pq. destruct (assoc "page" (req_query (request s))) as [[|b w]|]; reflexivity. }
  rewrite Hpage. rewrite (pagination_non_numeric_limit _ _ Hn Hr).
  unfold pg_select_users.
  destruct (tracing_enabled s); cbv beta iota; simpl_state;
    destruct (pg_fault (pg s)) as [f|];
    cbn [Z.ltb Z.compare Z.to_nat take scan_rows]; run_ops; simpl_state;
    eexists _, _; repeat split.
Qed.

(** C10.  A list request whose [limit] value is present, not empty, not
    numeric and not a range error of the parser: the parse error is
    dropped and the limit is 0, not the default 10.  The store query is
    run with LIMIT 0 OFFSET 0: when the store cannot be reached its
    failure is the answer, 500 "Failed to fetch users"; otherwise,
    whatever the table holds, the response carries the empty user list
    with count 0 and limit 0.  Likewise a [page] value that is not
    numeric and not a range error parses to 0 and the page is 1. *)
Theorem ListUsers_non_numeric_limit (svc : string) (s : State) (v : string) :
  query_value s "limit" = Some v ->
  strconv.numeric v = false ->
  snd (strconv.Atoi v) <> Some strconv.ErrRange ->
  let pageQuery := default "1" (query_value s "page") in
  let page := Z.max (fst (strconv.Atoi pageQuery)) 1 in
  let run := serve json_Marshal debug_Stack svc (ListUsers json_Marshal svc) s in
  strconv.Atoi v = (0, Some strconv.ErrSyntax) /\
  pagination v pageQuery = (0, page, 0) /\
  result run = Val tt /\
  match pg_fault (pg s) with
  | Some _ =>
      resp_status (response (final run)) = 500 /\
      resp_body (response (final run)) =
        json_Marshal (JMap [("error", JStr "Failed to fetch users")])
  | None =>
      resp_status (response (final run)) = resp_status (response s) /\
      resp_body (response (final run)) =
        json_Marshal (JMap
          [("users", JUsers []);
           ("metadata", JMap [("count", JInt 0); ("limit", JInt 0); ("page", JInt page)])])
  end /\
  (forall w, query_value s "page" = Some w -> strconv.numeric w = false ->
     snd (strconv.Atoi w) <> Some strconv.ErrRange ->
     fst (strconv.Atoi w) = 0 /\ page = 1).
Proof.
  intros Hq Hn Hr pageQuery page run.
  destruct (chain_state_frame svc s) as (Hreq & _ & Hpg & Hresp & _).
  assert (Hq' : query_value (chain_state svc s) "limit" = Some v)
    by (unfold query_value; rewrite Hreq; exact Hq).
  assert (Hpq : query_value (chain_state svc s) "page" = query_value s "page")
    by (unfold query_value; rewrite Hreq; reflexivity).
  destruct (ListUsers_limit_zero svc _ v Hq' Hn Hr) as (s1 & ev & E).
  rewrite Hpg, Hpq in E.
  split; [exact (Atoi_non_numeric v Hn Hr)|].
  split; [exact (pagination_non_numeric_limit v pageQuery Hn Hr)|].
  assert (Hpage : forall w, query_value s "page" = Some w -> strconv.numeric w = false ->
            snd (strconv.Atoi w) <> Some strconv.ErrRange ->
            fst (strconv.Atoi w) = 0 /\ page = 1).
  { intros w Hw Hnw Hrw. subst page pageQuery. rewrite Hw.
    change (default "1" (Some w)) with w.
    rewrite (Atoi_non_numeric w Hnw Hrw). split; reflexivity. }
  subst run. destruct (pg_fault (pg s)) as [f|].
  - destruct (serve_error json_Marshal debug_Stack svc _ s s1 _ ev E) as (R1 & R2 & R3 & _).
    split; [exact R1|]. split; [split; [exact R2|exact R3]|exact Hpage].
  - destruct E as (E & Hst & Hbody).
    destruct (serve_ok json_Marshal debug_Stack svc _ s s1 ev E) as (R1 & R2 & _).
    rewrite R2. split; [exact R1|].
    split; [split; [rewrite Hst, Hresp; reflexivity|exact Hbody]|exact Hpage].
Qed.

End UserList.

Lemma ListUsers_non_numeric_limit_witness :
  let s := state_list_text in
  let run := serve sample_Marshal "" "svc" (ListUsers sample_Marshal "svc") s in
  pg_rows (pg s) = [GoodRow alice] /\
  strconv.Atoi "abc" = (0, Some strconv.ErrSyntax) /\
  pagination "abc" "x" = (0, 1, 0) /\
  result run = Val tt /\
  (resp_status (response (final run)) = 200 /\
   resp_body (response (final run)) =
     sample_Marshal (JMap
       [("users", JUsers []);
        ("metadata", JMap [("count", JInt 0); ("limit", JInt 0); ("page", JInt 1)])])) /\
  (forall w, query_value s "page" = Some w -> strconv.numeric w = false ->
     snd (strconv.Atoi w) <> Some strconv.ErrRange ->
     fst (strconv.Atoi w) = 0 /\ 1 = 1).
Proof.
  cbv zeta. split; [reflexivity|].
  exact (ListUsers_non_numeric_limit sample_Marshal "" "svc" state_list_text "abc"
           eq_refl eq_refl ltac:(discriminate)).
Defined.

(** C10, counterexample.  Two list requests over a table of one row whose
    [limit] value is present and not numeric, and whose limit is not 0.
    With [limit=] (an empty value) the framework hands the handler the
    default, the limit is 10 and the row is listed.  With twenty nines
    followed by a letter the parser stops at the overflow of the digits,
    before it reads the letter: the value is the largest [int] with a
    range error, the limit is 100 and the row is listed. *)
Lemma non_numeric_limit_not_zero :
  let empty := serve sample_Marshal "" "svc" (ListUsers sample_Marshal "svc")
                 state_list_empty in
  let long := serve sample_Marshal "" "svc" (ListUsers sample_Marshal "svc")
                state_list_overflow in
  let body (limit : Z) :=
    sample_Marshal (JMap
      [("users", JUsers [alice]);
       ("metadata", JMap [("count", JInt 1); ("limit", JInt limit); ("page", JInt 1)])]) in
  assoc "limit" (req_query (request state_list_empty)) = Some "" /\
  strconv.numeric "" = false /\
  resp_body (response (final empty)) = body 10 /\
  assoc "limit" (req_query (request state_list_overflow)) = Some "99999999999999999999x" /\
  strconv.numeric "99999999999999999999x" = false /\
  strconv.Atoi "99999999999999999999x" = (int_max, Some strconv.ErrRange) /\
  resp_body (response (final long)) = body 100.
Proof. cbv zeta. repeat split; reflexivity. Qed.

(** An absent or empty [limit] takes the default 10; a numeric one is kept. *)
Example ListUsers_default_limit :
  result (c_Query "limit" "10" (sample_state (request_list []) false redis_up pg_up))
    = Val "10" /\
  result (c_Query "limit" "10"
            (sample_state (request_list [("limit", "")]) false redis_up pg_up))
    = Val "10" /\
  result (c_Query "limit" "10"
            (sample_state (request_list [("limit", "20")]) false redis_up pg_up))
    = Val "20".
Proof. repeat split; reflexivity. Qed.

(* ------------------------------------------------------------------ *)
(** ** ListUsers: the clamped values are the ones used *)

Lemma scan_rows_run (log : Logger) (rows : list PgRow) (acc : list User) (s : State) :
  scan_rows log rows acc s =
    (Val (acc ++ scanned_users rows), s, scan_failures log rows).
Proof.
  revert acc. induction rows as [|r rows IH]; intros acc.
  - cbn. rewrite app_nil_r. reflexivity.
  - destruct r as [u|id cause]; cbn [scan_rows].
    + rewrite IH. cbn. rewrite <- app_assoc. reflexivity.
    + run_ops. cbn. rewrite app_nil_r. reflexivity.
Qed.

Section Pagination.

Variable json_Marshal : JSON -> string.

(** C5.  For every list request the limit and the page are clamped before
    they are used: with [l] and [p] the parsed [limit] and [page] query
    values (defaults "10" and "1"), the handler works with
    [limit = min l 100], [page = max p 1] and
    [offset = (page-1)*limit] in Go's [int] arithmetic (the exact product
    whenever it is an [int]); these are the LIMIT and OFFSET of the store
    query, and the limit and page reported in the response. *)
Theorem ListUsers_pagination_clamped (svc : string) (s : State) :
  let l := fst (strconv.Atoi (default "10" (query_value s "limit"))) in
  let p := fst (strconv.Atoi (default "1" (query_value s "page"))) in
  let limit := Z.min l 100 in
  let page := Z.max p 1 in
  let offset := wrap_int ((page - 1) * limit) in
  let run := ListUsers json_Marshal svc s in
  pagination (default "10" (query_value s "limit")) (default "1" (query_value s "page"))
    = (limit, page, offset) /\
  (int_min <= (page - 1) * limit <= int_max -> offset = (page - 1) * limit) /\
  match pg_select_users (pg s) limit offset with
  | inr _ =>
      result run =
        Val (Some (fiber.NewError fiber.StatusInternalServerError "Failed to fetch users"))
  | inl rows =>
      result run = Val None /\
      resp_body (response (final run)) =
        json_Marshal (JMap
          [("users", JUsers (scanned_users rows));
           ("metadata", JMap
              [("count", JInt (Z.of_nat (length (scanned_users rows))));
               ("limit", JInt limit); ("page", JInt page)])])
  end.
Proof.
  intros l p limit page offset run.
  destruct (pagination_clamped (default "10" (query_value s "limit"))
              (default "1" (query_value s "page"))) as (H1 & H2 & H3 & H4).
  fold l p in H1, H2, H3, H4.
  assert (HP : pagination (default "10" (query_value s "limit"))
                 (default "1" (query_value s "page")) = (limit, page, offset)).
  { destruct (pagination _ _) as [[a b] c]. cbn [fst snd] in *.
    subst limit page offset. rewrite <- H1, <- H2, <- H3. reflexivity. }
  split; [exact HP|].
  split; [intros Hr; subst offset; apply wrap_int_id, Hr|].
  assert (Hl : forall d : string,
            match assoc "limit" (req_query (request s)) with
            | Some (String b w) => String b w
            | _ => d
            end = default d (query_value s "limit")).
  { intros d. unfold query_value.
    destruct (assoc "limit" (req_query (request s))) as [[|b w]|]; reflexivity. }
  assert (Hp : forall d : string,
            match assoc "page" (req_query (request s)) with
            | Some (String b w) => String b w
            | _ => d
            end = default d (query_value s "page")).
  { intros d. unfold query_value.
    destruct (assoc "page" (req_query (request s))) as [[|b w]|]; reflexivity. }
  subst run. unfold ListUsers. run_ops. rewrite Hl, Hp, HP.
  destruct (tracing_enabled s); cbv beta iota; simpl_state;
    (destruct (pg_select_users (pg s) limit offset) as [rows|e];
     [ rewrite scan_rows_run; cbv beta iota; simpl_state; split; reflexivity
     | reflexivity ]).
Qed.

End Pagination.

Example ListUsers_limit_250 :
  let s := sample_state (request_list [("limit", "250"); ("page", "0")]) false redis_up
             (mkPg None [GoodRow alice; BadRow 2 "cannot scan"; GoodRow (mkUser 3 "Bob" "b@x.com" 0)]) in
  resp_body (response (final (ListUsers sample_Marshal "svc" s))) =
    "{users:[{id:1,name:Alice,email:a@x.com}];" +:+
    "metadata:{count:1;limit:100;page:1;};}".
Proof. vm_compute. reflexivity. Qed.

(* ------------------------------------------------------------------ *)
(** ** More on the middleware chain *)

Ltac run_more :=
  cbv beta iota zeta delta [pool_Exec_delete pool_QueryRow_insert];
  run_ops.

(** The logging stage around a handler that returns, event by event. *)
Lemma LoggingMiddleware_run (next : Handler) (s s1 : State)
    (err : option GoError) (inner : list Event) :
  next s = (Val err, s1, inner) ->
  LoggingMiddleware next s =
    (Val err, s1, incoming_entry s :: inner ++ completion_events s s1 err).
Proof.
  intros E. unfold LoggingMiddleware. run_ops. rewrite E.
  destruct err; reflexivity.
Qed.

Section ChainMore.

Variable json_Marshal : JSON -> string.
Variable debug_Stack : string.

(** The recovery stage around a panic: one entry, status 500 and the
    JSON error body; nothing but spans and the response is written. *)
Lemma RecoveryMiddleware_recovers (next : Handler) (s s1 : State)
    (v : PanicValue) (inner : list Event) :
  next s = (Panic v, s1, inner) ->
  exists s2,
    RecoveryMiddleware json_Marshal debug_Stack GetLogger next s =
      (Val None, s2, inner ++ [EvLog (panic_entry debug_Stack v s1)]) /\
    response s2 =
      mkResponse 500
        (set_header "Content-Type" "application/json" (resp_headers (response s1)))
        (json_Marshal (JMap [("error", JStr "Internal Server Error")])) /\
    redis s2 = redis s1 /\ pg s2 = pg s1 /\ request s2 = request s1.
Proof.
  intros E. unfold RecoveryMiddleware. cbv beta iota zeta delta [with_recover].
  rewrite E. run_ops. unfold panic_entry, panic_error, fiber.StatusInternalServerError.
  destruct (span_recording s1 (user_context s1)); destruct v;
    destruct (user_context s1); simpl_state;
    eexists; (split; [cbn [app]; rewrite ?app_nil_r; reflexivity|]);
    repeat split.
Qed.

(** X1.  Whatever the configuration and whatever the handler has done
    before, a panic of the route's handler does not leave the chain: the
    request is answered with 500 and the JSON body
    [{"error": "Internal Server Error"}], the error handler is not
    invoked, the recovery stage adds exactly one "Panic recovered"
    entry, and cache and store are as the handler left them. *)
Theorem serve_contains_panic (svc : string) (route : Handler) (s s1 : State)
    (v : PanicValue) (inner : list Event) :
  route (chain_state svc s) = (Panic v, s1, inner) ->
  let run := serve json_Marshal debug_Stack svc route s in
  result run = Val tt /\
  resp_status (response (final run)) = 500 /\
  resp_body (response (final run)) =
    json_Marshal (JMap [("error", JStr "Internal Server Error")]) /\
  count (is_log ErrorLevel "Panic recovered") (trace run) =
    S (count (is_log ErrorLevel "Panic recovered") inner) /\
  count (is_log ErrorLevel "Request error") (trace run) =
    count (is_log ErrorLevel "Request error") inner /\
  redis (final run) = redis s1 /\ pg (final run) = pg s1.
Proof.
  intros E run. unfold chain_state in E.
  assert (R : exists s2 pre post,
    middleware_chain json_Marshal debug_Stack svc route s =
      (Val None, s2,
       pre ++ inner ++ post ++ [EvLog (panic_entry debug_Stack v
          (if tracing_enabled s then end_span (length (spans s)) s1 else s1))]) /\
    count (is_log ErrorLevel "Panic recovered") (pre ++ post) = 0%nat /\
    count (is_log ErrorLevel "Request error") (pre ++ post) = 0%nat /\
    resp_status (response s2) = 500 /\
    resp_body (response s2) =
      json_Marshal (JMap [("error", JStr "Internal Server Error")]) /\
    redis s2 = redis s1 /\ pg s2 = pg s1).
  { unfold middleware_chain. destruct (tracing_enabled s) eqn:H.
    - pose proof (LoggingMiddleware_panics route _ _ _ _ E) as EL.
      pose proof (TracingMiddleware_panics svc _ _ _ _ _ H EL) as ET.
      destruct (RecoveryMiddleware_recovers _ _ _ _ _ ET)
        as (s2 & -> & Hr & Hredis & Hpg & _).
      exists s2, [EvSpanStart (length (spans s)); incoming_entry (start_request svc s)],
        [EvSpanEnd (length (spans s))].
      split; [cbn [app]; rewrite <- !app_assoc; reflexivity|].
      rewrite Hr. repeat split; assumption.
    - pose proof (LoggingMiddleware_panics route _ _ _ _ E) as EL.
      destruct (RecoveryMiddleware_recovers _ _ _ _ _ EL)
        as (s2 & -> & Hr & Hredis & Hpg & _).
      exists s2, [incoming_entry s], [].
      split; [cbn [app]; reflexivity|].
      rewrite Hr. repeat split; assumption. }
  destruct R as (s2 & pre & post & EC & C1' & C2' & Hst & Hbody & Hredis & Hpg).
  subst run. unfold serve. cbv beta iota zeta delta [bind]. rewrite EC.
  run_ops. rewrite !app_nil_r.
  rewrite !count_app in C1', C2'.
  repeat split; try assumption.
  - cbn [snd]. rewrite !count_app. cbn. lia.
  - cbn [snd]. rewrite !count_app. cbn. lia.
Qed.

End ChainMore.

Lemma serve_contains_panic_witness :
  let s := sample_state request_panic false redis_up pg_up in
  let run := serve sample_Marshal "" "svc" route_api_panic s in
  route_api_panic (chain_state "svc" s) = (Panic (PanicOther "This is a simulated panic!"), s, []) /\
  result run = Val tt /\
  resp_status (response (final run)) = 500 /\
  resp_body (response (final run)) =
    sample_Marshal (JMap [("error", JStr "Internal Server Error")]) /\
  count (is_log ErrorLevel "Panic recovered") (trace run) =
    S (count (is_log ErrorLevel "Panic recovered") []) /\
  count (is_log ErrorLevel "Request error") (trace run) =
    count (is_log ErrorLevel "Request error") [] /\
  redis (final run) = redis s /\ pg (final run) = pg s.
Proof.
  cbv zeta. split; [reflexivity|].
  exact (serve_contains_panic sample_Marshal "" "svc" route_api_panic
           (sample_state request_panic false redis_up pg_up) _ _ [] eq_refl).
Defined.

(** The tracing stage around a handler that returns, event by event. *)
Lemma TracingMiddleware_run (svc : string) (next : Handler) (s s1 : State)
    (err : option GoError) (inner : list Event) :
  tracing_enabled s = true ->
  next (start_request svc s) = (Val err, s1, inner) ->
  exists s2,
    TracingMiddleware svc next s =
      (Val err, s2,
       EvSpanStart (length (spans s)) :: inner ++ [EvSpanEnd (length (spans s))]) /\
    response s2 = response s1 /\ redis s2 = redis s1 /\ pg s2 = pg s1 /\
    request s2 = request s1.
Proof.
  intros H E. unfold TracingMiddleware. run_ops. rewrite H.
  unfold start_request, server_span in E. rewrite E.
  destruct err; eexists; (split; [simpl_state; rewrite ?app_nil_r; reflexivity|]);
    repeat split.
Qed.

Section ChainRun.

Variable json_Marshal : JSON -> string.
Variable debug_Stack : string.

(** The chain around a handler that returns: the events of the stages
    before and after those of the handler. *)
Lemma middleware_chain_run (svc : string) (route : Handler) (s s1 : State)
    (err : option GoError) (inner : list Event) :
  route (chain_state svc s) = (Val err, s1, inner) ->
  exists s2,
    middleware_chain json_Marshal debug_Stack svc route s =
      (Val err, s2,
       (if tracing_enabled s then [EvSpanStart (length (spans s))] else []) ++
       incoming_entry (chain_state svc s) :: inner ++
       completion_events (chain_state svc s) s1 err ++
       (if tracing_enabled s then [EvSpanEnd (length (spans s))] else [])) /\
    response s2 = response s1 /\ redis s2 = redis s1 /\ pg s2 = pg s1 /\
    request s2 = request s1.
Proof.
  unfold chain_state, middleware_chain, RecoveryMiddleware.
  cbv beta iota zeta delta [with_recover].
  destruct (tracing_enabled s) eqn:H; intros E.
  - pose proof (LoggingMiddleware_run route _ _ _ _ E) as EL.
    destruct (TracingMiddleware_run svc _ _ _ _ _ H EL) as (s2 & -> & F).
    exists s2. split; [|exact F].
    cbn [app]. rewrite <- !app_assoc. reflexivity.
  - rewrite (LoggingMiddleware_run route _ _ _ _ E).
    exists s1. rewrite app_nil_r. repeat split.
Qed.

(** X2.  A request whose handler returns an error is logged twice at
    error level under "Request error": once by the logging stage and once
    by the error handler of the application.  The request counter is
    incremented once. *)
Theorem failed_request_logged_twice (svc : string) (route : Handler) (s s1 : State)
    (e : GoError) (inner : list Event) :
  route (chain_state svc s) = (Val (Some e), s1, inner) ->
  let run := serve json_Marshal debug_Stack svc route s in
  count (is_log ErrorLevel "Request error") (trace run) =
    S (S (count (is_log ErrorLevel "Request error") inner)) /\
  count (is_counter "http.requests_total") (trace run) =
    S (count (is_counter "http.requests_total") inner).
Proof.
  intros E run. subst run.
  destruct (middleware_chain_run svc route _ _ _ _ E) as (s2 & EC & _).
  unfold serve, ErrorHandler. cbv beta iota zeta delta [bind]. rewrite EC.
  run_ops. cbn [snd].
  unfold completion_events, incoming_entry.
  destruct (tracing_enabled s); cbn [app];
    rewrite ?count_app; cbn [count is_log is_counter log_level log_msg level_eqb];
    rewrite ?count_app; cbn; split; lia.
Qed.

End ChainRun.

Lemma failed_request_logged_twice_witness :
  let s := sample_state (sample_request "GET" "/debug/error" [] []) true redis_up pg_up in
  let run := serve sample_Marshal "" "svc" route_debug_error s in
  count (is_log ErrorLevel "Request error") (trace run) =
    S (S (count (is_log ErrorLevel "Request error") [])) /\
  count (is_counter "http.requests_total") (trace run) =
    S (count (is_counter "http.requests_total") []).
Proof.
  exact (failed_request_logged_twice sample_Marshal "" "svc" route_debug_error
           (sample_state (sample_request "GET" "/debug/error" [] []) true redis_up pg_up)
           _ _ [] eq_refl).
Defined.

(* ------------------------------------------------------------------ *)
(** ** What the request span says about a failed request *)

(** The tracing stage around a handler that returns an error, when the
    request span is still recording: status code attribute, recorded
    error, error status, then [End]. *)
Lemma TracingMiddleware_error_span (svc : string) (next : Handler) (s s1 : State)
    (e : GoError) (inner : list Event) (sp : Span) :
  tracing_enabled s = true ->
  next (start_request svc s) = (Val (Some e), s1, inner) ->
  spans s1 !! length (spans s) = Some sp ->
  is_recording sp = true ->
  sp_status sp <> StatusOk ->
  spans (final (TracingMiddleware svc next s)) !! length (spans s) =
    Some (span_failed (resp_status (response s1)) e sp).
Proof.
  intros H E Hsp Hrec Hst. unfold TracingMiddleware. run_ops. rewrite H.
  unfold start_request, server_span in E. rewrite E.
  cbv beta iota. simpl_state.
  rewrite !list_lookup_alter_eq, Hsp. cbn [fmap option_fmap option_map].
  unfold is_recording in *.
  repeat (cbn [sp_name sp_server sp_parent sp_sampled sp_attrs sp_status
               sp_errors sp_ended]; rewrite ?Hrec).
  unfold span_ended, span_failed. cbn [sp_name sp_server sp_parent sp_sampled
    sp_attrs sp_status sp_errors sp_ended status_rank].
  destruct (sp_status sp); try contradiction; reflexivity.
Qed.

Section SpanStatus.

Variable json_Marshal : JSON -> string.
Variable debug_Stack : string.

(** X3.  With tracing on, the tracing stage reads the response status
    before the error handler of the application has run.  For a handler
    that returns an error and leaves the request span recording, the span
    ends with status error, the error recorded, and the attribute
    [http.status_code] equal to the status the handler left on the
    response, while the client is answered with the error's code (500
    without one). *)
Theorem span_status_code_precedes_error_handler (svc : string) (route : Handler)
    (s s1 : State) (e : GoError) (inner : list Event) (sp : Span) :
  tracing_enabled s = true ->
  route (start_request svc s) = (Val (Some e), s1, inner) ->
  spans s1 !! length (spans s) = Some sp ->
  is_recording sp = true ->
  sp_status sp <> StatusOk ->
  let run := serve json_Marshal debug_Stack svc route s in
  spans (final run) !! length (spans s) =
    Some (span_failed (resp_status (response s1)) e sp) /\
  resp_status (response (final run)) =
    match e with FiberError c _ => c | PlainError _ => 500 end.
Proof.
  intros H E Hsp Hrec Hst run. subst run.
  pose proof (LoggingMiddleware_run route _ _ _ _ E) as EL.
  pose proof (TracingMiddleware_error_span svc _ _ _ _ _ _ H EL Hsp Hrec Hst) as HS.
  destruct (TracingMiddleware_run svc _ _ _ _ _ H EL) as (s2 & ET & _).
  rewrite ET in HS. cbn [final fst snd] in HS.
  unfold serve, middleware_chain, RecoveryMiddleware, ErrorHandler.
  cbv beta iota zeta delta [bind with_recover]. rewrite H, ET.
  run_ops. simpl_state. split; [exact HS|].
  destruct e; reflexivity.
Qed.

End SpanStatus.

(** GET /api/error, tracing on: the span says 200, the client gets 500. *)
Lemma span_status_code_precedes_error_handler_witness :
  let s := sample_state (sample_request "GET" "/api/error" [] []) true redis_up pg_up in
  let s1 := start_request "svc" s in
  let e := FiberError 500 "This is a simulated error" in
  let run := serve sample_Marshal "" "svc" route_api_error s in
  spans (final run) !! 0%nat = Some (span_failed 200 e (server_span "svc" s)) /\
  resp_status (response (final run)) = 500.
Proof.
  exact (span_status_code_precedes_error_handler sample_Marshal "" "svc" route_api_error
           (sample_state (sample_request "GET" "/api/error" [] []) true redis_up pg_up)
           _ _ _ _ eq_refl eq_refl eq_refl eq_refl ltac:(discriminate)).
Defined.

(* ------------------------------------------------------------------ *)
(** ** More on the cache-aside read *)

Section CacheAsideMore.

Variable json_Marshal : JSON -> string.
Variable json_Unmarshal : string -> User + GoError.

Ltac get_user_cases :=
  match goal with
  | s : State |- _ =>
      unfold GetUser; destruct (tracing_enabled s) eqn:Ht; run_ops; rewrite ?Ht;
      simpl_state;
      (destruct (rdb_fault (redis s)) as [f|] eqn:Hf;
       [|destruct (rdb_data (redis s) !! _) as [[val ttl]|] eqn:Hl;
         [destruct (json_Unmarshal val) as [u0|e0] eqn:Hu|]]);
      cbv beta iota; simpl_state;
      try (destruct (pg_select_user (pg s) _) as [u1|e1] eqn:Hp;
           cbv beta iota; simpl_state; rewrite ?Hf; cbv beta iota; simpl_state)
  end.

(** X4.  [GetUser] never panics and fails in one way only, with the 404
    error "User not found"; it never writes to the store and leaves the
    request as it was; with tracing on it ends the span it started
    exactly once, on every path. *)
Theorem GetUser_outcomes (svc : string) (s : State) :
  let run := GetUser json_Marshal json_Unmarshal svc s in
  (result run = Val None \/
   result run = Val (Some (FiberError 404 "User not found"))) /\
  pg (final run) = pg s /\
  request (final run) = request s /\
  (tracing_enabled s = true ->
     count (is_span_end (length (spans s))) (trace run) = 1%nat).
Proof.
  cbv zeta. get_user_cases;
    (split; [first [left; reflexivity | right; reflexivity]|]);
    (split; [reflexivity|]); (split; [reflexivity|]);
    intros Hen; try discriminate Hen;
    cbn [trace snd app count is_span_end];
    rewrite ?Nat.eqb_refl; reflexivity.
Qed.

Lemma GetUser_hit_run (svc : string) (s : State) (u : User) (db : Pg) :
  cache_lookup json_Unmarshal s (cache_key s) = Some u ->
  let run := GetUser json_Marshal json_Unmarshal svc (set_pg db s) in
  result run = Val None /\
  resp_body (response (final run)) = json_Marshal (JUser u) /\
  resp_status (response (final run)) = resp_status (response s) /\
  redis (final run) = redis s /\
  pg (final run) = db /\
  logs (trace run) =
    [mkLog InfoLevel "Cache hit" (user_context s) [("id", VStr (param_id s))]].
Proof.
  intros Hc. cbv zeta. unfold cache_lookup, cache_key, param_id in *.
  unfold GetUser.
  destruct (tracing_enabled s) eqn:Ht; run_ops;
    cbn [tracing_enabled set_pg]; rewrite ?Ht;
    cbn [request route_path response user_context spans tracing_enabled sampled
         traceparent_of clock redis pg set_response set_user_context set_spans
         set_redis set_pg end_span resp_status resp_headers resp_body fst snd app];
    (destruct (rdb_fault (redis s)) as [f|]; [discriminate Hc|]);
    (destruct (rdb_data (redis s) !! _) as [[val ttl]|]; [|discriminate Hc]);
    (destruct (json_Unmarshal val) as [u0|e0]; [|discriminate Hc]);
    injection Hc as ->;
    cbv beta iota;
    cbn [request route_path response user_context spans tracing_enabled sampled
         traceparent_of clock redis pg set_response set_user_context set_spans
         set_redis set_pg end_span resp_status resp_headers resp_body fst snd app];
    repeat split.
Qed.


(** X5.  A cache hit answers from the cache alone: whatever the store
    holds and whether or not it is reachable, the read succeeds with the
    cached resource, logs "Cache hit" and nothing else, and leaves cache
    and store as they were. *)
Theorem GetUser_cache_hit (svc : string) (s : State) (u : User) (db : Pg) :
  cache_lookup json_Unmarshal s (cache_key s) = Some u ->
  let run := GetUser json_Marshal json_Unmarshal svc (set_pg db s) in
  result run = Val None /\
  resp_body (response (final run)) = json_Marshal (JUser u) /\
  resp_status (response (final run)) = resp_status (response s) /\
  redis (final run) = redis s /\
  pg (final run) = db /\
  logs (trace run) =
    [mkLog InfoLevel "Cache hit" (user_context s) [("id", VStr (param_id s))]].
Proof. exact (GetUser_hit_run svc s u db). Qed.

Lemma GetUser_frame (svc : string) (s : State) :
  request (final (GetUser json_Marshal json_Unmarshal svc s)) = request s.
Proof. get_user_cases; reflexivity. Qed.

(** X6.  Read after hydrate.  When the cache is reachable and the
    decoder gives back what the encoder was given, a read that missed the
    cache and found the row leaves the cache answering for that key; a
    second read of the same request is then served from the cache,
    whatever has become of the store. *)
Theorem GetUser_read_after_hydrate (svc : string) (s : State) (u : User) (db : Pg) :
  rdb_fault (redis s) = None ->
  cache_lookup json_Unmarshal s (cache_key s) = None ->
  pg_select_user (pg s) (param_id s) = inl u ->
  json_Unmarshal (json_Marshal (JUser u)) = inl u ->
  let s1 := final (GetUser json_Marshal json_Unmarshal svc s) in
  let again := GetUser json_Marshal json_Unmarshal svc (set_pg db s1) in
  cache_lookup json_Unmarshal s1 (cache_key s1) = Some u /\
  result again = Val None /\
  resp_body (response (final again)) = json_Marshal (JUser u) /\
  map log_msg (logs (trace again)) = ["Cache hit"].
Proof.
  intros Hf Hc Hp Hrt s1 again.
  destruct (GetUser_store_found json_Marshal json_Unmarshal svc s u Hc Hp)
    as (s1' & ev & E & _ & _ & Hredis & _).
  assert (Hs1 : s1 = s1') by (subst s1; rewrite E; reflexivity).
  assert (Hreq : request s1 = request s) by apply GetUser_frame.
  assert (Hhit : cache_lookup json_Unmarshal s1 (cache_key s1) = Some u).
  { unfold cache_lookup, cache_key, param_id. rewrite Hreq, Hs1, Hredis, Hf.
    cbn [rdb_fault rdb_data]. unfold cache_key, param_id.
    rewrite lookup_insert_eq, Hrt. reflexivity. }
  split; [exact Hhit|].
  destruct (GetUser_hit_run svc s1 u db Hhit) as (R1 & R2 & _ & _ & _ & R6).
  subst again. rewrite R6. repeat split; assumption.
Qed.

End CacheAsideMore.

Lemma GetUser_outcomes_witness :
  tracing_enabled state_absent = true /\
  count (is_span_end (length (spans state_absent)))
        (trace (GetUser sample_Marshal sample_Unmarshal "svc" state_absent)) = 1%nat.
Proof.
  split; [reflexivity|].
  exact (proj2 (proj2 (proj2
           (GetUser_outcomes sample_Marshal sample_Unmarshal "svc" state_absent)))
           eq_refl).
Defined.

Lemma GetUser_cache_hit_witness :
  let run := GetUser plain_Marshal sample_Unmarshal "svc" (set_pg pg_down state_cached) in
  result run = Val None /\
  resp_body (response (final run)) = plain_Marshal (JUser carol) /\
  resp_status (response (final run)) = resp_status (response state_cached) /\
  redis (final run) = redis state_cached /\
  pg (final run) = pg_down /\
  logs (trace run) =
    [mkLog InfoLevel "Cache hit" (user_context state_cached)
           [("id", VStr (param_id state_cached))]].
Proof.
  apply (GetUser_cache_hit plain_Marshal sample_Unmarshal "svc" state_cached carol pg_down).
  reflexivity.
Defined.

Lemma GetUser_read_after_hydrate_witness :
  let s1 := final (GetUser plain_Marshal sample_Unmarshal "svc" state_miss) in
  let again := GetUser plain_Marshal sample_Unmarshal "svc" (set_pg pg_down s1) in
  cache_lookup sample_Unmarshal s1 (cache_key s1) = Some carol /\
  result again = Val None /\
  resp_body (response (final again)) = plain_Marshal (JUser carol) /\
  map log_msg (logs (trace again)) = ["Cache hit"].
Proof.
  apply (GetUser_read_after_hydrate plain_Marshal sample_Unmarshal "svc" state_miss carol
           pg_down); reflexivity.
Defined.

(* ------------------------------------------------------------------ *)
(** ** DeleteUser, CreateUser, HealthCheck *)

Lemma filter_absent (n : Z) (rows : list PgRow) :
  (forall r, In r rows -> row_id r <> n) ->
  List.filter (fun r => negb (row_id r =? n)) rows = rows.
Proof.
  induction rows as [|r rows IH]; intros H; [reflexivity|].
  cbn [List.filter]. destruct (Z.eqb_spec (row_id r) n) as [E|_].
  - exfalso. apply (H r); [left; reflexivity|exact E].
  - cbn [negb]. f_equal. apply IH. intros r' Hr'. apply H. right. exact Hr'.
Qed.

Lemma find_filter_gone (n : Z) (rows : list PgRow) :
  find (fun r => row_id r =? n) (List.filter (fun r => negb (row_id r =? n)) rows) = None.
Proof.
  induction rows as [|r rows IH]; [reflexivity|].
  cbn [List.filter]. destruct (Z.eqb_spec (row_id r) n) as [E|E]; cbn [negb].
  - exact IH.
  - cbn [find]. destruct (Z.eqb_spec (row_id r) n); [contradiction|exact IH].
Qed.

(** A delete that the store accepts leaves no row with that id. *)
Lemma pg_delete_then_select (db db' : Pg) (id : string) (n : Z) :
  pg_delete_user db id = inl (n, db') ->
  pg_select_user db' id = inr ErrNoRows.
Proof.
  unfold pg_delete_user, pg_select_user.
  destruct (pg_fault db); [discriminate|].
  destruct (strconv.Atoi id) as [k [e|]]; [discriminate|].
  destruct (in_int4 k); [|discriminate].
  intros [= <- <-]. cbn [pg_fault pg_rows].
  rewrite find_filter_gone. reflexivity.
Qed.

Section Deletion.

Variable json_Marshal : JSON -> string.
Variable json_Unmarshal : string -> User + GoError.

Ltac delete_user_cases :=
  match goal with
  | s : State |- _ =>
      unfold DeleteUser; destruct (tracing_enabled s) eqn:Ht; run_more; rewrite ?Ht;
      cbn [request route_path response user_context spans tracing_enabled sampled
           traceparent_of clock redis pg set_response set_user_context set_spans
           set_redis set_pg end_span resp_status resp_headers resp_body fst snd app];
      destruct (pg_delete_user (pg s) _) as [[k db1]|e1] eqn:Hd;
      cbv beta iota;
      cbn [request route_path response user_context spans tracing_enabled sampled
           traceparent_of clock redis pg set_response set_user_context set_spans
           set_redis set_pg end_span resp_status resp_headers resp_body fst snd app];
      try (destruct (Z.eqb_spec k 0) as [Hk|Hk]; cbv beta iota;
           cbn [request route_path response user_context spans tracing_enabled sampled
                traceparent_of clock redis pg set_response set_user_context set_spans
                set_redis set_pg end_span resp_status resp_headers resp_body fst snd app])
  end.

(** The run of [DeleteUser] by the answer of the store. *)
Lemma DeleteUser_run (svc : string) (s : State) :
  let run := DeleteUser json_Marshal svc s in
  redis (final run) = redis s /\
  request (final run) = request s /\
  match pg_delete_user (pg s) (param_id s) with
  | inr e =>
      result run = Val (Some (FiberError 500 "Failed to delete user")) /\
      pg (final run) = pg s /\
      response (final run) = response s /\
      count (is_log ErrorLevel "Failed to delete user") (trace run) = 1%nat
  | inl (k, db) =>
      pg (final run) = db /\
      if k =? 0 then
        result run = Val (Some (FiberError 404 "User not found")) /\
        response (final run) = response s /\
        logs (trace run) = []
      else
        result run = Val None /\
        resp_body (response (final run)) =
          json_Marshal (JMap [("message", JStr "User deleted")]) /\
        resp_status (response (final run)) = resp_status (response s)
  end.
Proof.
  cbv zeta. unfold param_id. delete_user_cases;
    try (destruct (Z.eqb_spec k 0); try contradiction);
    repeat split.
Qed.

(** X7.  [DeleteUser] answers by what the store reports: an error of the
    store (unreachable, or an id it does not take as an integer) gives 500
    "Failed to delete user" with one error-level entry; no row affected
    gives 404 "User not found" with no log entry; otherwise the rows are
    gone from the store and the answer is the "User deleted" message.  On
    every path the cache is left untouched. *)
Theorem DeleteUser_outcomes (svc : string) (s : State) :
  let run := DeleteUser json_Marshal svc s in
  redis (final run) = redis s /\
  request (final run) = request s /\
  match pg_delete_user (pg s) (param_id s) with
  | inr e =>
      result run = Val (Some (FiberError 500 "Failed to delete user")) /\
      pg (final run) = pg s /\
      response (final run) = response s /\
      count (is_log ErrorLevel "Failed to delete user") (trace run) = 1%nat
  | inl (k, db) =>
      pg (final run) = db /\
      if k =? 0 then
        result run = Val (Some (FiberError 404 "User not found")) /\
        response (final run) = response s /\
        logs (trace run) = []
      else
        result run = Val None /\
        resp_body (response (final run)) =
          json_Marshal (JMap [("message", JStr "User deleted")]) /\
        resp_status (response (final run)) = resp_status (response s)
  end.
Proof. exact (DeleteUser_run svc s). Qed.

(** X8.  Deleting an id, within the range of the column, that no row
    of the reachable store carries is answered with the 404 error and
    leaves the table as it was. *)
Theorem DeleteUser_absent_id (svc : string) (s : State) (n : Z) :
  pg_fault (pg s) = None ->
  strconv.Atoi (param_id s) = (n, None) ->
  in_int4 n = true ->
  (forall r, In r (pg_rows (pg s)) -> row_id r <> n) ->
  let run := DeleteUser json_Marshal svc s in
  result run = Val (Some (FiberError 404 "User not found")) /\
  pg_rows (pg (final run)) = pg_rows (pg s) /\
  pg_fault (pg (final run)) = None.
Proof.
  intros Hf Hid Hn Hrows run.
  pose proof (DeleteUser_run svc s) as R. cbv zeta in R.
  destruct R as (_ & _ & R).
  unfold pg_delete_user in R. rewrite Hf, Hid, Hn, (filter_absent n _ Hrows) in R.
  rewrite Z.sub_diag in R. cbn [Z.eqb] in R.
  destruct R as (Rpg & Rres & _).
  subst run. rewrite Rres, Rpg. repeat split.
Qed.

(** X9.  Stale read after delete.  [DeleteUser] does not invalidate the
    cache: when the cache answers for the key of the request, a delete
    that removed the row from the store is followed by a read that still
    succeeds with the cached resource, although the store no longer has
    the row. *)
Theorem GetUser_after_DeleteUser_is_stale (svc : string) (s : State) (u : User)
    (k : Z) (db : Pg) :
  cache_lookup json_Unmarshal s (cache_key s) = Some u ->
  pg_delete_user (pg s) (param_id s) = inl (k, db) ->
  k <> 0 ->
  let deleted := DeleteUser json_Marshal svc s in
  let read := GetUser json_Marshal json_Unmarshal svc (final deleted) in
  result deleted = Val None /\
  pg_select_user (pg (final deleted)) (param_id s) = inr ErrNoRows /\
  result read = Val None /\
  resp_body (response (final read)) = json_Marshal (JUser u).
Proof.
  intros Hc Hd Hk deleted read.
  pose proof (DeleteUser_run svc s) as R. cbv zeta in R.
  destruct R as (Rredis & Rreq & R). rewrite Hd in R.
  destruct R as (Rpg & R).
  destruct (Z.eqb_spec k 0) as [|_]; [contradiction|].
  destruct R as (Rres & _).
  fold deleted in Rredis, Rreq, Rpg, Rres.
  assert (Hhit : cache_lookup json_Unmarshal (final deleted) (cache_key (final deleted))
                 = Some u).
  { unfold cache_lookup, cache_key, param_id in *. rewrite Rredis, Rreq. exact Hc. }
  assert (Hsame : set_pg (pg (final deleted)) (final deleted) = final deleted)
    by (destruct (final deleted); reflexivity).
  pose proof (GetUser_hit_run json_Marshal json_Unmarshal svc (final deleted) u
                (pg (final deleted)) Hhit) as G.
  cbv zeta in G. rewrite Hsame in G. destruct G as (G1 & G2 & _).
  split; [exact Rres|].
  split; [rewrite Rpg; exact (pg_delete_then_select _ _ _ _ Hd)|].
  split; assumption.
Qed.

End Deletion.

Lemma DeleteUser_absent_id_witness :
  let run := DeleteUser sample_Marshal "svc" state_delete_absent in
  result run = Val (Some (FiberError 404 "User not found")) /\
  pg_rows (pg (final run)) = pg_rows (pg state_delete_absent) /\
  pg_fault (pg (final run)) = None.
Proof.
  apply (DeleteUser_absent_id sample_Marshal "svc" state_delete_absent 7);
    try reflexivity.
  intros r [<-|[]]. discriminate.
Defined.

Lemma GetUser_after_DeleteUser_is_stale_witness :
  let deleted := DeleteUser plain_Marshal "svc" state_delete_cached in
  let read := GetUser plain_Marshal sample_Unmarshal "svc" (final deleted) in
  result deleted = Val None /\
  pg_select_user (pg (final deleted)) (param_id state_delete_cached) = inr ErrNoRows /\
  result read = Val None /\
  resp_body (response (final read)) = plain_Marshal (JUser carol).
Proof.
  apply (GetUser_after_DeleteUser_is_stale plain_Marshal sample_Unmarshal "svc"
           state_delete_cached carol 1 (mkPg None []));
    [reflexivity|reflexivity|discriminate].
Defined.

Section Creation.

Variable json_Marshal : JSON -> string.
Variable bind_JSON : string -> CreateUserRequest + GoError.
Variable pg_insert_user : Pg -> string -> string -> (User * Pg) + GoError.

Local Abbreviation create svc := (CreateUser json_Marshal bind_JSON pg_insert_user svc).

(** X10.  [CreateUser] rejects a request before it reaches the store: a
    body that does not bind is answered with 400 "Invalid request body"
    and logged at error level with the cause; a body with an empty name
    or an empty email is answered with 400 "name and email are required"
    without any log entry.  In both cases nothing else happens: no span,
    no store call, the state is the one the handler was given. *)
Theorem CreateUser_validation (svc : string) (s : State) :
  match bind_JSON (req_body (request s)) with
  | inr err =>
      create svc s =
        (Val (Some (FiberError 400 "Invalid request body")), s,
         [EvLog (mkLog ErrorLevel "Invalid request body" (user_context s)
                   [("error", VErr err)])])
  | inl req =>
      req_Name req = "" \/ req_Email req = "" ->
      create svc s =
        (Val (Some (FiberError 400 "name and email are required")), s, [])
  end.
Proof.
  unfold CreateUser. run_more.
  destruct (bind_JSON (req_body (request s))) as [req|err]; [|reflexivity].
  intros [H|H]; rewrite H; cbn [String.eqb orb].
  - reflexivity.
  - rewrite orb_true_r. reflexivity.
Qed.

(** X11.  [CreateUser] with a complete body answers by what the store
    returns for the INSERT: the new row gives 201 with the "User created"
    message and the row, and the store is the one the INSERT left; any
    error of the store (a duplicate email among them) gives 500 "Failed
    to create user" with one error-level entry, store and response
    untouched.  The cache is never written. *)
Theorem CreateUser_outcomes (svc : string) (s : State) (req : CreateUserRequest) :
  bind_JSON (req_body (request s)) = inl req ->
  req_Name req <> "" ->
  req_Email req <> "" ->
  let run := create svc s in
  redis (final run) = redis s /\
  match pg_insert_user (pg s) (req_Name req) (req_Email req) with
  | inl (user, db) =>
      result run = Val None /\
      resp_status (response (final run)) = 201 /\
      resp_body (response (final run)) =
        json_Marshal (JMap [("message", JStr "User created"); ("user", JUser user)]) /\
      pg (final run) = db
  | inr e =>
      result run = Val (Some (FiberError 500 "Failed to create user")) /\
      response (final run) = response s /\
      pg (final run) = pg s /\
      count (is_level ErrorLevel) (trace run) = 1%nat
  end.
Proof.
  intros Hb Hn He run. subst run. unfold CreateUser. run_more. rewrite Hb.
  assert (En : String.eqb (req_Name req) "" = false)
    by (apply String.eqb_neq; exact Hn).
  assert (Ee : String.eqb (req_Email req) "" = false)
    by (apply String.eqb_neq; exact He).
  rewrite En, Ee. cbn [orb].
  destruct (tracing_enabled s) eqn:Ht; cbv beta iota;
    cbn [request route_path response user_context spans tracing_enabled sampled
         traceparent_of clock redis pg set_response set_user_context set_spans
         set_redis set_pg end_span resp_status resp_headers resp_body fst snd app];
    (destruct (pg_insert_user (pg s) (req_Name req) (req_Email req)) as [[user db]|e];
     cbv beta iota;
     cbn [request route_path response user_context spans tracing_enabled sampled
          traceparent_of clock redis pg set_response set_user_context set_spans
          set_redis set_pg end_span resp_status resp_headers resp_body fst snd app];
     repeat split).
Qed.

End Creation.

Lemma CreateUser_validation_witness :
  CreateUser plain_Marshal sample_bind sample_insert "svc" state_create_unnamed =
    (Val (Some (FiberError 400 "name and email are required")), state_create_unnamed, []).
Proof.
  exact (CreateUser_validation plain_Marshal sample_bind sample_insert "svc"
           state_create_unnamed (or_introl eq_refl)).
Defined.

Lemma CreateUser_outcomes_witness :
  let dave := mkUser 2 "Dave" "a@x.com" 1700000001 in
  let run := CreateUser sample_Marshal sample_bind sample_insert "svc" state_create in
  redis (final run) = redis state_create /\
  result run = Val None /\
  resp_status (response (final run)) = 201 /\
  resp_body (response (final run)) =
    sample_Marshal (JMap [("message", JStr "User created"); ("user", JUser dave)]) /\
  pg (final run) = mkPg None [GoodRow alice; GoodRow dave].
Proof.
  exact (CreateUser_outcomes sample_Marshal sample_bind sample_insert "svc" state_create
           (mkCreateUserRequest "Dave" "a@x.com") eq_refl
           ltac:(discriminate) ltac:(discriminate)).
Defined.

Section Health.

Variable json_Marshal : JSON -> string.

(** X12.  [HealthCheck] never fails and logs nothing: it answers 200
    "healthy" exactly when both the store and the cache answer the ping,
    503 "unhealthy" otherwise, and reports each dependency as "up" or
    "down" on its own. *)
Theorem HealthCheck_reports (s : State) :
  let run := HealthCheck json_Marshal s in
  let db_up := match pg_fault (pg s) with None => true | Some _ => false end in
  let redis_up := match rdb_fault (redis s) with None => true | Some _ => false end in
  result run = Val None /\
  logs (trace run) = [] /\
  resp_status (response (final run)) = (if db_up && redis_up then 200 else 503) /\
  resp_body (response (final run)) =
    json_Marshal (JMap
      [("status", JStr (if db_up && redis_up then "healthy" else "unhealthy"));
       ("dependencies",
        JMap [("database", JStr (if db_up then "up" else "down"));
              ("redis", JStr (if redis_up then "up" else "down"))])]) /\
  redis (final run) = redis s /\ pg (final run) = pg s.
Proof.
  cbv zeta. unfold HealthCheck, database_HealthCheck, database_RedisHealthCheck.
  run_ops. simpl_state.
  destruct (pg_fault (pg s)), (rdb_fault (redis s)); repeat split.
Qed.

End Health.

(* ------------------------------------------------------------------ *)
(** ** More on ListUsers *)

Lemma scan_failures_count (log : Logger) (rows : list PgRow) :
  count (is_log ErrorLevel "Failed to scan user row") (scan_failures log rows) =
    (if existsb is_bad_row rows then 1 else 0)%nat /\
  count (is_level ErrorLevel) (scan_failures log rows) =
    (if existsb is_bad_row rows then 1 else 0)%nat.
Proof.
  induction rows as [|r rows IH]; [split; reflexivity|].
  destruct r as [u|id cause]; cbn [scan_failures is_bad_row existsb orb].
  - exact IH.
  - split; reflexivity.
Qed.

Lemma scanned_users_length (rows : list PgRow) :
  (length (scanned_users rows) <= length rows)%nat.
Proof.
  induction rows as [|r rows IH]; [reflexivity|].
  destruct r as [u|id cause]; cbn [scanned_users length]; lia.
Qed.

(** The users of a result set are those before its first row that does
    not scan. *)
Lemma scanned_users_prefix (good : list User) (id : Z) (cause : string)
    (rest : list PgRow) :
  scanned_users (map GoodRow good ++ BadRow id cause :: rest) = good /\
  existsb is_bad_row (map GoodRow good ++ BadRow id cause :: rest) = true.
Proof.
  induction good as [|u good [IH1 IH2]]; [split; reflexivity|].
  cbn [map app scanned_users existsb is_bad_row orb]. rewrite IH1, IH2.
  split; reflexivity.
Qed.

Section Listing.

Variable json_Marshal : JSON -> string.

(** The run of [ListUsers] by the answer of the store. *)
Lemma ListUsers_run (svc : string) (s : State) :
  let lq := default "10" (query_value s "limit") in
  let pq := default "1" (query_value s "page") in
  let limit := fst (fst (pagination lq pq)) in
  let page := snd (fst (pagination lq pq)) in
  let offset := snd (pagination lq pq) in
  let run := ListUsers json_Marshal svc s in
  redis (final run) = redis s /\
  pg (final run) = pg s /\
  match pg_select_users (pg s) limit offset with
  | inr e =>
      result run = Val (Some (FiberError 500 "Failed to fetch users")) /\
      response (final run) = response s /\
      In (EvLog (mkLog ErrorLevel "Failed to query users" (user_context s)
                   [("error", VErr e)])) (trace run)
  | inl rows =>
      result run = Val None /\
      resp_body (response (final run)) =
        json_Marshal (JMap
          [("users", JUsers (scanned_users rows));
           ("metadata", JMap
              [("count", JInt (Z.of_nat (length (scanned_users rows))));
               ("limit", JInt limit); ("page", JInt page)])]) /\
      count (is_log ErrorLevel "Failed to scan user row") (trace run) =
        (if existsb is_bad_row rows then 1 else 0)%nat /\
      count (is_level ErrorLevel) (trace run) =
        (if existsb is_bad_row rows then 1 else 0)%nat
  end.
Proof.
  intros lq pq limit page offset run.
  assert (Hl : forall d : string,
            match assoc "limit" (req_query (request s)) with
            | Some (String b w) => String b w
            | _ => d
            end = default d (query_value s "limit")).
  { intros d. unfold query_value.
    destruct (assoc "limit" (req_query (request s))) as [[|b w]|]; reflexivity. }
  assert (Hp : forall d : string,
            match assoc "page" (req_query (request s)) with
            | Some (String b w) => String b w
            | _ => d
            end = default d (query_value s "page")).
  { intros d. unfold query_value.
    destruct (assoc "page" (req_query (request s))) as [[|b w]|]; reflexivity. }
  subst run. unfold ListUsers. run_ops. rewrite Hl, Hp.
  fold lq pq. subst limit page offset.
  destruct (pagination lq pq) as [[limit page] offset]. cbn [fst snd].
  destruct (tracing_enabled s); cbv beta iota; simpl_state;
    (destruct (pg_select_users (pg s) limit offset) as [rows|e];
     [ rewrite scan_rows_run; cbv beta iota; simpl_state;
       destruct (scan_failures_count (user_context s) rows) as [C1 C2];
       (split; [reflexivity|]); (split; [reflexivity|]);
       (split; [reflexivity|]); (split; [reflexivity|]);
       cbn [app count is_log is_level]; rewrite ?count_app;
       cbn [count is_log is_level log_level log_msg level_eqb andb String.eqb];
       rewrite C1, C2; split; cbn; lia
     | repeat split; cbn; tauto ]).
Qed.

(** X13.  A list response never carries more than 100 users: when
    [ListUsers] succeeds, the number of users in the body is the count it
    reports, is at most the limit it used when that limit is positive
    and 0 otherwise, and is at most 100. *)
Theorem ListUsers_at_most_100 (svc : string) (s : State) :
  let lq := default "10" (query_value s "limit") in
  let pq := default "1" (query_value s "page") in
  let limit := fst (fst (pagination lq pq)) in
  let page := snd (fst (pagination lq pq)) in
  let run := ListUsers json_Marshal svc s in
  result run = Val None ->
  exists users,
    resp_body (response (final run)) =
      json_Marshal (JMap
        [("users", JUsers users);
         ("metadata", JMap
            [("count", JInt (Z.of_nat (length users)));
             ("limit", JInt limit); ("page", JInt page)])]) /\
    Z.of_nat (length users) <= Z.max limit 0 <= 100.
Proof.
  intros lq pq limit page run Hres.
  pose proof (ListUsers_run svc s) as R. cbv zeta in R.
  fold lq pq in R. fold limit page run in R.
  destruct R as (_ & _ & R).
  destruct (pagination_clamped lq pq) as (Hlim & _).
  fold limit in Hlim.
  destruct (pg_select_users (pg s) limit (snd (pagination lq pq))) as [rows|e] eqn:Hsel.
  - destruct R as (_ & Hbody & _). exists (scanned_users rows). split; [exact Hbody|].
    pose proof (scanned_users_length rows) as Hlen.
    unfold pg_select_users in Hsel.
    destruct (pg_fault (pg s)); [discriminate|].
    destruct (Z.ltb_spec limit 0);
      [injection Hsel as <-; cbn [length] in Hlen; lia|].
    destruct (Z.ltb_spec (snd (pagination lq pq)) 0);
      [injection Hsel as <-; cbn [length] in Hlen; lia|].
    assert (Hrows : (length rows <= Z.to_nat limit)%nat)
      by (injection Hsel as <-; rewrite length_take; lia).
    lia.
  - destruct R as (Hr & _). rewrite Hr in Hres. discriminate.
Qed.

(** X14.  A negative limit is neither clamped nor rejected.  It is sent
    to the store as it is; the server's error for it is never read, so
    with the store reachable [ListUsers] succeeds with an empty list,
    reports the negative limit in the metadata, and logs nothing at
    error level. *)
Theorem ListUsers_negative_limit (svc : string) (s : State) (v : string) :
  query_value s "limit" = Some v ->
  fst (strconv.Atoi v) < 0 ->
  pg_fault (pg s) = None ->
  let page := Z.max (fst (strconv.Atoi (default "1" (query_value s "page")))) 1 in
  let run := ListUsers json_Marshal svc s in
  result run = Val None /\
  resp_body (response (final run)) =
    json_Marshal (JMap
      [("users", JUsers []);
       ("metadata", JMap
          [("count", JInt 0); ("limit", JInt (fst (strconv.Atoi v)));
           ("page", JInt page)])]) /\
  count (is_level ErrorLevel) (trace run) = 0%nat.
Proof.
  intros Hq Hl Hf page run.
  pose proof (ListUsers_run svc s) as R. cbv zeta in R. fold run in R.
  destruct R as (_ & _ & R).
  rewrite Hq in R. change (default "10" (Some v)) with v in R.
  destruct (pagination_clamped v (default "1" (query_value s "page")))
    as (Hlim & Hpage & _).
  rewrite Hlim, Hpage in R.
  replace (Z.min (fst (strconv.Atoi v)) 100) with (fst (strconv.Atoi v)) in R by lia.
  unfold pg_select_users in R. rewrite Hf in R.
  destruct (Z.ltb_spec (fst (strconv.Atoi v)) 0); [|lia].
  cbn [scanned_users length Z.of_nat existsb] in R.
  destruct R as (R1 & R2 & _ & R4). repeat split; assumption.
Qed.

(** X15.  A page past the end of the table is answered with an empty
    list, not with an error: with the store reachable, a limit that is
    not negative and an offset (no overflow) at or beyond the number of
    rows, [ListUsers] succeeds with no users and count 0. *)
Theorem ListUsers_page_past_end (svc : string) (s : State) :
  let lq := default "10" (query_value s "limit") in
  let pq := default "1" (query_value s "page") in
  let limit := Z.min (fst (strconv.Atoi lq)) 100 in
  let page := Z.max (fst (strconv.Atoi pq)) 1 in
  let run := ListUsers json_Marshal svc s in
  pg_fault (pg s) = None ->
  0 <= limit ->
  (page - 1) * limit <= int_max ->
  Z.of_nat (length (pg_rows (pg s))) <= (page - 1) * limit ->
  result run = Val None /\
  resp_body (response (final run)) =
    json_Marshal (JMap
      [("users", JUsers []);
       ("metadata", JMap [("count", JInt 0); ("limit", JInt limit); ("page", JInt page)])]).
Proof.
  intros lq pq limit page run Hf Hl Hov Hlen.
  pose proof (ListUsers_run svc s) as R. cbv zeta in R. fold lq pq run in R.
  destruct R as (_ & _ & R).
  destruct (pagination_clamped lq pq) as (Hlim & Hpage & Hoff & Hexact).
  fold limit in Hlim. fold page in Hpage.
  rewrite Hlim, Hpage in Hexact, R.
  assert (Hrange : int_min <= (page - 1) * limit <= int_max).
  { split; [|exact Hov]. unfold int_min. nia. }
  specialize (Hexact Hrange).
  rewrite Hexact in R.
  unfold pg_select_users in R. rewrite Hf in R.
  destruct (Z.ltb_spec limit 0); [lia|].
  destruct (Z.ltb_spec ((page - 1) * limit) 0); [nia|].
  rewrite drop_ge in R by lia.
  rewrite take_nil in R. cbn [scanned_users omap length Z.of_nat] in R.
  destruct R as (R1 & R2 & _). split; assumption.
Qed.

(** X16.  A row that does not scan ends the page.  When the store
    answers with rows of which one does not scan, [ListUsers] still
    succeeds: the response carries the users before that row and their
    number as count, one error-level "Failed to scan user row" entry is
    logged, and the rows after it are dropped without any further entry,
    whatever they are. *)
Theorem ListUsers_bad_row_ends_page (svc : string) (s : State) (good : list User)
    (id : Z) (cause : string) (rest : list PgRow) :
  let lq := default "10" (query_value s "limit") in
  let pq := default "1" (query_value s "page") in
  let run := ListUsers json_Marshal svc s in
  pg_select_users (pg s) (fst (fst (pagination lq pq))) (snd (pagination lq pq))
    = inl (map GoodRow good ++ BadRow id cause :: rest) ->
  result run = Val None /\
  resp_body (response (final run)) =
    json_Marshal (JMap
      [("users", JUsers good);
       ("metadata", JMap
          [("count", JInt (Z.of_nat (length good)));
           ("limit", JInt (fst (fst (pagination lq pq))));
           ("page", JInt (snd (fst (pagination lq pq))))])]) /\
  count (is_log ErrorLevel "Failed to scan user row") (trace run) = 1%nat /\
  count (is_level ErrorLevel) (trace run) = 1%nat.
Proof.
  intros lq pq run Hsel.
  pose proof (ListUsers_run svc s) as R. cbv zeta in R. fold lq pq run in R.
  destruct R as (_ & _ & R). rewrite Hsel in R.
  destruct (scanned_users_prefix good id cause rest) as [E1 E2].
  rewrite E1, E2 in R. exact R.
Qed.

End Listing.

Lemma ListUsers_at_most_100_witness :
  let run := ListUsers sample_Marshal "svc" state_list_mixed in
  exists users,
    resp_body (response (final run)) =
      sample_Marshal (JMap
        [("users", JUsers users);
         ("metadata", JMap
            [("count", JInt (Z.of_nat (length users)));
             ("limit", JInt 10); ("page", JInt 1)])]) /\
    Z.of_nat (length users) <= 10 <= 100.
Proof.
  exact (ListUsers_at_most_100 sample_Marshal "svc" state_list_mixed eq_refl).
Defined.

Lemma ListUsers_negative_limit_witness :
  let run := ListUsers sample_Marshal "svc" state_list_negative in
  pg_rows (pg state_list_negative) = [GoodRow alice] /\
  result run = Val None /\
  resp_body (response (final run)) =
    sample_Marshal (JMap
      [("users", JUsers []);
       ("metadata", JMap [("count", JInt 0); ("limit", JInt (-5)); ("page", JInt 1)])]) /\
  count (is_level ErrorLevel) (trace run) = 0%nat.
Proof.
  cbv zeta. split; [reflexivity|].
  apply (ListUsers_negative_limit sample_Marshal "svc" state_list_negative "-5");
    [reflexivity|vm_compute; reflexivity|reflexivity].
Defined.

Lemma ListUsers_page_past_end_witness :
  let run := ListUsers sample_Marshal "svc" state_list_far in
  result run = Val None /\
  resp_body (response (final run)) =
    sample_Marshal (JMap
      [("users", JUsers []);
       ("metadata", JMap [("count", JInt 0); ("limit", JInt 10); ("page", JInt 3)])]).
Proof.
  pose proof (ListUsers_page_past_end sample_Marshal "svc" state_list_far) as W.
  cbv zeta in W. apply W; [reflexivity| | |]; vm_compute; discriminate.
Defined.

(** Three rows of which the second does not scan: Alice is listed, Bob
    is not. *)
Lemma ListUsers_bad_row_ends_page_witness :
  let run := ListUsers sample_Marshal "svc" state_list_mixed in
  result run = Val None /\
  resp_body (response (final run)) =
    sample_Marshal (JMap
      [("users", JUsers [alice]);
       ("metadata", JMap [("count", JInt 1); ("limit", JInt 10); ("page", JInt 1)])]) /\
  count (is_log ErrorLevel "Failed to scan user row") (trace run) = 1%nat /\
  count (is_level ErrorLevel) (trace run) = 1%nat.
Proof.
  exact (ListUsers_bad_row_ends_page sample_Marshal "svc" state_list_mixed [alice] 2
           "cannot scan NULL into *string" [GoodRow (mkUser 3 "Bob" "b@x.com" 0)] eq_refl).
Defined.

(* ------------------------------------------------------------------ *)
(** ** The chain with tracing disabled *)

Section Untraced.

Variable json_Marshal : JSON -> string.
Variable debug_Stack : string.

(** X17.  With tracing disabled the tracing stage is not in the chain:
    around a handler that returns, the chain is the logging stage alone.
    The handler runs in the request state as it came in, the chain leaves
    the state as the handler left it, and it adds the entry of the
    request, the metrics and the completion entries, and no span event. *)
Theorem untraced_chain_is_logging_only (svc : string) (route : Handler) (s s1 : State)
    (err : option GoError) (inner : list Event) :
  tracing_enabled s = false ->
  route s = (Val err, s1, inner) ->
  middleware_chain json_Marshal debug_Stack svc route s =
    (Val err, s1, incoming_entry s :: inner ++ completion_events s s1 err) /\
  count is_span_event (incoming_entry s :: inner ++ completion_events s s1 err) =
    count is_span_event inner.
Proof.
  intros H E. split.
  - unfold middleware_chain, RecoveryMiddleware.
    cbv beta iota zeta delta [with_recover]. rewrite H.
    rewrite (LoggingMiddleware_run route _ _ _ _ E). reflexivity.
  - cbn [count is_span_event incoming_entry]. rewrite count_app.
    unfold completion_events. destruct err; cbn; lia.
Qed.

End Untraced.

Lemma untraced_chain_is_logging_only_witness :
  let s := sample_state (sample_request "GET" "/debug/error" [] []) false redis_up pg_up in
  let err := Some (FiberError 400 "This is a deliberate error") in
  middleware_chain sample_Marshal "" "svc" route_debug_error s =
    (Val err, s, incoming_entry s :: [] ++ completion_events s s err) /\
  count is_span_event (incoming_entry s :: [] ++ completion_events s s err) =
    count is_span_event [].
Proof.
  exact (untraced_chain_is_logging_only sample_Marshal "" "svc" route_debug_error
           (sample_state (sample_request "GET" "/debug/error" [] []) false redis_up pg_up)
           _ _ [] eq_refl eq_refl).
Defined.

(* ------------------------------------------------------------------ *)
(** ** Startup *)

Ltac boot_step o :=
  destruct o as [?|]; [try solve [intros _; split; reflexivity]|].

(** X18.  A startup that fails runs no deferred shutdown.  Whenever
    [main] does not end with a clean exit, no close or shutdown call has
    been made: every subsystem opened before the failure is left open. *)
Theorem main_failed_startup_skips_teardown (b : Boot) :
  snd (main b) <> ExitOK ->
  calls (fst (fst (main b))) = [] /\
  left_open (fst (fst (main b))) (snd (fst (main b))) =
    List.filter (initialized (snd (fst (main b))))
      [Cache; StorePool; MetricsExporter; TraceExporter; LogExporter].
Proof.
  destruct b as [tr lr le lz tre tex mex mre mru dp dc dpi rp rt rm rpi mi cl].
  unfold main, boot.InitLogger, boot.InitTracer, boot.InitMetrics, boot.InitDatabase,
    boot.InitRedis, boot.RunMigrations.
  cbn [boot_tracing logger_resource logger_exporter logger_zap_build tracer_resource
       tracer_exporter metrics_exporter metrics_resource metrics_runtime db_parse
       db_connect db_ping redis_parse redis_tracing redis_metrics redis_ping
       migrate_exec closing].
  boot_step lr. boot_step le. boot_step lz.
  destruct mru as [?|]; (destruct tr; cbn [negb];
    [boot_step tre; boot_step tex|]);
    boot_step mex; boot_step mre;
    boot_step dp; boot_step dc; boot_step dpi;
    boot_step rp; boot_step rt; boot_step rm; boot_step rpi;
    boot_step mi; intros H; exfalso; apply H; reflexivity.
Qed.

Lemma main_failed_startup_skips_teardown_witness :
  snd (main boot_ping_fails) =
    ExitFatal "Failed to initialize database"
              "failed to ping database: connection refused" /\
  calls (fst (fst (main boot_ping_fails))) = [] /\
  left_open (fst (fst (main boot_ping_fails))) (snd (fst (main boot_ping_fails))) =
    List.filter (initialized (snd (fst (main boot_ping_fails))))
      [Cache; StorePool; MetricsExporter; TraceExporter; LogExporter].
Proof.
  split; [reflexivity|].
  apply (main_failed_startup_skips_teardown boot_ping_fails). discriminate.
Defined.

(** A failed ping of the store: the pool and the three exporters stay open. *)
Example failed_ping_leaves_pool_open :
  left_open (fst (fst (main boot_ping_fails))) (snd (fst (main boot_ping_fails))) =
    [StorePool; MetricsExporter; TraceExporter; LogExporter].
Proof. reflexivity. Qed.

Ltac boot_case o :=
  destruct o as [?|];
  [try solve [split; [intros H; discriminate H
                     | intros H; unfold boot_succeeds in H;
                       cbn in H; decompose [and] H; first [discriminate | tauto |
                         match goal with
                         | K : true = true -> _ |- _ =>
                             destruct (K eq_refl); discriminate
                         end]]]|].

(** X19.  [main] reaches a clean exit exactly when every fatal call of
    startup succeeds.  A failure to start the runtime metrics is not
    among them, and the two calls of the tracer count only when tracing
    is enabled. *)
Theorem main_exit_ok_iff (b : Boot) :
  snd (main b) = ExitOK <-> boot_succeeds b.
Proof.
  destruct b as [tr lr le lz tre tex mex mre mru dp dc dpi rp rt rm rpi mi cl].
  unfold main, boot.InitLogger, boot.InitTracer, boot.InitMetrics, boot.InitDatabase,
    boot.InitRedis, boot.RunMigrations.
  cbn [boot_tracing logger_resource logger_exporter logger_zap_build tracer_resource
       tracer_exporter metrics_exporter metrics_resource metrics_runtime db_parse
       db_connect db_ping redis_parse redis_tracing redis_metrics redis_ping
       migrate_exec closing].
  boot_case lr. boot_case le. boot_case lz.
  destruct mru as [?|]; (destruct tr; cbn [negb];
    [boot_case tre; boot_case tex|]);
    boot_case mex; boot_case mre;
    boot_case dp; boot_case dc; boot_case dpi;
    boot_case rp; boot_case rt; boot_case rm; boot_case rpi;
    boot_case mi;
    (split; [intros _; unfold boot_succeeds; cbn; repeat split;
             first [reflexivity | discriminate]
            | intros _; reflexivity]).
Qed.

(** X20.  After a startup in which every fatal call succeeds, the
    teardown closes what was opened, in the reverse of the order of
    startup: server, cache, store pool, metrics exporter, trace exporter
    when tracing is enabled, log exporter; nothing is left open, whatever
    the closes return. *)
Theorem main_teardown_reverses_startup (b : Boot) :
  boot_succeeds b ->
  snd (main b) = ExitOK /\
  map fst (calls (fst (fst (main b)))) =
    [Server; Cache; StorePool; MetricsExporter] ++
    (if boot_tracing b then [TraceExporter] else []) ++ [LogExporter] /\
  left_open (fst (fst (main b))) (snd (fst (main b))) = [].
Proof.
  destruct b as [tr lr le lz tre tex mex mre mru dp dc dpi rp rt rm rpi mi cl].
  unfold boot_succeeds.
  cbn [boot_tracing logger_resource logger_exporter logger_zap_build tracer_resource
       tracer_exporter metrics_exporter metrics_resource metrics_runtime db_parse
       db_connect db_ping redis_parse redis_tracing redis_metrics redis_ping
       migrate_exec closing].
  intros (-> & -> & -> & Htr & -> & -> & -> & -> & -> & -> & -> & -> & -> & ->).
  unfold main, boot.InitLogger, boot.InitTracer, boot.InitMetrics, boot.InitDatabase,
    boot.InitRedis, boot.RunMigrations.
  cbn [boot_tracing logger_resource logger_exporter logger_zap_build tracer_resource
       tracer_exporter metrics_exporter metrics_resource metrics_runtime db_parse
       db_connect db_ping redis_parse redis_tracing redis_metrics redis_ping
       migrate_exec closing].
  destruct tr; cbn [negb].
  - destruct (Htr eq_refl) as (-> & ->).
    destruct mru, (cl Server) eqn:E1, (cl Cache) eqn:E2, (cl MetricsExporter) eqn:E3,
      (cl TraceExporter) eqn:E4, (cl LogExporter) eqn:E5;
      repeat split; cbn; rewrite ?E1, ?E2, ?E3, ?E4, ?E5; reflexivity.
  - clear Htr.
    destruct mru, (cl Server) eqn:E1, (cl Cache) eqn:E2, (cl MetricsExporter) eqn:E3,
      (cl LogExporter) eqn:E5;
      repeat split; cbn; rewrite ?E1, ?E2, ?E3, ?E5; reflexivity.
Qed.

Lemma main_teardown_reverses_startup_witness :
  boot_succeeds (boot_ok false) /\
  snd (main (boot_ok false)) = ExitOK /\
  map fst (calls (fst (fst (main (boot_ok false))))) =
    [Server; Cache; StorePool; MetricsExporter] ++ [] ++ [LogExporter] /\
  left_open (fst (fst (main (boot_ok false)))) (snd (fst (main (boot_ok false)))) = [].
Proof.
  assert (H : boot_succeeds (boot_ok false)).
  { unfold boot_succeeds, boot_ok. cbn. repeat split; discriminate. }
  split; [exact H|].
  exact (main_teardown_reverses_startup (boot_ok false) H).
Defined.

(* ------------------------------------------------------------------ *)
(** ** pkg/config *)

Lemma ParseBool_false (v : string) :
  ParseBool v = Some false <-> In v ["0"; "f"; "F"; "FALSE"; "false"; "False"].
Proof.
  unfold ParseBool. split.
  - destruct (existsb (String.eqb v) ["1"; "t"; "T"; "TRUE"; "true"; "True"]);
      [discriminate|].
    destruct (existsb (String.eqb v) ["0"; "f"; "F"; "FALSE"; "false"; "False"]) eqn:E;
      [|discriminate].
    intros _. apply existsb_exists in E as (x & Hx & Ex).
    apply String.eqb_eq in Ex. subst x. exact Hx.
  - intros H. cbn [In] in H.
    repeat (destruct H as [<-|H]; [reflexivity|]). destruct H.
Qed.

Lemma os_Getenv_empty (env : gmap string string) (k key : string) :
  os_Getenv (<[k := ""]> env) key = os_Getenv (delete k env) key.
Proof.
  unfold os_Getenv. destruct (decide (k = key)) as [->|Hne].
  - rewrite lookup_insert_eq, lookup_delete_eq. reflexivity.
  - rewrite lookup_insert_ne, lookup_delete_ne by exact Hne. reflexivity.
Qed.

(** X21.  Tracing is on by default, and the environment turns it off
    with one of six spellings only: OTEL_TRACING_ENABLED set to "0", "f",
    "F", "FALSE", "false" or "False".  Any other value (no, off, an empty
    string) leaves tracing enabled. *)
Theorem NewConfig_tracing_disabled_iff (Float64 : Type)
    (ParseFloat : string -> option Float64) (ParseDuration : string -> option Z)
    (Version : string) (one : Float64) (env : gmap string string) :
  TracingEnabled Float64 (NewConfig Float64 ParseFloat ParseDuration Version one env) = false <->
  exists v, env !! "OTEL_TRACING_ENABLED" = Some v /\
            In v ["0"; "f"; "F"; "FALSE"; "false"; "False"].
Proof.
  unfold NewConfig. cbn [TracingEnabled]. unfold getEnvBool, os_Getenv.
  destruct (env !! "OTEL_TRACING_ENABLED") as [v|]; cbn [default from_option id].
  - destruct v as [|a w].
    + split; [discriminate|].
      intros (v & [= <-] & H). cbn [In] in H.
      repeat (destruct H as [H|H]; [discriminate H|]). destruct H.
    + split.
      * destruct (ParseBool (String a w)) as [[|]|] eqn:E; intros H;
          try discriminate H.
        exists (String a w). split; [reflexivity|].
        apply ParseBool_false. exact E.
      * intros (v & [= <-] & H). apply ParseBool_false in H. rewrite H. reflexivity.
  - split; [discriminate|]. intros (v & H & _). discriminate H.
Qed.

(** X22.  The configuration cannot tell a variable that is set to the
    empty string from one that is not set: both give the same [Config],
    whatever the variable. *)
Theorem NewConfig_empty_is_unset (Float64 : Type)
    (ParseFloat : string -> option Float64) (ParseDuration : string -> option Z)
    (Version : string) (one : Float64) (env : gmap string string) (k : string) :
  NewConfig Float64 ParseFloat ParseDuration Version one (<[k := ""]> env) =
  NewConfig Float64 ParseFloat ParseDuration Version one (delete k env).
Proof.
  unfold NewConfig, DatabaseURL, RedisURL, getEnv, getEnvBool, getEnvInt,
    getEnvDuration, getEnvFloat.
  rewrite !os_Getenv_empty. reflexivity.
Qed.
